(** * PerformanceOverlay: the telemetry sampler and the rolling CPU history

    A shallow embedding of [PerformanceMonitor] (PerformanceMonitor.h/.cpp) and
    of the history buffer kept by [Gui::RenderPerformanceWindow] (Gui.cpp),
    with the properties of the sampling subsystem stated over them; then of
    the rest of the program around them: the life of the [Gui] object and
    [RenderShadow] (Gui.cpp), the Direct3D renderer (D3D11Renderer.cpp), and
    [WinMain], its message loop, the window procedure and the tray icon
    (main.cpp).

    Conventions.
    - C++ [float] is IEEE binary32: [spec_float] at precision 24, emax 128,
      every operation rounding to nearest-even.
    - [ULONG] is a 32-bit unsigned integer, [long]/[int] are 32-bit signed
      (Windows LLP64); they are values of [Z] with the wrap-around written out.
    - A COM interface pointer is [option addr]; [None] is [nullptr].
    - The operating system (COM, WMI, Direct3D, Dear ImGui, the shell) is the
      environment: every call into it receives its outcome from an explicit
      argument and, where the order of calls matters, is recorded in a trace
      of calls. *)

From Stdlib Require Import String Ascii.
From Stdlib Require Import ZArith List Bool Lia SpecFloat.
Import ListNotations.
Local Open Scope Z_scope.

(** ** binary32 arithmetic *)

Module Float32.

Definition prec : Z := 24.
Definition emax : Z := 128.

Definition float : Type := spec_float.

(** [0.0f] *)
Definition zero : float := S754_zero false.

(** [static_cast<float>(n)] for an integer [n]. *)
Definition of_Z (n : Z) : float := binary_normalize prec emax n 0 false.

Definition div (x y : float) : float := SFdiv prec emax x y.
Definition mul (x y : float) : float := SFmul prec emax x y.

(** [x < y] on floats; false as soon as one side is a NaN. *)
Definition ltb (x y : float) : bool := SFltb x y.

(** A value whose sign bit is clear, or a NaN. *)
Definition sign_clear (x : float) : bool :=
  match x with
  | S754_zero s | S754_infinity s | S754_finite s _ _ => negb s
  | S754_nan => true
  end.

End Float32.

Import Float32.

(** ** Windows base types and the C runtime *)

Module Win32.

Definition HRESULT : Type := Z.

(** [FAILED(hr)] is [hr < 0]; [SUCCEEDED(hr)] is [hr >= 0]. *)
Definition FAILED (hr : HRESULT) : bool := hr <? 0.
Definition SUCCEEDED (hr : HRESULT) : bool := 0 <=? hr.

Definition S_OK : HRESULT := 0.
Definition S_FALSE : HRESULT := 1.
Definition E_FAIL : HRESULT := -2147467259.               (* 0x80004005 *)
Definition WBEM_E_ACCESS_DENIED : HRESULT := -2147217405. (* 0x80041003 *)

Definition LONG_MAX : Z := 2147483647.
Definition LONG_MIN : Z := -2147483648.

(** Conversion of an integer to [ULONG] (32-bit [unsigned long]). *)
Definition to_ULONG (n : Z) : Z := n mod 2 ^ 32.

(** An interface pointer: [None] is [nullptr]. *)
Definition addr : Type := nat.
Definition pointer : Type := option addr.
Definition nullptr : pointer := None.

(** *** [_wtol]

    The C runtime's conversion of a string to [long]: leading white space is
    skipped, an optional sign is read, then decimal digits up to the first
    character that is not one; a string with no digits there gives 0, and a
    value outside [long] gives [LONG_MAX] or [LONG_MIN]. *)

Definition iswspace (c : ascii) : bool :=
  let n := nat_of_ascii c in
  ((9 <=? n) && (n <=? 13))%nat || (n =? 32)%nat.

Definition digit_of (c : ascii) : option Z :=
  let n := Z.of_nat (nat_of_ascii c) in
  if (48 <=? n) && (n <=? 57) then Some (n - 48) else None.

Fixpoint skip_space (s : string) : string :=
  match s with
  | String c s' => if iswspace c then skip_space s' else s
  | EmptyString => s
  end.

Fixpoint digits (acc : Z) (s : string) : Z :=
  match s with
  | String c s' =>
      match digit_of c with
      | Some d => digits (10 * acc + d) s'
      | None => acc
      end
  | EmptyString => acc
  end.

Definition _wtol (s : string) : Z :=
  let s := skip_space s in
  let '(negative, s) :=
    match s with
    | String "-" s' => (true, s')
    | String "+" s' => (false, s')
    | _ => (false, s)
    end in
  let n := digits 0 s in
  Z.max LONG_MIN (Z.min LONG_MAX (if negative then - n else n)).

End Win32.

Import Win32.

(** ** The WMI provider as the sampler sees it *)

Module Wmi.

(** The [VARIANT] a property read fills in: the type tag [vt] with the
    member of the union that tag selects. *)
Inductive VARIANT : Type :=
| VT_EMPTY
| VT_NULL
| VT_I2 (iVal : Z)
| VT_I4 (lVal : Z)
| VT_R4 (fltVal : float)
| VT_BSTR (bstrVal : string)
| VT_BOOL (boolVal : bool)
| VT_UI1 (bVal : Z)
| VT_other (vt : Z).

(** [IWbemClassObject::Get(name, 0, &vtProp, nullptr, nullptr)]:
    [Some v] when the call succeeds and stores [v], [None] when it fails. *)
Record IWbemClassObject : Type := { Get : string -> option VARIANT }.

(** [IEnumWbemClassObject::Next(WBEM_INFINITE, 1, &pClsObj, &uReturn)]:
    [Some obj] when it returns [WBEM_S_NO_ERROR] with one object, [None] for
    every other return value (no more objects, or an error). *)
Record IEnumWbemClassObject : Type := { Next : option IWbemClassObject }.

(** [IWbemServices::ExecQuery("WQL", query, ..., &pEnumerator)] during one
    refresh: [Some e] when it succeeds with the enumerator [e], [None] when
    [FAILED(hRes)]. *)
Record IWbemServices : Type := { ExecQuery : string -> option IEnumWbemClassObject }.

(** A textual numeric encoding, in the words of the specification: a
    non-empty string of decimal digits. *)
Fixpoint all_digits (s : string) : bool :=
  match s with
  | String c s' =>
      match digit_of c with
      | Some _ => all_digits s'
      | None => false
      end
  | EmptyString => true
  end.

Definition is_decimal_text (s : string) : bool :=
  match s with
  | EmptyString => false
  | _ => all_digits s
  end.

(** Providers given by finite tables, for concrete scenarios. *)
Fixpoint assoc {A : Type} (k : string) (l : list (string * A)) : option A :=
  match l with
  | [] => None
  | (k', v) :: l' => if String.eqb k k' then Some v else assoc k l'
  end.

Definition object_of (props : list (string * VARIANT)) : IWbemClassObject :=
  {| Get := fun name => assoc name props |}.

(** A service that answers the listed queries, each with an enumerator that
    yields the given object or none, and fails every other query. *)
Definition service_of (answers : list (string * option IWbemClassObject))
  : IWbemServices :=
  {| ExecQuery := fun query =>
       match assoc query answers with
       | Some next => Some {| Next := next |}
       | None => None
       end |}.

End Wmi.

Import Wmi.

(** ** PerformanceMonitor.cpp *)

Module PerformanceMonitor.

Record State : Type := mkState {
  m_pLocator    : pointer;   (* IWbemLocator*  *)
  m_pServices   : pointer;   (* IWbemServices* *)
  m_cpuLoad     : float;
  m_memoryUsage : float;
  m_diskUsage   : float
}.

(** [PerformanceMonitor::PerformanceMonitor()] (lines 11-18). *)
Definition new : State :=
  {| m_pLocator := nullptr; m_pServices := nullptr;
     m_cpuLoad := zero; m_memoryUsage := zero; m_diskUsage := zero |}.

(** The accessors of PerformanceMonitor.h. *)
Definition GetCpuLoad (m : State) : float := m_cpuLoad m.
Definition GetMemoryUsage (m : State) : float := m_memoryUsage m.
Definition GetDiskUsage (m : State) : float := m_diskUsage m.

Definition set_pLocator (p : pointer) (m : State) : State :=
  mkState p (m_pServices m) (m_cpuLoad m) (m_memoryUsage m) (m_diskUsage m).
Definition set_pServices (p : pointer) (m : State) : State :=
  mkState (m_pLocator m) p (m_cpuLoad m) (m_memoryUsage m) (m_diskUsage m).
Definition set_cpuLoad (v : float) (m : State) : State :=
  mkState (m_pLocator m) (m_pServices m) v (m_memoryUsage m) (m_diskUsage m).
Definition set_memoryUsage (v : float) (m : State) : State :=
  mkState (m_pLocator m) (m_pServices m) (m_cpuLoad m) v (m_diskUsage m).
Definition set_diskUsage (v : float) (m : State) : State :=
  mkState (m_pLocator m) (m_pServices m) (m_cpuLoad m) (m_memoryUsage m) v.

(** *** The connection life cycle *)

(** A call into COM made by [Initialize] or [Shutdown], with what it was
    given and what it returned. *)
Inductive ComCall : Type :=
| Call_CoInitializeEx (hRes : HRESULT)
| Call_CoInitializeSecurity (hRes : HRESULT)
| Call_CoCreateInstance (hRes : HRESULT) (ppv : pointer)
| Call_ConnectServer (this : pointer) (hRes : HRESULT) (ppNamespace : pointer)
| Call_CoSetProxyBlanket (pProxy : pointer) (hRes : HRESULT)
| Call_Release (this : pointer)
| Call_CoUninitialize.

(** What COM answers to the five set-up calls of one [Initialize]: the
    [HRESULT] of each and, for the two calls that create an object, the
    object they return when they succeed. *)
Record ComEnvironment : Type := {
  CoInitializeEx       : HRESULT;
  CoInitializeSecurity : HRESULT;
  CoCreateInstance     : HRESULT * addr;
  ConnectServer        : HRESULT * addr;
  CoSetProxyBlanket    : HRESULT
}.

(** The interface pointer a creating call stores through its out
    parameter: the new object on success, [nullptr] on failure. *)
Definition out_pointer (r : HRESULT * addr) : pointer :=
  if FAILED (fst r) then nullptr else Some (snd r).

(** [bool PerformanceMonitor::Initialize()] (lines 24-106): the result, the
    object afterwards and the COM calls made, in order. *)
Definition Initialize (env : ComEnvironment) (m : State)
  : bool * State * list ComCall :=
  (* Step 1: Initialize COM. *)
  let hRes := CoInitializeEx env in
  let tr := [Call_CoInitializeEx hRes] in
  if FAILED hRes then (false, m, tr) else
  (* Step 2: Set general COM security levels. *)
  let hRes := CoInitializeSecurity env in
  let tr := tr ++ [Call_CoInitializeSecurity hRes] in
  if FAILED hRes then (false, m, tr ++ [Call_CoUninitialize]) else
  (* Step 3: Obtain the initial locator to WMI. *)
  let hRes := fst (CoCreateInstance env) in
  let m := set_pLocator (out_pointer (CoCreateInstance env)) m in
  let tr := tr ++ [Call_CoCreateInstance hRes (m_pLocator m)] in
  if FAILED hRes then (false, m, tr ++ [Call_CoUninitialize]) else
  (* Step 4: Connect to WMI through IWbemLocator::ConnectServer. *)
  let hRes := fst (ConnectServer env) in
  let m := set_pServices (out_pointer (ConnectServer env)) m in
  let tr := tr ++ [Call_ConnectServer (m_pLocator m) hRes (m_pServices m)] in
  if FAILED hRes
  then (false, m, tr ++ [Call_Release (m_pLocator m); Call_CoUninitialize]) else
  (* Step 5: Set security levels on the proxy. *)
  let hRes := CoSetProxyBlanket env in
  let tr := tr ++ [Call_CoSetProxyBlanket (m_pServices m) hRes] in
  if FAILED hRes
  then (false, m,
        tr ++ [Call_Release (m_pServices m); Call_Release (m_pLocator m);
               Call_CoUninitialize]) else
  (true, m, tr).

(** [void PerformanceMonitor::Shutdown()] (lines 108-123). *)
Definition Shutdown (m : State) : State * list ComCall :=
  let '(m, tr) :=
    match m_pServices m with
    | Some _ => (set_pServices nullptr m, [Call_Release (m_pServices m)])
    | None => (m, [])
    end in
  let '(m, tr) :=
    match m_pLocator m with
    | Some _ => (set_pLocator nullptr m, tr ++ [Call_Release (m_pLocator m)])
    | None => (m, tr)
    end in
  (m, tr ++ [Call_CoUninitialize]).

(** *** The COM state the calls act on *)

(** The thread's COM initialisation count, the reference count of every
    object, and the two ways a caller can break COM's rules: releasing an
    object it holds no reference to (or through [nullptr]), and calling
    [CoUninitialize] with no initialisation outstanding. *)
Record ComState : Type := mkCom {
  apartment          : nat;
  refcount           : addr -> nat;
  bad_releases       : nat;
  unbalanced_uninits : nat
}.

Definition ComState_init : ComState :=
  {| apartment := 0; refcount := fun _ => 0%nat;
     bad_releases := 0; unbalanced_uninits := 0 |}.

Definition add_ref (p : pointer) (w : ComState) : ComState :=
  match p with
  | Some a =>
      mkCom (apartment w)
            (fun b => if Nat.eqb b a then S (refcount w b) else refcount w b)
            (bad_releases w) (unbalanced_uninits w)
  | None => w
  end.

Definition release (p : pointer) (w : ComState) : ComState :=
  match p with
  | Some a =>
      match refcount w a with
      | O => mkCom (apartment w) (refcount w) (S (bad_releases w))
                   (unbalanced_uninits w)
      | S _ =>
          mkCom (apartment w)
                (fun b => if Nat.eqb b a then pred (refcount w b) else refcount w b)
                (bad_releases w) (unbalanced_uninits w)
      end
  | None => mkCom (apartment w) (refcount w) (S (bad_releases w))
                  (unbalanced_uninits w)
  end.

Definition com_step (w : ComState) (c : ComCall) : ComState :=
  match c with
  | Call_CoInitializeEx hRes =>
      if FAILED hRes then w
      else mkCom (S (apartment w)) (refcount w) (bad_releases w)
                 (unbalanced_uninits w)
  | Call_CoInitializeSecurity _ => w
  | Call_CoCreateInstance _ ppv => add_ref ppv w
  | Call_ConnectServer _ _ ppNamespace => add_ref ppNamespace w
  | Call_CoSetProxyBlanket _ _ => w
  | Call_Release this => release this w
  | Call_CoUninitialize =>
      match apartment w with
      | O => mkCom O (refcount w) (bad_releases w) (S (unbalanced_uninits w))
      | S n => mkCom n (refcount w) (bad_releases w) (unbalanced_uninits w)
      end
  end.

Definition com_run (tr : list ComCall) (w : ComState) : ComState :=
  fold_left com_step tr w.

(** Two COM states that agree on every count. *)
Definition com_same (w w' : ComState) : Prop :=
  apartment w' = apartment w /\
  (forall a, refcount w' a = refcount w a) /\
  bad_releases w' = bad_releases w /\
  unbalanced_uninits w' = unbalanced_uninits w.

(** The kind of a call: one of the five set-up steps, or a clean-up call. *)
Inductive CallKind : Type :=
| LibraryInit | SecuritySetup | LocatorAcquisition | ServiceConnection
| ProxySecurity | Cleanup.

Definition kind (c : ComCall) : CallKind :=
  match c with
  | Call_CoInitializeEx _ => LibraryInit
  | Call_CoInitializeSecurity _ => SecuritySetup
  | Call_CoCreateInstance _ _ => LocatorAcquisition
  | Call_ConnectServer _ _ _ => ServiceConnection
  | Call_CoSetProxyBlanket _ _ => ProxySecurity
  | Call_Release _ | Call_CoUninitialize => Cleanup
  end.

Definition setup_order : list CallKind :=
  [LibraryInit; SecuritySetup; LocatorAcquisition; ServiceConnection;
   ProxySecurity].

(** The results COM has for the five set-up calls, in that order. *)
Definition step_results (env : ComEnvironment) : list HRESULT :=
  [CoInitializeEx env; CoInitializeSecurity env; fst (CoCreateInstance env);
   fst (ConnectServer env); CoSetProxyBlanket env].

(** *** Sampling *)

Definition CPU_QUERY : string :=
  "SELECT PercentProcessorTime FROM Win32_PerfFormattedData_PerfOS_Processor WHERE Name='_Total'".
Definition MEMORY_QUERY : string :=
  "SELECT TotalVisibleMemorySize, FreePhysicalMemory FROM Win32_OperatingSystem".
Definition DISK_QUERY : string :=
  "SELECT PercentDiskTime FROM Win32_PerfFormattedData_PerfDisk_PhysicalDisk WHERE Name='_Total'".

(** [bool GetWmiPropertyValue(wqlQuery, propertyName, ULONG& value) const]
    (lines 191-239): [Some value] when it returns [true] having written
    [value], [None] when it returns [false]. *)
Definition GetWmiPropertyValue (svc : IWbemServices)
    (wqlQuery propertyName : string) : option Z :=
  match ExecQuery svc wqlQuery with
  | None => None                                   (* FAILED(hRes) *)
  | Some pEnumerator =>
      match Next pEnumerator with
      | Some pClsObj =>
          match Get pClsObj propertyName with
          | Some (VT_BSTR bstrVal) => Some (to_ULONG (_wtol bstrVal))
          | Some (VT_I4 lVal) => Some (to_ULONG lVal)   (* vtProp.ulVal *)
          | _ => None
          end
      | None => None
      end
  end.

(** [100.0f] *)
Definition hundred : float := of_Z 100.

(** Lines 171-172, on two [ULONG]s:
    [(static_cast<float>(totalMemory - freeMemory) /
      static_cast<float>(totalMemory)) * 100.0f]. *)
Definition memory_percent (totalMemory freeMemory : Z) : float :=
  mul (div (of_Z (to_ULONG (totalMemory - freeMemory))) (of_Z totalMemory))
      hundred.

(** The [_wtol(vtProp.bstrVal)] of lines 159-160 and 163-164.  The result of
    [Get] is discarded and [bstrVal] is read whatever the variant holds: the
    read is defined only when the property came back as a string ([None]
    otherwise). *)
Definition wtol_bstrVal (r : option VARIANT) : option Z :=
  match r with
  | Some (VT_BSTR bstrVal) => Some (to_ULONG (_wtol bstrVal))
  | _ => None
  end.

(** The memory block of [Update] (lines 142-177).  [None]: the block read a
    [bstrVal] that is not there, and the behaviour of the program is
    undefined from then on. *)
Definition update_memory (svc : IWbemServices) (m : State) : option State :=
  match ExecQuery svc MEMORY_QUERY with
  | Some pEnumerator =>
      match Next pEnumerator with
      | Some pClsObj =>
          match wtol_bstrVal (Get pClsObj "TotalVisibleMemorySize") with
          | Some totalMemory =>
              match wtol_bstrVal (Get pClsObj "FreePhysicalMemory") with
              | Some freeMemory =>
                  if 0 <? totalMemory
                  then Some (set_memoryUsage (memory_percent totalMemory freeMemory) m)
                  else Some m
              | None => None
              end
          | None => None
          end
      | None => Some m
      end
  | None => Some m
  end.

(** "Update the CPU load" (lines 132-140). *)
Definition update_cpu (svc : IWbemServices) (m : State) : State :=
  match GetWmiPropertyValue svc CPU_QUERY "PercentProcessorTime" with
  | Some cpuLoadPercent => set_cpuLoad (of_Z cpuLoadPercent) m
  | None => m
  end.

(** "Update disk usage" (lines 179-187). *)
Definition update_disk (svc : IWbemServices) (m : State) : State :=
  match GetWmiPropertyValue svc DISK_QUERY "PercentDiskTime" with
  | Some diskUsagePercent => set_diskUsage (of_Z diskUsagePercent) m
  | None => m
  end.

(** [void PerformanceMonitor::Update()] (lines 125-188); [svc] is what the
    service behind [m_pServices] answers during this call.  The definition
    takes the answers from the environment whatever the pointer.  For a
    pointer that [Initialize] released without clearing it (a failure at the
    proxy step) the source calls through a released interface, which is
    undefined; the definition is not meant for that state, which no caller of
    [Update] reaches: main.cpp:145-152 returns when [Initialize] fails. *)
Definition Update (svc : IWbemServices) (m : State) : option State :=
  match m_pServices m with
  | None => Some m                                  (* if (!m_pServices) return; *)
  | Some _ =>
      match update_memory svc (update_cpu svc m) with
      | Some m => Some (update_disk svc m)
      | None => None
      end
  end.

(** *** Histories of calls on one monitor *)

Inductive Call : Type :=
| DoInitialize (env : ComEnvironment)
| DoUpdate (svc : IWbemServices)
| DoShutdown.

Definition call (c : Call) (m : State) : option State :=
  match c with
  | DoInitialize env => Some (snd (fst (Initialize env m)))
  | DoUpdate svc => Update svc m
  | DoShutdown => Some (fst (Shutdown m))
  end.

Fixpoint run (cs : list Call) (m : State) : option State :=
  match cs with
  | [] => Some m
  | c :: cs' =>
      match call c m with
      | Some m' => run cs' m'
      | None => None
      end
  end.

(** The COM calls a history of [Initialize] and [Shutdown] calls makes. *)
Fixpoint com_trace (cs : list Call) (m : State) : list ComCall :=
  match cs with
  | [] => []
  | c :: cs' =>
      match c with
      | DoInitialize env =>
          snd (Initialize env m) ++ com_trace cs' (snd (fst (Initialize env m)))
      | DoShutdown => snd (Shutdown m) ++ com_trace cs' (fst (Shutdown m))
      | DoUpdate _ => com_trace cs' m
      end
  end.

(** Whether a call is an [Update] whose query for the metric succeeded. *)
Definition cpu_sampled (c : Call) : bool :=
  match c with
  | DoUpdate svc =>
      match GetWmiPropertyValue svc CPU_QUERY "PercentProcessorTime" with
      | Some _ => true
      | None => false
      end
  | _ => false
  end.

Definition disk_sampled (c : Call) : bool :=
  match c with
  | DoUpdate svc =>
      match GetWmiPropertyValue svc DISK_QUERY "PercentDiskTime" with
      | Some _ => true
      | None => false
      end
  | _ => false
  end.

Definition memory_sampled (c : Call) : bool :=
  match c with
  | DoUpdate svc =>
      match ExecQuery svc MEMORY_QUERY with
      | Some pEnumerator =>
          match Next pEnumerator with
          | Some _ => true
          | None => false
          end
      | None => false
      end
  | _ => false
  end.


End PerformanceMonitor.

(** ** Gui.cpp: the CPU history kept by [Gui::RenderPerformanceWindow] *)

Module Gui.

(** The three function-local statics of [RenderPerformanceWindow]
    (Gui.cpp:165-167). *)
Record History : Type := mkHistory {
  cpuHistory   : list float;   (* static float cpuHistory[90] *)
  historyIndex : Z;            (* static int   historyIndex   *)
  filled       : bool          (* static bool  filled         *)
}.

(** Their static initialisers: [= {}], [0], [false]. *)
Definition History_init : History :=
  {| cpuHistory := repeat zero 90; historyIndex := 0; filled := false |}.

(** [a[i] = v] on an array held as a list.  An index outside the array is
    undefined behaviour in the source; the list is then left as it is. *)
Definition store (a : list float) (i : Z) (v : float) : list float :=
  if (0 <=? i) && (i <? Z.of_nat (length a))
  then firstn (Z.to_nat i) a ++ v :: skipn (S (Z.to_nat i)) a
  else a.

(** "Update history buffer" (Gui.cpp:169-174):
<<
    cpuHistory[historyIndex] = cpu;
    if (historyIndex == 89) { filled = true; }
    historyIndex = (historyIndex + 1) % 90;
>>
    [%] on [int] truncates towards zero, hence [Z.rem]. *)
Definition Push (cpu : float) (h : History) : History :=
  let cpuHistory'   := store (cpuHistory h) (historyIndex h) cpu in
  let filled'       := if historyIndex h =? 89 then true else filled h in
  let historyIndex' := Z.rem (historyIndex h + 1) 90 in
  {| cpuHistory := cpuHistory'; historyIndex := historyIndex'; filled := filled' |}.

(** The history after the frames that pushed [vs], oldest first. *)
Definition pushes (vs : list float) (h : History) : History :=
  fold_left (fun h v => Push v h) vs h.

(** The sample sequence [ImGui::PlotLines(label, values, values_count,
    values_offset, ...)] draws: sample [i] is
    [values[(i + values_offset) % values_count]], for [i < values_count]. *)
Definition PlotLines (values : list float) (values_count values_offset : Z)
  : list float :=
  map (fun i => nth (Z.to_nat (Z.rem (Z.of_nat i + values_offset) values_count))
                    values zero)
      (seq 0 (Z.to_nat values_count)).

(** "Render graph" (Gui.cpp:176): the ordered view handed to the plot,
    [PlotLines("", cpuHistory, 90, filled ? historyIndex : 0, ...)]. *)
Definition SnapshotOrdered (h : History) : list float :=
  PlotLines (cpuHistory h) 90 (if filled h then historyIndex h else 0).

(** The rotation of [l] that starts at position [n]. *)
Definition rotation (n : nat) (l : list float) : list float :=
  skipn n l ++ firstn n l.

(** The last [n] elements of [l]. *)
Definition lastn (n : nat) (l : list float) : list float :=
  skipn (length l - n) l.

(** What holds of the statics after the frames that pushed [vs]: the array
    keeps its 90 slots, the index and the flag follow from the number of
    pushes, and the rotation at the index is the last 90 values of the
    initial zeros followed by [vs]. *)
Definition History_inv (vs : list float) (h : History) : Prop :=
  length (cpuHistory h) = 90%nat /\
  historyIndex h = Z.of_nat (length vs) mod 90 /\
  filled h = (90 <=? length vs)%nat /\
  rotation (Z.to_nat (historyIndex h)) (cpuHistory h)
    = lastn 90 (repeat zero 90 ++ vs).

(** The part of a [Gui] object the sampler is concerned with, together with
    the statics of [RenderPerformanceWindow]. *)
Record State : Type := mkGui {
  m_perfMonitor : PerformanceMonitor.State;
  history       : History
}.

(** [m_perfMonitor.Update();], the first statement of [Gui::Render]
    (Gui.cpp:103). *)
Definition Render_Update (svc : IWbemServices) (g : State) : option State :=
  match PerformanceMonitor.Update svc (m_perfMonitor g) with
  | Some m => Some (mkGui m (history g))
  | None => None
  end.

(** The sampler-facing part of [Gui::RenderPerformanceWindow]
    (Gui.cpp:159-177): read the CPU load and push it on the history. *)
Definition RenderPerformanceWindow (g : State) : State :=
  let cpu := PerformanceMonitor.GetCpuLoad (m_perfMonitor g) in
  mkGui (m_perfMonitor g) (Push cpu (history g)).

(** [void Gui::Render()] (Gui.cpp:100-123). *)
Definition Render (svc : IWbemServices) (g : State) : option State :=
  match Render_Update svc g with
  | Some g => Some (RenderPerformanceWindow g)
  | None => None
  end.

End Gui.

(** ** Concrete environments *)

Module Scenario.

Import PerformanceMonitor.

(** Every set-up call succeeds; the locator is object 1, the service 2. *)
Definition com_ok : ComEnvironment :=
  {| CoInitializeEx := S_OK; CoInitializeSecurity := S_OK;
     CoCreateInstance := (S_OK, 1%nat); ConnectServer := (S_OK, 2%nat);
     CoSetProxyBlanket := S_OK |}.

(** One environment per step at which [Initialize] can fail. *)
Definition com_fails_at_library_init : ComEnvironment :=
  {| CoInitializeEx := E_FAIL; CoInitializeSecurity := S_OK;
     CoCreateInstance := (S_OK, 1%nat); ConnectServer := (S_OK, 2%nat);
     CoSetProxyBlanket := S_OK |}.
Definition com_fails_at_security : ComEnvironment :=
  {| CoInitializeEx := S_OK; CoInitializeSecurity := E_FAIL;
     CoCreateInstance := (S_OK, 1%nat); ConnectServer := (S_OK, 2%nat);
     CoSetProxyBlanket := S_OK |}.
Definition com_fails_at_locator : ComEnvironment :=
  {| CoInitializeEx := S_OK; CoInitializeSecurity := S_OK;
     CoCreateInstance := (E_FAIL, 1%nat); ConnectServer := (S_OK, 2%nat);
     CoSetProxyBlanket := S_OK |}.
Definition com_fails_at_connect : ComEnvironment :=
  {| CoInitializeEx := S_OK; CoInitializeSecurity := S_OK;
     CoCreateInstance := (S_OK, 1%nat);
     ConnectServer := (WBEM_E_ACCESS_DENIED, 2%nat);
     CoSetProxyBlanket := S_OK |}.
Definition com_fails_at_proxy : ComEnvironment :=
  {| CoInitializeEx := S_OK; CoInitializeSecurity := S_OK;
     CoCreateInstance := (S_OK, 1%nat); ConnectServer := (S_OK, 2%nat);
     CoSetProxyBlanket := E_FAIL |}.

(** A monitor after a successful [Initialize]. *)
Definition connected : State := snd (fst (Initialize com_ok new)).

Definition cpu_record (text : string) : option IWbemClassObject :=
  Some (object_of [("PercentProcessorTime"%string, VT_BSTR text)]).
Definition disk_record (text : string) : option IWbemClassObject :=
  Some (object_of [("PercentDiskTime"%string, VT_BSTR text)]).
Definition memory_record (total free : string) : option IWbemClassObject :=
  Some (object_of [("TotalVisibleMemorySize"%string, VT_BSTR total);
                   ("FreePhysicalMemory"%string, VT_BSTR free)]).

(** CPU 37 %, 16 000 000 KB of memory of which 4 000 000 free; the disk
    query fails. *)
Definition disk_query_fails : IWbemServices :=
  service_of [(CPU_QUERY, cpu_record "37");
              (MEMORY_QUERY, memory_record "16000000" "4000000")].

(** All three queries answer; the disk counter reads 250. *)
Definition busy_disk : IWbemServices :=
  service_of [(CPU_QUERY, cpu_record "37");
              (MEMORY_QUERY, memory_record "16000000" "4000000");
              (DISK_QUERY, disk_record "250")].

(** The operating system reports a total memory size of 0. *)
Definition zero_total_memory : IWbemServices :=
  service_of [(CPU_QUERY, cpu_record "37");
              (MEMORY_QUERY, memory_record "0" "4000000");
              (DISK_QUERY, disk_record "5")].

(** More free memory than total memory. *)
Definition free_exceeds_total : IWbemServices :=
  service_of [(MEMORY_QUERY, memory_record "1000" "2000")].

(** Only the CPU query answers, with the given text. *)
Definition cpu_text (text : string) : IWbemServices :=
  service_of [(CPU_QUERY, cpu_record text)].

End Scenario.

(** ** Consecutive frames *)

Module Session.

(** [gui.Render()] once per frame, each frame with what the service answers
    during it; [None] as soon as one [Update] is undefined. *)
Fixpoint frames (svcs : list IWbemServices) (g : Gui.State)
  : option Gui.State :=
  match svcs with
  | [] => Some g
  | svc :: rest =>
      match Gui.Render svc g with
      | Some g' => frames rest g'
      | None => None
      end
  end.

End Session.

(** ** The connection life cycle, composed *)

Module Lifecycle.

Import PerformanceMonitor.

(** What a successful [Initialize] does to the COM state: one more
    initialisation, one reference on the locator and one on the service. *)
Definition after_connect (a b : addr) (w : ComState) : ComState :=
  add_ref (Some b)
    (add_ref (Some a)
       (mkCom (S (apartment w)) (refcount w) (bad_releases w)
              (unbalanced_uninits w))).

(** A second connection: every set-up call succeeds again, with a new
    locator (object 3) and a new service (object 4). *)
Definition com_ok_again : ComEnvironment :=
  {| CoInitializeEx := S_FALSE; CoInitializeSecurity := S_OK;
     CoCreateInstance := (S_OK, 3%nat); ConnectServer := (S_OK, 4%nat);
     CoSetProxyBlanket := S_OK |}.

(** [w] and [w'] agree on COM's initialisation count and on the number of
    calls to [CoUninitialize] made with no initialisation outstanding. *)
Definition same_initialisation (w w' : ComState) : Prop :=
  apartment w = apartment w' /\ unbalanced_uninits w = unbalanced_uninits w'.

End Lifecycle.

(** ** Gui.cpp: [RenderShadow] *)

Module Shadow.

Definition add (x y : float) : float := SFadd prec emax x y.
Definition sub (x y : float) : float := SFsub prec emax x y.

(** [1.0f], [4.0f], [255.0f] and [0.5f]. *)
Definition one : float := of_Z 1.
Definition four : float := of_Z 4.
Definition f255 : float := of_Z 255.
Definition half : float := S754_finite false 8388608 (-24).

(** [ImU32] is a 32-bit unsigned integer. *)
Definition to_ImU32 (n : Z) : Z := n mod 2 ^ 32.

(** [static_cast<ImU32>(x)] for a float [x]: the value truncated towards
    zero.  The conversion is defined only when the truncated value fits in
    32 bits unsigned ([None] otherwise, and for infinities and NaN). *)
Definition float_to_ImU32 (x : float) : option Z :=
  match x with
  | S754_zero _ => Some 0
  | S754_finite s m e =>
      let magnitude := Z.shiftl (Zpos m) e in
      if s then (if magnitude =? 0 then Some 0 else None)
      else if magnitude <? 2 ^ 32 then Some magnitude else None
  | S754_infinity _ | S754_nan => None
  end.

Record ImVec2 : Type := mkVec2 { x : float; y : float }.

(** One call [drawList->AddRectFilled(p_min, p_max, col, rounding)]. *)
Record AddRectFilled : Type := mkRect {
  p_min    : ImVec2;
  p_max    : ImVec2;
  col      : Z;
  rounding : float
}.

(** The body of the loop of [RenderShadow] (Gui.cpp:219-230) for layer [i];
    [rounding] is [ImGui::GetStyle().WindowRounding]. *)
Definition layer (pos size : ImVec2) (color : Z) (thickness rounding : float)
    (i : Z) : option AddRectFilled :=
  let shadowAlpha := div (of_Z (Z.land (Z.shiftr color 24) 255)) f255 in
  let modulatedAlpha :=
    mul (mul shadowAlpha (sub one (div (of_Z i) four))) half in
  match float_to_ImU32 (mul modulatedAlpha f255) with
  | Some alpha =>
      let shadowColor :=
        Z.lor (Z.land color 16777215) (to_ImU32 (Z.shiftl alpha 24)) in
      let spread := mul thickness (div (of_Z i) four) in
      Some {| p_min := mkVec2 (sub (x pos) spread) (sub (y pos) spread);
              p_max := mkVec2 (add (add (x pos) (x size)) spread)
                              (add (add (y pos) (y size)) spread);
              col := shadowColor;
              rounding := add rounding spread |}
  | None => None
  end.

(** [for (int i = 0; i < 4; i++)]: the rectangles drawn for layers [i],
    [i + 1], ... while [i < 4]; [n] bounds the number of iterations. *)
Fixpoint layers (n : nat) (pos size : ImVec2) (color : Z)
    (thickness rounding : float) (i : Z) : option (list AddRectFilled) :=
  match n with
  | O => Some []
  | S n' =>
      if i <? 4 then
        match layer pos size color thickness rounding i with
        | Some r =>
            match layers n' pos size color thickness rounding (i + 1) with
            | Some rs => Some (r :: rs)
            | None => None
            end
        | None => None
        end
      else Some []
  end.

(** [static void RenderShadow(pos, size, color, thickness)]
    (Gui.cpp:206-232): the rectangles added to the background draw list, in
    order. *)
Definition RenderShadow (pos size : ImVec2) (color : Z)
    (thickness rounding : float) : option (list AddRectFilled) :=
  layers 4 pos size color thickness rounding 0.

(** The alpha byte of a packed colour. *)
Definition alpha_of (c : Z) : Z := Z.shiftr c 24.

(** The alpha byte lines 219-222 compute for layer [i] from a colour whose
    alpha byte is [a]. *)
Definition layer_alpha (a i : Z) : option Z :=
  float_to_ImU32
    (mul (mul (mul (div (of_Z a) f255) (sub one (div (of_Z i) four))) half)
         f255).

(** [layer_alpha a i] is [a * (4 - i) / 8], rounded down, for every alpha
    byte and every layer: checked on the 256 x 4 cases. *)
Definition layer_alpha_table_ok : bool :=
  forallb
    (fun a =>
       forallb
         (fun i =>
            match layer_alpha a i with
            | Some v => v =? a * (4 - i) / 8
            | None => false
            end)
         [0; 1; 2; 3])
    (map Z.of_nat (seq 0 256)).

(** [IM_COL32(0, 0, 0, 100)], the colour [RenderPerformanceWindow] passes
    (Gui.cpp:156). *)
Definition IM_COL32_BLACK_100 : Z := 1677721600.

End Shadow.

(** ** D3D11Renderer.cpp *)

Module D3D11Renderer.

Import PerformanceMonitor.

(** The four members of D3D11Renderer.h, each initialised to [nullptr]. *)
Record State : Type := mkRenderer {
  m_pD3dDevice           : pointer;
  m_pD3dDeviceContext    : pointer;
  m_pSwapChain           : pointer;
  m_mainRenderTargetView : pointer
}.

Definition new : State := mkRenderer nullptr nullptr nullptr nullptr.

(** The accessors of D3D11Renderer.h. *)
Definition GetD3DDevice (r : State) : pointer := m_pD3dDevice r.
Definition GetD3DDeviceContext (r : State) : pointer := m_pD3dDeviceContext r.
Definition GetSwapChain (r : State) : pointer := m_pSwapChain r.

(** A call into Direct3D or DXGI, with what it was given and what it
    stored through its out parameters. *)
Inductive D3DCall : Type :=
| Call_D3D11CreateDeviceAndSwapChain
    (res : HRESULT) (ppSwapChain ppDevice ppImmediateContext : pointer)
| Call_GetBuffer (this : pointer) (ppSurface : pointer)
| Call_CreateRenderTargetView (this pResource ppRTView : pointer)
| Call_D3DRelease (this : pointer).

(** What Direct3D answers during one [Initialize]: the result of
    [D3D11CreateDeviceAndSwapChain] with the swap chain, the device and the
    context it creates when it succeeds; the back buffer [GetBuffer] stores
    ([nullptr] when it fails); the view [CreateRenderTargetView] stores
    ([nullptr] when it fails). *)
Record D3DEnvironment : Type := {
  D3D11CreateDeviceAndSwapChain : HRESULT * (addr * addr * addr);
  GetBuffer                     : pointer;
  CreateRenderTargetView        : pointer
}.

(** An interface pointer stored by the creating call: the object on
    success, [nullptr] on failure. *)
Definition created (res : HRESULT) (a : addr) : pointer :=
  if FAILED res then nullptr else Some a.

(** [void D3D11Renderer::CreateRenderTarget()] (lines 86-95). *)
Definition CreateRenderTarget (env : D3DEnvironment) (r : State)
  : State * list D3DCall :=
  let pBackBuffer := GetBuffer env in
  let tr := [Call_GetBuffer (m_pSwapChain r) pBackBuffer] in
  match pBackBuffer with
  | Some _ =>
      let view := CreateRenderTargetView env in
      (mkRenderer (m_pD3dDevice r) (m_pD3dDeviceContext r) (m_pSwapChain r) view,
       tr ++ [Call_CreateRenderTargetView (m_pD3dDevice r) pBackBuffer view;
              Call_D3DRelease pBackBuffer])
  | None => (r, tr)
  end.

(** [void D3D11Renderer::CleanupRenderTarget()] (lines 97-104). *)
Definition CleanupRenderTarget (r : State) : State * list D3DCall :=
  match m_mainRenderTargetView r with
  | Some _ =>
      (mkRenderer (m_pD3dDevice r) (m_pD3dDeviceContext r) (m_pSwapChain r)
                  nullptr,
       [Call_D3DRelease (m_mainRenderTargetView r)])
  | None => (r, [])
  end.

(** [bool D3D11Renderer::Initialize(hWnd)] (lines 17-63). *)
Definition Initialize (env : D3DEnvironment) (r : State)
  : bool * State * list D3DCall :=
  let '(res, (swapChain, device, context)) :=
    D3D11CreateDeviceAndSwapChain env in
  let r := mkRenderer (created res device) (created res context)
                      (created res swapChain) (m_mainRenderTargetView r) in
  let tr := [Call_D3D11CreateDeviceAndSwapChain res (m_pSwapChain r)
               (m_pD3dDevice r) (m_pD3dDeviceContext r)] in
  if FAILED res then (false, r, tr)
  else
    let '(r, tr') := CreateRenderTarget env r in
    (true, r, tr ++ tr').

(** [void D3D11Renderer::Shutdown()] (lines 65-84). *)
Definition Shutdown (r : State) : State * list D3DCall :=
  let '(r, tr) := CleanupRenderTarget r in
  let '(r, tr) :=
    match m_pSwapChain r with
    | Some _ =>
        (mkRenderer (m_pD3dDevice r) (m_pD3dDeviceContext r) nullptr
                    (m_mainRenderTargetView r),
         tr ++ [Call_D3DRelease (m_pSwapChain r)])
    | None => (r, tr)
    end in
  let '(r, tr) :=
    match m_pD3dDeviceContext r with
    | Some _ =>
        (mkRenderer (m_pD3dDevice r) nullptr (m_pSwapChain r)
                    (m_mainRenderTargetView r),
         tr ++ [Call_D3DRelease (m_pD3dDeviceContext r)])
    | None => (r, tr)
    end in
  match m_pD3dDevice r with
  | Some _ =>
      (mkRenderer nullptr (m_pD3dDeviceContext r) (m_pSwapChain r)
                  (m_mainRenderTargetView r),
       tr ++ [Call_D3DRelease (m_pD3dDevice r)])
  | None => (r, tr)
  end.

(** The effect of a call on the reference counts. *)
Definition d3d_step (w : ComState) (c : D3DCall) : ComState :=
  match c with
  | Call_D3D11CreateDeviceAndSwapChain _ swapChain device context =>
      add_ref context (add_ref device (add_ref swapChain w))
  | Call_GetBuffer _ ppSurface => add_ref ppSurface w
  | Call_CreateRenderTargetView _ _ ppRTView => add_ref ppRTView w
  | Call_D3DRelease this => release this w
  end.

Definition d3d_run (tr : list D3DCall) (w : ComState) : ComState :=
  fold_left d3d_step tr w.

(** The pointers a renderer holds, in the order [Shutdown] looks at them. *)
Definition held (r : State) : list pointer :=
  [m_mainRenderTargetView r; m_pSwapChain r; m_pD3dDeviceContext r;
   m_pD3dDevice r].

Definition is_held (p : pointer) : bool :=
  match p with
  | Some _ => true
  | None => false
  end.

(** [w] has [f b] more references than [w0] on each object [b], and as many
    releases of objects not held. *)
Definition more_refs (w0 w : ComState) (f : addr -> nat) : Prop :=
  bad_releases w = bad_releases w0 /\
  forall b, refcount w b = (refcount w0 b + f b)%nat.

(** One reference on the object behind [p], none when [p] is null. *)
Definition one_ref (p : pointer) (b : addr) : nat :=
  match p with
  | Some a => if Nat.eqb b a then 1%nat else 0%nat
  | None => 0%nat
  end.

(** Direct3D creates the device, the context, the swap chain, the back
    buffer reference and the view (objects 11 to 15). *)
Definition d3d_ok : D3DEnvironment :=
  {| D3D11CreateDeviceAndSwapChain := (S_OK, (13%nat, 11%nat, 12%nat));
     GetBuffer := Some 14%nat;
     CreateRenderTargetView := Some 15%nat |}.

(** The device is created but the swap chain yields no back buffer. *)
Definition d3d_no_back_buffer : D3DEnvironment :=
  {| D3D11CreateDeviceAndSwapChain := (S_OK, (13%nat, 11%nat, 12%nat));
     GetBuffer := nullptr;
     CreateRenderTargetView := nullptr |}.

End D3D11Renderer.

(** ** Gui.cpp: construction, [Initialize], [Shutdown] and destruction *)

Module GuiLife.

Import PerformanceMonitor.

(** The calls into Dear ImGui made by [Gui::Initialize] and
    [Gui::Shutdown]. *)
Inductive ImGuiCall : Type :=
| ImGui_CheckVersion
| ImGui_CreateContext
| ImGui_EnableKeyboardNav      (* GetIO().ConfigFlags |= NavEnableKeyboard *)
| ImGui_StyleColorsDark
| ImGui_ImplWin32_Init (ok : bool)
| ImGui_ImplDX11_Init (ok : bool)
| ImGui_ImplDX11_Shutdown
| ImGui_ImplWin32_Shutdown
| ImGui_GetCurrentContext (present : bool)
| ImGui_DestroyContext.

(** Everything a [Gui] calls outside the class, in order. *)
Inductive Event : Type :=
| OfImGui (c : ImGuiCall)
| OfCom (c : ComCall)
| OfD3D (c : D3D11Renderer.D3DCall).

(** A [Gui] object: the monitor it owns with the history statics
    ([Gui.State]), the three pointers it borrows from the renderer, its
    render target view, and Dear ImGui's current context, a global of the
    library that [Shutdown] tests. *)
Record State : Type := mkObject {
  core                   : Gui.State;
  m_pDevice              : pointer;
  m_pDeviceContext       : pointer;
  m_pSwapChain           : pointer;
  m_mainRenderTargetView : pointer;
  imgui_context          : bool
}.

Definition with_core (g : Gui.State) (s : State) : State :=
  mkObject g (m_pDevice s) (m_pDeviceContext s) (m_pSwapChain s)
           (m_mainRenderTargetView s) (imgui_context s).

Definition with_monitor (m : PerformanceMonitor.State) (s : State) : State :=
  with_core (Gui.mkGui m (Gui.history (core s))) s.

Definition with_view (v : pointer) (s : State) : State :=
  mkObject (core s) (m_pDevice s) (m_pDeviceContext s) (m_pSwapChain s) v
           (imgui_context s).

Definition with_context (c : bool) (s : State) : State :=
  mkObject (core s) (m_pDevice s) (m_pDeviceContext s) (m_pSwapChain s)
           (m_mainRenderTargetView s) c.

(** [Gui::Gui(hwnd, pDevice, pDeviceContext, pSwapChain)] (Gui.cpp:31-42):
    the monitor member is default-constructed; [h] is the state of the
    history statics and [context] of ImGui's global at that moment. *)
Definition construct (pDevice pDeviceContext pSwapChain : pointer)
    (h : Gui.History) (context : bool) : State :=
  mkObject (Gui.mkGui PerformanceMonitor.new h)
           pDevice pDeviceContext pSwapChain nullptr context.

(** What the environment answers during one [Gui::Initialize]. *)
Record Environment : Type := {
  ImplWin32_Init         : bool;
  ImplDX11_Init          : bool;
  com                    : ComEnvironment;
  GetBuffer              : pointer;   (* pBackBuffer after the call *)
  CreateRenderTargetView : pointer    (* the view stored *)
}.

(** [bool Gui::Initialize()] (Gui.cpp:49-80).  [None]: the function called
    a method through a null pointer, and the behaviour of the program is
    undefined from then on.  That is [m_pSwapChain->GetBuffer] or
    [m_pDevice->CreateRenderTargetView] for a [Gui] built on a null swap
    chain or device, and [pBackBuffer->Release()] when [GetBuffer] stored no
    buffer: the pointer is not tested (lines 74-77). *)
Definition Initialize (env : Environment) (s : State)
  : option (bool * State * list Event) :=
  let s := with_context true s in
  let tr := [OfImGui ImGui_CheckVersion; OfImGui ImGui_CreateContext;
             OfImGui ImGui_EnableKeyboardNav; OfImGui ImGui_StyleColorsDark;
             OfImGui (ImGui_ImplWin32_Init (ImplWin32_Init env))] in
  if negb (ImplWin32_Init env) then Some (false, s, tr) else
  let tr := tr ++ [OfImGui (ImGui_ImplDX11_Init (ImplDX11_Init env))] in
  if negb (ImplDX11_Init env) then Some (false, s, tr) else
  let '(ok, m, com_calls) :=
    PerformanceMonitor.Initialize (com env) (Gui.m_perfMonitor (core s)) in
  let s := with_monitor m s in
  let tr := tr ++ map OfCom com_calls in
  if negb ok then Some (false, s, tr) else
  (* Create render target *)
  match m_pSwapChain s with
  | None => None                          (* m_pSwapChain->GetBuffer *)
  | Some _ =>
      let pBackBuffer := GetBuffer env in
      match m_pDevice s with
      | None => None                      (* m_pDevice->CreateRenderTargetView *)
      | Some _ =>
          let view := CreateRenderTargetView env in
          match pBackBuffer with
          | None => None                  (* pBackBuffer->Release() *)
          | Some _ =>
              Some (true, with_view view s,
                    tr ++ [OfD3D (D3D11Renderer.Call_GetBuffer
                                    (m_pSwapChain s) pBackBuffer);
                           OfD3D (D3D11Renderer.Call_CreateRenderTargetView
                                    (m_pDevice s) pBackBuffer view);
                           OfD3D (D3D11Renderer.Call_D3DRelease pBackBuffer)])
          end
      end
  end.

(** [void Gui::Shutdown()] (Gui.cpp:82-98). *)
Definition Shutdown (s : State) : State * list Event :=
  let '(m, com_calls) :=
    PerformanceMonitor.Shutdown (Gui.m_perfMonitor (core s)) in
  let s := with_monitor m s in
  let tr := map OfCom com_calls in
  let '(s, tr) :=
    match m_mainRenderTargetView s with
    | Some _ =>
        (with_view nullptr s,
         tr ++ [OfD3D (D3D11Renderer.Call_D3DRelease (m_mainRenderTargetView s))])
    | None => (s, tr)
    end in
  let tr := tr ++ [OfImGui ImGui_ImplDX11_Shutdown;
                   OfImGui ImGui_ImplWin32_Shutdown;
                   OfImGui (ImGui_GetCurrentContext (imgui_context s))] in
  if imgui_context s
  then (with_context false s, tr ++ [OfImGui ImGui_DestroyContext])
  else (s, tr).

(** The end of a [Gui]'s lifetime: [Gui::~Gui()] runs [Shutdown()]
    (Gui.cpp:44-47), then the member [m_perfMonitor] is destroyed and
    [PerformanceMonitor::~PerformanceMonitor()] runs
    [PerformanceMonitor::Shutdown()] (PerformanceMonitor.cpp:19-22). *)
Definition destroy (s : State) : State * list Event :=
  let '(s, tr) := Shutdown s in
  let '(m, com_calls) :=
    PerformanceMonitor.Shutdown (Gui.m_perfMonitor (core s)) in
  (with_monitor m s, tr ++ map OfCom com_calls).

(** The effect of the events on COM's initialisation count and on the
    reference counts. *)
Definition event_step (w : ComState) (e : Event) : ComState :=
  match e with
  | OfImGui _ => w
  | OfCom c => com_step w c
  | OfD3D c => D3D11Renderer.d3d_step w c
  end.

Definition run_events (tr : list Event) (w : ComState) : ComState :=
  fold_left event_step tr w.

(** The COM calls among the events. *)
Definition com_calls_of (tr : list Event) : list ComCall :=
  flat_map (fun e => match e with OfCom c => [c] | _ => [] end) tr.

(** Both backends initialise, the monitor connects, and the swap chain
    yields its back buffer (object 14) and a view (object 16). *)
Definition gui_ok : Environment :=
  {| ImplWin32_Init := true; ImplDX11_Init := true; com := Scenario.com_ok;
     GetBuffer := Some 14%nat; CreateRenderTargetView := Some 16%nat |}.

(** The same, but the swap chain yields no back buffer. *)
Definition gui_no_back_buffer : Environment :=
  {| ImplWin32_Init := true; ImplDX11_Init := true; com := Scenario.com_ok;
     GetBuffer := nullptr; CreateRenderTargetView := nullptr |}.

End GuiLife.

(** ** main.cpp: the message loop and the window procedure *)

Module Main.

(** Window messages and identifiers (WinUser.h, main.cpp:23-25). *)
Definition WM_NULL : Z := 0.
Definition WM_DESTROY : Z := 2.
Definition WM_QUIT : Z := 18.
Definition WM_COMMAND : Z := 273.
Definition WM_RBUTTONUP : Z := 517.
Definition WM_APP : Z := 32768.
Definition WM_APP_TRY_MSG : Z := WM_APP + 1.
Definition TRAY_ICON_ID : Z := 1.
Definition IDM_EXIT : Z := 1001.

(** [LOWORD(w)]: the low 16 bits. *)
Definition LOWORD (w : Z) : Z := Z.land w 65535.

Record MSG : Type := mkMSG { message : Z; wParam : Z; lParam : Z }.

(** One iteration of the loop of [WinMain] as the system decides it:
    [PeekMessage] finds a message, or finds none and the frame is rendered
    with what the metrics service answers. *)
Inductive Tick : Type :=
| Pending (msg : MSG)
| Idle (svc : IWbemServices).

(** What the loop did: the messages it translated and dispatched, in order,
    and whether it ended. *)
Record LoopState : Type := mkLoop {
  gui        : Gui.State;
  dispatched : list MSG;
  msg        : MSG
}.

(** The loop of [WinMain] (main.cpp:154-169):
<<
      MSG msg; msg.message = WM_NULL;
      while (msg.message != WM_QUIT) {
        if (PeekMessage(&msg, nullptr, 0U, 0U, PM_REMOVE) != 0) {
          TranslateMessage(&msg); DispatchMessage(&msg);
        } else { gui.Render(); }
      }
>>
    run over the iterations [ticks]; iterations left when the loop ends are
    not consumed.  [None] when a [Render] is undefined. *)
Fixpoint message_loop (ticks : list Tick) (st : LoopState) : option LoopState :=
  if message (msg st) =? WM_QUIT then Some st
  else
    match ticks with
    | [] => Some st
    | Pending m :: rest =>
        message_loop rest (mkLoop (gui st) (dispatched st ++ [m]) m)
    | Idle svc :: rest =>
        match Gui.Render svc (gui st) with
        | Some g => message_loop rest (mkLoop g (dispatched st) (msg st))
        | None => None
        end
    end.

(** The loop entered with [msg.message = WM_NULL]; the other fields of
    [msg] are not initialised and are given here as 0. *)
Definition enter_loop (g : Gui.State) : LoopState :=
  mkLoop g [] (mkMSG WM_NULL 0 0).

(** The iterations up to and including the first that finds [WM_QUIT]. *)
Fixpoint until_quit (ticks : list Tick) : list Tick :=
  match ticks with
  | [] => []
  | Pending m :: rest =>
      if message m =? WM_QUIT then [Pending m]
      else Pending m :: until_quit rest
  | Idle svc :: rest => Idle svc :: until_quit rest
  end.

Definition idle_answers (ticks : list Tick) : list IWbemServices :=
  flat_map (fun t => match t with Idle svc => [svc] | Pending _ => [] end) ticks.

Definition pending_messages (ticks : list Tick) : list MSG :=
  flat_map (fun t => match t with Pending m => [m] | Idle _ => [] end) ticks.

(** What [WndProc] does besides returning a value. *)
Inductive Action : Type :=
| DoShowContextMenu
| DoDestroyWindow
| DoRemoveTrayIcon
| DoPostQuitMessage (nExitCode : Z)
| DoDefWindowProc.

(** [LRESULT CALLBACK WndProc(hWnd, msg, wParam, lParam)]
    (main.cpp:188-225).  [imgui] is what [ImGui_ImplWin32_WndProcHandler]
    returns for the message and [def] what [DefWindowProc] would return. *)
Definition WndProc (imgui def : Z) (msg wParam lParam : Z) : Z * list Action :=
  if negb (imgui =? 0) then (1, [])       (* return true *)
  else if msg =? WM_APP_TRY_MSG then
    (0, if lParam =? WM_RBUTTONUP then [DoShowContextMenu] else [])
  else if msg =? WM_COMMAND then
    (0, if LOWORD wParam =? IDM_EXIT then [DoDestroyWindow] else [])
  else if msg =? WM_DESTROY then
    (0, [DoRemoveTrayIcon; DoPostQuitMessage 0])
  else (def, [DoDefWindowProc]).





(** *** The tray icon *)

(** Shell constants (shellapi.h). *)
Definition NIM_ADD : Z := 0.
Definition NIM_DELETE : Z := 2.
Definition NIF_MESSAGE : Z := 1.
Definition NIF_ICON : Z := 2.
Definition NIF_TIP : Z := 4.

(** The fields of [NOTIFYICONDATA] the program sets. *)
Record NOTIFYICONDATA : Type := mkNid {
  nid_hWnd         : pointer;
  uID              : Z;
  uFlags           : Z;
  uCallbackMessage : Z;
  hIcon            : pointer;
  szTip            : string
}.

(** [void AddTrayIcon(hWnd, hInst)] (main.cpp:228-243): the arguments of its
    call to [Shell_NotifyIcon]; [icon] is what [LoadIcon] returns. *)
Definition AddTrayIcon (hWnd icon : pointer) : Z * NOTIFYICONDATA :=
  (NIM_ADD,
   {| nid_hWnd := hWnd;
      uID := TRAY_ICON_ID;
      uFlags := Z.lor (Z.lor NIF_MESSAGE NIF_ICON) NIF_TIP;
      uCallbackMessage := WM_APP_TRY_MSG;
      hIcon := icon;
      szTip := "Performance Overlay" |}).

(** [void RemoveTrayIcon(hWnd)] (main.cpp:246-255): the other fields stay
    zero-initialised. *)
Definition RemoveTrayIcon (hWnd : pointer) : Z * NOTIFYICONDATA :=
  (NIM_DELETE,
   {| nid_hWnd := hWnd;
      uID := TRAY_ICON_ID;
      uFlags := 0;
      uCallbackMessage := 0;
      hIcon := nullptr;
      szTip := "" |}).

Definition pointer_eqb (p q : pointer) : bool :=
  match p, q with
  | Some a, Some b => Nat.eqb a b
  | None, None => true
  | _, _ => false
  end.

(** The shell identifies an icon by its window and its [uID]. *)
Definition same_icon (a b : NOTIFYICONDATA) : bool :=
  pointer_eqb (nid_hWnd a) (nid_hWnd b) && (uID a =? uID b).

(** The notification area as [Shell_NotifyIcon] changes it: [NIM_ADD] adds
    the icon unless the window already has one with that [uID], [NIM_DELETE]
    removes the icon so identified. *)
Definition Shell_NotifyIcon (tray : list NOTIFYICONDATA)
    (call : Z * NOTIFYICONDATA) : list NOTIFYICONDATA :=
  let '(dwMessage, nid) := call in
  if dwMessage =? NIM_ADD then
    if existsb (same_icon nid) tray then tray else tray ++ [nid]
  else if dwMessage =? NIM_DELETE then
    filter (fun icon => negb (same_icon nid icon)) tray
  else tray.

(** What the shell sends to the window of an icon for a mouse event over
    it: the callback message of the icon, when the icon declared one with
    [NIF_MESSAGE], with the icon's [uID] in [wParam] and the mouse message
    in [lParam]. *)
Definition notification (icon : NOTIFYICONDATA) (mouse : Z) : option MSG :=
  if Z.testbit (uFlags icon) 0
  then Some (mkMSG (uCallbackMessage icon) (uID icon) mouse)
  else None.

(** *** [WinMain] *)

(** [static_cast<int>(w)] for a [WPARAM] [w]: the low 32 bits, read as a
    signed integer. *)
Definition to_int (w : Z) : Z := (w + 2 ^ 31) mod 2 ^ 32 - 2 ^ 31.

(** The calls [WinMain] makes itself to create, show and remove the window
    (calls that only read a value, such as [GetModuleHandle] and
    [GetSystemMetrics], are left out). *)
Inductive Win32Call : Type :=
| Call_RegisterClassEx
| Call_CreateWindowEx (hwnd : pointer)
| Call_AddTrayIcon
| Call_DwmExtendFrameIntoClientArea
| Call_SetLayeredWindowAttributes
| Call_ShowWindow
| Call_UpdateWindow
| Call_DestroyWindow
| Call_UnregisterClass.

(** Everything that happens during [WinMain] outside the frames it renders:
    its own calls, those of the renderer and those of the [Gui]. *)
Inductive Event : Type :=
| OfWin32 (c : Win32Call)
| OfRenderer (c : D3D11Renderer.D3DCall)
| OfGui (e : GuiLife.Event).

(** What the system answers during one run of the program: the window
    [CreateWindowEx] returns, what Direct3D answers to the renderer, what
    the [Gui] is answered during its [Initialize], and the iterations of the
    message loop. *)
Record Environment : Type := {
  CreateWindowEx : pointer;
  renderer_env   : D3D11Renderer.D3DEnvironment;
  gui_env        : GuiLife.Environment;
  iterations     : list Tick
}.

(** [WinMain] returned a value, or is still in its loop after the iterations
    given, or ran into a [Gui::Initialize] or a [Render] that is undefined;
    in the first two cases with the events so far. *)
Inductive Outcome : Type :=
| Returned (code : Z) (trace : list Event)
| Running (trace : list Event)
| Undefined.

(** [int WINAPI WinMain(...)] (main.cpp:81-178).  The program starts with
    the history statics at their initialisers and without an ImGui context.
    Objects are destroyed at each [return] in the reverse order of their
    construction: the [Gui] (when it exists) before the renderer. *)
Definition WinMain (env : Environment) : Outcome :=
  let hwnd := CreateWindowEx env in
  let tr := [OfWin32 Call_RegisterClassEx; OfWin32 (Call_CreateWindowEx hwnd)] in
  match hwnd with
  | None => Returned 1 tr
  | Some _ =>
      let tr := tr ++ [OfWin32 Call_AddTrayIcon;
                       OfWin32 Call_DwmExtendFrameIntoClientArea;
                       OfWin32 Call_SetLayeredWindowAttributes] in
      (* Initialize Direct3D *)
      let '(ok, renderer, calls) :=
        D3D11Renderer.Initialize (renderer_env env) D3D11Renderer.new in
      let tr := tr ++ map OfRenderer calls in
      if negb ok then
        let '(renderer, calls) := D3D11Renderer.Shutdown renderer in
        let tr := tr ++ map OfRenderer calls ++ [OfWin32 Call_UnregisterClass] in
        (* return 1: ~D3D11Renderer *)
        let '(_, calls) := D3D11Renderer.Shutdown renderer in
        Returned 1 (tr ++ map OfRenderer calls)
      else
        let tr := tr ++ [OfWin32 Call_ShowWindow; OfWin32 Call_UpdateWindow] in
        (* Setup Dear ImGui *)
        let g := GuiLife.construct (D3D11Renderer.GetD3DDevice renderer)
                   (D3D11Renderer.GetD3DDeviceContext renderer)
                   (D3D11Renderer.GetSwapChain renderer)
                   Gui.History_init false in
        match GuiLife.Initialize (gui_env env) g with
        | None => Undefined
        | Some (ok, g, events) =>
        let tr := tr ++ map OfGui events in
        if negb ok then
          let '(g, events) := GuiLife.Shutdown g in
          let tr := tr ++ map OfGui events in
          let '(renderer, calls) := D3D11Renderer.Shutdown renderer in
          let tr := tr ++ map OfRenderer calls ++ [OfWin32 Call_UnregisterClass] in
          (* return 1: ~Gui, then ~D3D11Renderer *)
          let '(_, events) := GuiLife.destroy g in
          let '(_, calls) := D3D11Renderer.Shutdown renderer in
          Returned 1 (tr ++ map OfGui events ++ map OfRenderer calls)
        else
          (* Main loop *)
          match message_loop (iterations env) (enter_loop (GuiLife.core g)) with
          | None => Undefined
          | Some st =>
              if message (msg st) =? WM_QUIT then
                let tr := tr ++ [OfWin32 Call_DestroyWindow;
                                 OfWin32 Call_UnregisterClass] in
                (* return: ~Gui, then ~D3D11Renderer *)
                let '(_, events) :=
                  GuiLife.destroy (GuiLife.with_core (gui st) g) in
                let '(_, calls) := D3D11Renderer.Shutdown renderer in
                Returned (to_int (wParam (msg st)))
                         (tr ++ map OfGui events ++ map OfRenderer calls)
              else Running tr
          end
        end
  end.

(** The effect of the events on COM's initialisation count and on the
    reference counts. *)
Definition step (w : PerformanceMonitor.ComState) (e : Event)
  : PerformanceMonitor.ComState :=
  match e with
  | OfWin32 _ => w
  | OfRenderer c => D3D11Renderer.d3d_step w c
  | OfGui e => GuiLife.event_step w e
  end.

Definition run_trace (tr : list Event) (w : PerformanceMonitor.ComState)
  : PerformanceMonitor.ComState :=
  fold_left step tr w.

(** The first [WM_QUIT] among the messages the loop finds. *)
Definition quit_message (ticks : list Tick) : option MSG :=
  find (fun m => message m =? WM_QUIT) (pending_messages ticks).

(** A run in which everything initialises and the user quits from the tray
    menu after two frames. *)
Definition session_ok : Environment :=
  {| CreateWindowEx := Some 10%nat;
     renderer_env := D3D11Renderer.d3d_ok;
     gui_env := GuiLife.gui_ok;
     iterations := [Idle Scenario.busy_disk;
                    Pending (mkMSG WM_COMMAND IDM_EXIT 0);
                    Idle Scenario.busy_disk;
                    Pending (mkMSG WM_QUIT 0 0)] |}.

(** A run in which the swap chain yields no back buffer, neither to the
    renderer nor to the [Gui]. *)
Definition session_no_back_buffer : Environment :=
  {| CreateWindowEx := Some 10%nat;
     renderer_env := D3D11Renderer.d3d_no_back_buffer;
     gui_env := GuiLife.gui_no_back_buffer;
     iterations := [] |}.

(** A run in which the Win32 backend of ImGui fails to initialise. *)
Definition session_gui_fails : Environment :=
  {| CreateWindowEx := Some 10%nat;
     renderer_env := D3D11Renderer.d3d_ok;
     gui_env := {| GuiLife.ImplWin32_Init := false;
                   GuiLife.ImplDX11_Init := true;
                   GuiLife.com := Scenario.com_ok;
                   GuiLife.GetBuffer := Some 14%nat;
                   GuiLife.CreateRenderTargetView := Some 16%nat |};
     iterations := [] |}.

End Main.

(** ** Integers held in a float *)

Module Exact.

(** The integer a float stands for, when it stands for one. *)
Definition to_integer (x : float) : option Z :=
  match x with
  | S754_zero _ => Some 0
  | S754_finite s m e =>
      if 0 <=? e then Some ((if s then -1 else 1) * (Zpos m * 2 ^ e))
      else if Zpos m mod 2 ^ (- e) =? 0
           then Some ((if s then -1 else 1) * (Zpos m / 2 ^ (- e)))
           else None
  | S754_infinity _ | S754_nan => None
  end.

End Exact.

Import PerformanceMonitor.
Import Gui.

(** * The CPU history

    Facts on lists used for the ring buffer. *)

(** A list can be cut at any position inside it. *)
Lemma split_at : forall (s : list float) (i : nat),
  (i < length s)%nat ->
  exists a x b, s = a ++ x :: b /\ length a = i.
Proof.
  intros s i Hi.
  destruct (skipn i s) as [|x b] eqn:E.
  - apply (f_equal (@length _)) in E. rewrite length_skipn in E. simpl in E. lia.
  - exists (firstn i s), x, b. split.
    + rewrite <- E. symmetry. apply firstn_skipn.
    + rewrite length_firstn. lia.
Qed.

(** Storing at the cut replaces the element that follows it. *)
Lemma store_app : forall (a b : list float) x v,
  store (a ++ x :: b) (Z.of_nat (length a)) v = a ++ v :: b.
Proof.
  intros a b x v. unfold store.
  rewrite length_app. simpl length.
  replace ((0 <=? Z.of_nat (length a))
           && (Z.of_nat (length a) <? Z.of_nat (length a + S (length b))))
    with true
    by (symmetry; apply andb_true_intro; split;
        [apply Z.leb_le | apply Z.ltb_lt]; lia).
  rewrite Nat2Z.id.
  rewrite firstn_app, Nat.sub_diag, firstn_all. simpl firstn. rewrite app_nil_r.
  replace (S (length a)) with (length (a ++ [x])) by (rewrite length_app; simpl; lia).
  replace (a ++ x :: b) with ((a ++ [x]) ++ b) by (rewrite <- app_assoc; reflexivity).
  rewrite skipn_app, Nat.sub_diag, skipn_all. reflexivity.
Qed.

(** Rotating at the cut swaps the two halves. *)
Lemma rotation_app : forall a b : list float,
  rotation (length a) (a ++ b) = b ++ a.
Proof.
  intros a b. unfold rotation.
  rewrite skipn_app, firstn_app, Nat.sub_diag, skipn_all, firstn_all.
  simpl. rewrite app_nil_r. reflexivity.
Qed.

Lemma rotation_0 : forall l : list float, rotation 0 l = l.
Proof. intros l. unfold rotation. simpl. apply app_nil_r. Qed.

Lemma skipn_S_tl : forall (l : list float) k, skipn (S k) l = tl (skipn k l).
Proof.
  intros l k. revert l.
  induction k as [|k IH]; intros l.
  - destruct l; reflexivity.
  - destruct l as [|x l]; [reflexivity|].
    change (skipn (S k) l = tl (skipn k l)). apply IH.
Qed.

Lemma lastn_snoc : forall (l : list float) n v,
  (0 < n <= length l)%nat ->
  lastn n (l ++ [v]) = tl (lastn n l) ++ [v].
Proof.
  intros l n v H. unfold lastn.
  rewrite length_app. simpl length.
  replace (length l + 1 - n)%nat with (S (length l - n)) by lia.
  rewrite skipn_app.
  replace (S (length l - n) - length l)%nat with 0%nat by lia.
  simpl skipn at 2. rewrite skipn_S_tl.
  reflexivity.
Qed.

(** One more frame is one more [Push]. *)
Lemma pushes_snoc : forall vs v h, pushes (vs ++ [v]) h = Push v (pushes vs h).
Proof. intros. unfold pushes. rewrite fold_left_app. reflexivity. Qed.

Lemma History_inv_init : History_inv [] History_init.
Proof. repeat split. Qed.

(** [Push] keeps the invariant: the rotation at the index loses its
    oldest value and gains the pushed one at the end. *)
Lemma History_inv_Push : forall vs v h,
  History_inv vs h -> History_inv (vs ++ [v]) (Push v h).
Proof.
  intros vs v [s idx f] (Hlen & Hidx & Hf & Hrot).
  cbn [cpuHistory historyIndex filled] in *.
  set (n := length vs) in *.
  assert (Hr : 0 <= idx < 90) by (rewrite Hidx; apply Z.mod_pos_bound; lia).
  destruct (split_at s (Z.to_nat idx)) as (a & x & b & Hs & Ha); [lia|].
  assert (Hi : idx = Z.of_nat (length a)) by lia.
  subst s. rewrite Hi in Hrot |- *. rewrite Nat2Z.id in Hrot.
  rewrite rotation_app in Hrot.
  rewrite length_app in Hlen. cbn [length] in Hlen.
  unfold History_inv, Push. cbn [cpuHistory historyIndex filled].
  rewrite store_app.
  assert (Hrem : Z.rem (Z.of_nat (length a) + 1) 90
                 = Z.of_nat (length (vs ++ [v])) mod 90).
  { rewrite Z.rem_mod_nonneg by lia.
    rewrite length_app. simpl length. fold n.
    rewrite Nat2Z.inj_add. simpl Z.of_nat.
    rewrite <- Hi, Hidx. apply Z.add_mod_idemp_l. lia. }
  repeat split.
  - rewrite length_app. cbn [length]. exact Hlen.
  - exact Hrem.
  - rewrite length_app. simpl length. fold n.
    destruct (Z.of_nat (length a) =? 89) eqn:E.
    + apply Z.eqb_eq in E. symmetry. apply Nat.leb_le.
      assert (Z.of_nat n mod 90 <= Z.of_nat n) by (apply Z.mod_le; lia). lia.
    + apply Z.eqb_neq in E. rewrite Hf.
      destruct (Nat.eq_dec n 89) as [En|En].
      * exfalso. apply E. rewrite <- Hi, Hidx, En. reflexivity.
      * destruct (90 <=? n)%nat eqn:E1; symmetry.
        -- apply Nat.leb_le in E1. apply Nat.leb_le. lia.
        -- apply Nat.leb_gt in E1. apply Nat.leb_gt. lia.
  - rewrite app_assoc, lastn_snoc
      by (rewrite length_app, repeat_length; lia).
    rewrite <- Hrot. simpl tl.
    destruct b as [|y b].
    + cbn [length] in Hlen. assert (length a = 89%nat) by lia.
      replace (Z.rem (Z.of_nat (length a) + 1) 90) with 0
        by (rewrite Z.rem_mod_nonneg by lia;
            replace (Z.of_nat (length a) + 1) with 90 by lia; reflexivity).
      simpl Z.to_nat. rewrite rotation_0. reflexivity.
    + cbn [length] in Hlen.
      rewrite Z.rem_mod_nonneg by lia.
      rewrite Z.mod_small by lia.
      replace (Z.to_nat (Z.of_nat (length a) + 1)) with (length (a ++ [v]))
        by (rewrite length_app; simpl; lia).
      replace (a ++ v :: y :: b) with ((a ++ [v]) ++ y :: b)
        by (rewrite <- app_assoc; reflexivity).
      rewrite rotation_app. rewrite app_assoc. reflexivity.
Qed.

(** The invariant holds after any number of frames. *)
Lemma pushes_inv : forall vs, History_inv vs (pushes vs History_init).
Proof.
  induction vs as [|v vs IH] using rev_ind.
  - exact History_inv_init.
  - rewrite pushes_snoc. apply History_inv_Push. exact IH.
Qed.

(** Plotting all the values from an offset inside the array plots the
    rotation of the array at that offset. *)
Lemma PlotLines_rotation : forall (values : list float) (off : nat),
  (off < length values)%nat ->
  PlotLines values (Z.of_nat (length values)) (Z.of_nat off) = rotation off values.
Proof.
  intros values off Hoff. unfold PlotLines, rotation.
  rewrite Nat2Z.id.
  set (f := fun i : nat =>
              nth (Z.to_nat (Z.rem (Z.of_nat i + Z.of_nat off)
                                   (Z.of_nat (length values))))
                  values zero).
  apply nth_ext with (d := zero) (d' := zero).
  - rewrite length_map, length_seq, length_app, length_skipn, length_firstn. lia.
  - intros n Hn. rewrite length_map, length_seq in Hn.
    rewrite (nth_indep _ zero (f 0%nat)) by (rewrite length_map, length_seq; exact Hn).
    rewrite map_nth, seq_nth by exact Hn. cbn [Nat.add]. unfold f.
    rewrite Z.rem_mod_nonneg by lia.
    destruct (Nat.lt_ge_cases (n + off) (length values)) as [Hlt|Hge].
    + rewrite Z.mod_small by lia.
      rewrite app_nth1 by (rewrite length_skipn; lia).
      rewrite nth_skipn. f_equal. lia.
    + rewrite <- (Z.mod_unique (Z.of_nat n + Z.of_nat off) (Z.of_nat (length values)) 1
                    (Z.of_nat (n + off - length values))) by lia.
      rewrite Nat2Z.id.
      rewrite app_nth2 by (rewrite length_skipn; lia).
      rewrite length_skipn, nth_firstn.
      replace (n - (length values - off) <? off)%nat with true
        by (symmetry; apply Nat.ltb_lt; lia).
      f_equal. lia.
Qed.

Lemma skipn_repeat : forall (x : float) m n, skipn n (repeat x m) = repeat x (m - n).
Proof.
  intros x m. induction m as [|m IH]; intros [|n]; cbn [repeat skipn Nat.sub]; auto.
Qed.

Lemma app_inj_length : forall (l1 l2 l3 l4 : list float),
  l1 ++ l2 = l3 ++ l4 -> length l1 = length l3 -> l1 = l3 /\ l2 = l4.
Proof.
  induction l1 as [|x l1 IH]; intros l2 [|y l3] l4 H Hl; cbn in *; try discriminate.
  - auto.
  - injection H as -> H. destruct (IH _ _ _ H) as [-> ->]; [lia|auto].
Qed.

Lemma last_skipn : forall (l : list float) k d,
  (k < length l)%nat -> last (skipn k l) d = last l d.
Proof.
  induction l as [|x l IH]; intros k d Hk; cbn [length] in Hk; [lia|].
  destruct k as [|k]; [reflexivity|].
  cbn [skipn]. rewrite IH by lia.
  destruct l as [|y l]; [cbn in Hk; lia | reflexivity].
Qed.

Lemma lastn_padded_full : forall vs : list float,
  (90 <= length vs)%nat -> lastn 90 (repeat zero 90 ++ vs) = lastn 90 vs.
Proof.
  intros vs H. unfold lastn.
  rewrite length_app, repeat_length, skipn_app, repeat_length.
  rewrite skipn_all2 by (rewrite repeat_length; lia).
  cbn [app]. f_equal. lia.
Qed.

Lemma lastn_padded_partial : forall vs : list float,
  (length vs < 90)%nat ->
  lastn 90 (repeat zero 90 ++ vs) = repeat zero (90 - length vs) ++ vs.
Proof.
  intros vs H. unfold lastn.
  rewrite length_app, repeat_length, skipn_app, repeat_length, skipn_repeat.
  replace (90 + length vs - 90)%nat with (length vs) by lia.
  replace (length vs - 90)%nat with 0%nat by lia.
  reflexivity.
Qed.

Lemma SnapshotOrdered_rotation : forall vs h,
  History_inv vs h ->
  SnapshotOrdered h =
  rotation (if filled h then Z.to_nat (historyIndex h) else 0%nat) (cpuHistory h).
Proof.
  intros vs h (Hlen & Hidx & _ & _). unfold SnapshotOrdered.
  assert (Hr : 0 <= historyIndex h < 90) by (rewrite Hidx; apply Z.mod_pos_bound; lia).
  change 90 with (Z.of_nat 90). rewrite <- Hlen.
  destruct (filled h).
  - rewrite <- (Z2Nat.id (historyIndex h)) at 1 by lia.
    apply PlotLines_rotation. lia.
  - apply (PlotLines_rotation (cpuHistory h) 0). lia.
Qed.

(** Claim C1, as amended.  After the frames that pushed [vs], the sequence
    handed to the plot always has 90 samples.  While [filled] is false it is
    the whole array from slot 0: the pushed values, oldest first, followed by
    the slots still at their initial 0.  Once [filled] is true it is the
    rotation of the array that starts at [historyIndex].  After 90 pushes or
    more, [filled] is true and the sequence is the last 90 pushed values in
    the order they were pushed, so its last sample is the most recent
    push. *)
Theorem SnapshotOrdered_after_pushes : forall vs : list float,
  let h := pushes vs History_init in
  length (SnapshotOrdered h) = 90%nat /\
  (filled h = false ->
     SnapshotOrdered h = cpuHistory h /\
     cpuHistory h = vs ++ repeat zero (90 - length vs)) /\
  (filled h = true ->
     SnapshotOrdered h = rotation (Z.to_nat (historyIndex h)) (cpuHistory h)) /\
  ((90 <= length vs)%nat ->
     filled h = true /\
     SnapshotOrdered h = lastn 90 vs /\
     forall d, last (SnapshotOrdered h) d = last vs d).
Proof.
  intros vs h.
  pose proof (pushes_inv vs) as Hinv. fold h in Hinv.
  pose proof (SnapshotOrdered_rotation vs h Hinv) as Hsnap.
  destruct Hinv as (Hlen & Hidx & Hf & Hrot).
  assert (Hr : 0 <= historyIndex h < 90) by (rewrite Hidx; apply Z.mod_pos_bound; lia).
  split; [|split; [|split]].
  - rewrite Hsnap. unfold rotation.
    rewrite length_app, length_skipn, length_firstn. destruct (filled h); lia.
  - intros Hnf. rewrite Hnf in Hsnap, Hf.
    rewrite rotation_0 in Hsnap. split; [exact Hsnap|].
    symmetry in Hf. apply Nat.leb_gt in Hf.
    rewrite Z.mod_small in Hidx by lia.
    rewrite Hidx, Nat2Z.id, lastn_padded_partial in Hrot by exact Hf.
    unfold rotation in Hrot.
    apply app_inj_length in Hrot as [Hs Hp];
      [|rewrite length_skipn, repeat_length; lia].
    rewrite <- (firstn_skipn (length vs) (cpuHistory h)), Hs, Hp. reflexivity.
  - intros Hfl. rewrite Hfl in Hsnap. exact Hsnap.
  - intros Hn.
    assert (Hfl : filled h = true) by (rewrite Hf; apply Nat.leb_le; exact Hn).
    rewrite Hfl in Hsnap. rewrite Hrot, lastn_padded_full in Hsnap by exact Hn.
    split; [exact Hfl|]. split; [exact Hsnap|].
    intros d. rewrite Hsnap. unfold lastn. apply last_skipn. lia.
Qed.

(** Claim C1 as stated fails before the buffer is filled: after one push,
    [filled] is false and [historyIndex] is 1, yet the plotted sequence has
    90 samples, not the one-element prefix [cpuHistory[0..historyIndex)]. *)
Lemma SnapshotOrdered_unfilled_is_not_a_prefix :
  let h := Push (of_Z 10) History_init in
  filled h = false /\ historyIndex h = 1 /\
  length (SnapshotOrdered h) = 90%nat /\
  length (firstn (Z.to_nat (historyIndex h)) (cpuHistory h)) = 1%nat /\
  SnapshotOrdered h <> firstn (Z.to_nat (historyIndex h)) (cpuHistory h).
Proof.
  cbv zeta. repeat split; try reflexivity.
  intros H. apply (f_equal (@length _)) in H. vm_compute in H. discriminate H.
Qed.

Lemma History_inv_index : forall vs h, History_inv vs h -> 0 <= historyIndex h < 90.
Proof.
  intros vs h (_ & Hidx & _). rewrite Hidx. apply Z.mod_pos_bound. lia.
Qed.

(** An in-range store writes its slot and no other. *)
Lemma store_nth_error : forall (s : list float) (i : Z) (v : float),
  0 <= i < Z.of_nat (length s) ->
  nth_error (store s i v) (Z.to_nat i) = Some v /\
  (forall j, j <> Z.to_nat i -> nth_error (store s i v) j = nth_error s j).
Proof.
  intros s i v Hi.
  destruct (split_at s (Z.to_nat i)) as (a & x & b & -> & Ha); [lia|].
  replace i with (Z.of_nat (length a)) by lia.
  rewrite store_app, Nat2Z.id. split.
  - rewrite nth_error_app2, Nat.sub_diag by lia. reflexivity.
  - intros j Hj.
    destruct (Nat.lt_ge_cases j (length a)) as [Hlt|Hge].
    + rewrite !nth_error_app1 by exact Hlt. reflexivity.
    + rewrite !nth_error_app2 by exact Hge.
      destruct (j - length a)%nat as [|k] eqn:E; [lia|reflexivity].
Qed.

(** Claim C5.  On the history reached after any frames [vs], a [Push v]
    writes [v] in slot [historyIndex] and leaves every other slot alone,
    keeps the 90 slots, moves [historyIndex] to [(historyIndex + 1) mod 90],
    which stays in [0, 90), and leaves [filled] true exactly when at least
    90 values have been pushed: the push that first sets it is the one that
    wraps [historyIndex] to 0. *)
Theorem Push_writes_and_advances : forall (vs : list float) (v : float),
  let h := pushes vs History_init in
  let h' := Push v h in
  historyIndex h = Z.of_nat (length vs) mod 90 /\
  nth_error (cpuHistory h') (Z.to_nat (historyIndex h)) = Some v /\
  (forall j, j <> Z.to_nat (historyIndex h) ->
             nth_error (cpuHistory h') j = nth_error (cpuHistory h) j) /\
  length (cpuHistory h') = 90%nat /\
  historyIndex h' = (historyIndex h + 1) mod 90 /\
  0 <= historyIndex h' < 90 /\
  (filled h' = true <-> (90 <= length vs + 1)%nat) /\
  (filled h = false -> (filled h' = true <-> historyIndex h' = 0)).
Proof.
  intros vs v h h'.
  pose proof (pushes_inv vs) as Hinv. fold h in Hinv.
  pose proof (History_inv_Push vs v h Hinv) as Hinv'. fold h' in Hinv'.
  pose proof (History_inv_index _ _ Hinv) as Hr.
  pose proof (History_inv_index _ _ Hinv') as Hr'.
  destruct Hinv as (Hlen & Hidx & Hf & _).
  destruct Hinv' as (Hlen' & Hidx' & Hf' & _).
  rewrite length_app in Hidx', Hf'. cbn [length] in Hidx', Hf'.
  destruct (store_nth_error (cpuHistory h) (historyIndex h) v) as [Hw Hframe];
    [lia|].
  assert (Hadv : historyIndex h' = (historyIndex h + 1) mod 90).
  { unfold h', Push. cbn [historyIndex]. apply Z.rem_mod_nonneg; lia. }
  assert (Hfilled : filled h' = true <-> (90 <= length vs + 1)%nat).
  { rewrite Hf'. apply Nat.leb_le. }
  repeat (split; [first [assumption | lia]|]).
  intros Hnf. rewrite Hf in Hnf. apply Nat.leb_gt in Hnf.
  rewrite Hfilled. split.
  - intros Hfl. rewrite Hidx'.
    replace (Z.of_nat (length vs + 1)) with 90 by lia. reflexivity.
  - intros H0.
    rewrite Hadv, Hidx in H0.
    rewrite (Z.mod_small (Z.of_nat (length vs))) in H0 by lia.
    destruct (Nat.eq_dec (length vs) 89) as [E|E]; [lia|].
    rewrite Z.mod_small in H0 by lia. lia.
Qed.

(** Ninety-one frames pushing 1.0, 2.0, ..., 91.0: the first value has been
    overwritten and the plot reads 2.0, ..., 91.0. *)
Example SnapshotOrdered_after_91_pushes :
  let vs := map (fun n => of_Z (Z.of_nat n)) (seq 1 91) in
  let h := pushes vs History_init in
  historyIndex h = 1 /\ filled h = true /\
  SnapshotOrdered h = map (fun n => of_Z (Z.of_nat n)) (seq 2 90).
Proof. cbv zeta. repeat split; vm_compute; reflexivity. Qed.

(** ** Signs of binary32 results *)

Lemma binary_round_aux_sign : forall sx mx ex lx,
  sign_clear (binary_round_aux prec emax sx mx ex lx) = negb sx \/
  binary_round_aux prec emax sx mx ex lx = S754_nan.
Proof.
  intros sx mx ex lx. unfold binary_round_aux.
  destruct (shr_fexp prec emax mx ex lx) as [mrs' e'].
  destruct (shr_fexp prec emax _ e' loc_Exact) as [mrs'' e''].
  destruct (shr_m mrs'') as [|p|p]; [left; reflexivity| |right; reflexivity].
  destruct (e'' <=? emax - prec); left; reflexivity.
Qed.

Lemma binary_round_aux_sign_clear : forall mx ex lx,
  sign_clear (binary_round_aux prec emax false mx ex lx) = true.
Proof.
  intros mx ex lx.
  destruct (binary_round_aux_sign false mx ex lx) as [H|H]; rewrite H; reflexivity.
Qed.

Lemma of_Z_sign_clear : forall n, 0 <= n -> sign_clear (of_Z n) = true.
Proof.
  intros [|p|p] Hn; [reflexivity| |lia].
  unfold of_Z, binary_normalize, binary_round.
  destruct (shl_align _ _ _) as [mz ez].
  apply binary_round_aux_sign_clear.
Qed.

Lemma div_sign_clear : forall x y,
  sign_clear x = true -> sign_clear y = true -> sign_clear (div x y) = true.
Proof.
  intros [[|]| [|] | |[|] mx ex] [[|]| [|] | |[|] my ey] Hx Hy;
    try discriminate; try reflexivity.
  unfold div, SFdiv.
  destruct (SFdiv_core_binary _ _ _ _ _ _) as [[mz ez] lz].
  apply binary_round_aux_sign_clear.
Qed.

Lemma mul_sign_clear : forall x y,
  sign_clear x = true -> sign_clear y = true -> sign_clear (mul x y) = true.
Proof.
  intros [[|]| [|] | |[|] mx ex] [[|]| [|] | |[|] my ey] Hx Hy;
    try discriminate; try reflexivity.
  unfold mul, SFmul. apply binary_round_aux_sign_clear.
Qed.

Lemma sign_clear_not_negative : forall x,
  sign_clear x = true -> ltb x zero = false.
Proof.
  intros [[|]| [|] | |[|] mx ex] Hx; try discriminate; reflexivity.
Qed.

Lemma to_ULONG_range : forall n, 0 <= to_ULONG n < 2 ^ 32.
Proof. intros n. unfold to_ULONG. apply Z.mod_pos_bound. lia. Qed.

Lemma memory_percent_sign_clear : forall totalMemory freeMemory,
  0 <= totalMemory -> sign_clear (memory_percent totalMemory freeMemory) = true.
Proof.
  intros t f Ht. unfold memory_percent.
  apply mul_sign_clear; [apply div_sign_clear|reflexivity];
    apply of_Z_sign_clear; [apply to_ULONG_range | exact Ht].
Qed.

(** ** Frames of the three blocks of [Update] *)

Lemma update_cpu_frame : forall svc m,
  m_pLocator (update_cpu svc m) = m_pLocator m /\
  m_pServices (update_cpu svc m) = m_pServices m /\
  m_memoryUsage (update_cpu svc m) = m_memoryUsage m /\
  m_diskUsage (update_cpu svc m) = m_diskUsage m.
Proof.
  intros svc m. unfold update_cpu.
  destruct (GetWmiPropertyValue svc CPU_QUERY _); repeat split.
Qed.

Lemma update_disk_frame : forall svc m,
  m_pLocator (update_disk svc m) = m_pLocator m /\
  m_pServices (update_disk svc m) = m_pServices m /\
  m_cpuLoad (update_disk svc m) = m_cpuLoad m /\
  m_memoryUsage (update_disk svc m) = m_memoryUsage m.
Proof.
  intros svc m. unfold update_disk.
  destruct (GetWmiPropertyValue svc DISK_QUERY _); repeat split.
Qed.

Lemma update_memory_frame : forall svc m m',
  update_memory svc m = Some m' ->
  m_pLocator m' = m_pLocator m /\
  m_pServices m' = m_pServices m /\
  m_cpuLoad m' = m_cpuLoad m /\
  m_diskUsage m' = m_diskUsage m.
Proof.
  intros svc m m'. unfold update_memory.
  destruct (ExecQuery svc MEMORY_QUERY) as [e|]; [|intros [= <-]; repeat split].
  destruct (Next e) as [obj|]; [|intros [= <-]; repeat split].
  destruct (wtol_bstrVal (Get obj _)) as [t|]; [|discriminate].
  destruct (wtol_bstrVal (Get obj _)) as [f|]; [|discriminate].
  destruct (0 <? t); intros [= <-]; repeat split.
Qed.

(** The memory value [update_memory] leaves does not depend on the other
    fields of the object it starts from. *)
Lemma update_memory_value : forall svc m m',
  update_memory svc m = Some m' ->
  m_memoryUsage m' = m_memoryUsage m \/
  exists e obj t f,
    ExecQuery svc MEMORY_QUERY = Some e /\ Next e = Some obj /\
    Get obj "TotalVisibleMemorySize" = Some (VT_BSTR t) /\
    Get obj "FreePhysicalMemory" = Some (VT_BSTR f) /\
    0 < to_ULONG (_wtol t) /\
    m_memoryUsage m' = memory_percent (to_ULONG (_wtol t)) (to_ULONG (_wtol f)).
Proof.
  intros svc m m'. unfold update_memory.
  destruct (ExecQuery svc MEMORY_QUERY) as [e|] eqn:Ee;
    [|intros [= <-]; left; reflexivity].
  destruct (Next e) as [obj|] eqn:En; [|intros [= <-]; left; reflexivity].
  destruct (Get obj "TotalVisibleMemorySize") as [[| | | | |t| | |]|] eqn:Et;
    cbn [wtol_bstrVal]; try discriminate.
  destruct (Get obj "FreePhysicalMemory") as [[| | | | |f| | |]|] eqn:Ef;
    cbn [wtol_bstrVal]; try discriminate.
  destruct (0 <? to_ULONG (_wtol t)) eqn:E; intros [= <-]; [|left; reflexivity].
  right. exists e, obj, t, f. apply Z.ltb_lt in E.
  repeat split; try assumption; reflexivity.
Qed.


(** A connected [Update] is its three blocks in sequence. *)
Lemma Update_connected : forall svc m p,
  m_pServices m = Some p ->
  Update svc m =
  match update_memory svc (update_cpu svc m) with
  | Some m1 => Some (update_disk svc m1)
  | None => None
  end.
Proof. intros svc m p H. unfold Update. rewrite H. reflexivity. Qed.

(** Each metric's new value is decided by its own query alone. *)
Lemma Update_metrics_independent : forall svc m p m',
  m_pServices m = Some p ->
  Update svc m = Some m' ->
  m_cpuLoad m' = m_cpuLoad (update_cpu svc m) /\
  (exists mm, update_memory svc m = Some mm /\ m_memoryUsage m' = m_memoryUsage mm) /\
  m_diskUsage m' = m_diskUsage (update_disk svc m) /\
  m_pLocator m' = m_pLocator m /\ m_pServices m' = m_pServices m.
Proof.
  intros svc m p m' Hp HU.
  rewrite (Update_connected _ _ _ Hp) in HU.
  destruct (update_memory svc (update_cpu svc m)) as [m1|] eqn:E1; [|discriminate].
  injection HU as <-.
  destruct (update_cpu_frame svc m) as (Hc1 & Hc2 & Hc3 & Hc4).
  destruct (update_memory_frame _ _ _ E1) as (Hm1 & Hm2 & Hm3 & Hm4).
  destruct (update_disk_frame svc m1) as (Hd1 & Hd2 & Hd3 & Hd4).
  split; [congruence|]. split.
  - revert E1. unfold update_memory.
    destruct (ExecQuery svc MEMORY_QUERY) as [e|];
      [|intros [= <-]; eexists; split; [reflexivity|congruence]].
    destruct (Next e) as [obj|];
      [|intros [= <-]; eexists; split; [reflexivity|congruence]].
    destruct (wtol_bstrVal (Get obj _)) as [t|]; [|discriminate].
    destruct (wtol_bstrVal (Get obj _)) as [f|]; [|discriminate].
    destruct (0 <? t); intros [= <-]; eexists; (split; [reflexivity|]);
      rewrite Hd4; cbn; try reflexivity. exact Hc3.
  - split; [|split; congruence].
    unfold update_disk.
    destruct (GetWmiPropertyValue svc DISK_QUERY _); cbn; congruence.
Qed.

(** [Update] returns whenever its memory block does. *)
Lemma Update_returns : forall svc m,
  (exists mm, update_memory svc m = Some mm) ->
  exists m', Update svc m = Some m'.
Proof.
  intros svc m [mm Hmm]. unfold Update.
  destruct (m_pServices m); [|eexists; reflexivity].
  revert Hmm. unfold update_memory.
  destruct (ExecQuery svc MEMORY_QUERY) as [e|]; [|eexists; reflexivity].
  destruct (Next e) as [obj|]; [|eexists; reflexivity].
  destruct (wtol_bstrVal (Get obj _)) as [t|]; [|discriminate].
  destruct (wtol_bstrVal (Get obj _)) as [f|]; [|discriminate].
  destruct (0 <? t); eexists; reflexivity.
Qed.



(** Claim C4.  With [m_pServices] null, [Update] returns the monitor it was
    given, and the [m_perfMonitor.Update()] statement of [Gui::Render] leaves
    the monitor and the CPU history unchanged. *)
Theorem Update_not_connected_is_noop : forall svc g,
  m_pServices (Gui.m_perfMonitor g) = nullptr ->
  Update svc (Gui.m_perfMonitor g) = Some (Gui.m_perfMonitor g) /\
  Gui.Render_Update svc g = Some g.
Proof.
  intros svc [m h] Hnull. cbn [Gui.m_perfMonitor] in *.
  assert (HU : Update svc m = Some m) by (unfold Update; rewrite Hnull; reflexivity).
  split; [exact HU|].
  unfold Gui.Render_Update. cbn [Gui.m_perfMonitor Gui.history]. rewrite HU. reflexivity.
Qed.

(** C4 on a monitor that was never initialised. *)
Lemma Update_not_connected_is_noop_witness :
  let g := Gui.mkGui new (Gui.pushes [of_Z 10] Gui.History_init) in
  Update Scenario.busy_disk (Gui.m_perfMonitor g) = Some (Gui.m_perfMonitor g) /\
  Gui.Render_Update Scenario.busy_disk g = Some g.
Proof.
  exact (Update_not_connected_is_noop Scenario.busy_disk
           (Gui.mkGui new (Gui.pushes [of_Z 10] Gui.History_init)) eq_refl).
Defined.

(** Every frame pushes the CPU load on the history, whatever [Update] did
    in that frame. *)
Lemma Render_pushes_every_frame : forall svc g g',
  Render svc g = Some g' ->
  history g' = Push (GetCpuLoad (m_perfMonitor g')) (history g).
Proof.
  intros svc [m h] g'. unfold Render, Render_Update.
  cbn [m_perfMonitor history].
  destruct (Update svc m) as [m1|]; [|discriminate].
  intros [= <-]. reflexivity.
Qed.

(** Claim C6.  When the text reported for [TotalVisibleMemorySize] converts
    to 0, every [Update] that returns leaves the memory usage as it was, and
    [Update] does return when the free-memory property is a string. *)
Theorem Update_skips_zero_total_memory : forall svc m e obj t,
  ExecQuery svc MEMORY_QUERY = Some e ->
  Next e = Some obj ->
  Get obj "TotalVisibleMemorySize" = Some (VT_BSTR t) ->
  to_ULONG (_wtol t) = 0 ->
  (forall m', Update svc m = Some m' -> GetMemoryUsage m' = GetMemoryUsage m) /\
  (forall f, Get obj "FreePhysicalMemory" = Some (VT_BSTR f) ->
             exists m', Update svc m = Some m' /\
                        GetMemoryUsage m' = GetMemoryUsage m).
Proof.
  intros svc m e obj t He Hn Ht H0.
  assert (Hmem : forall m0 mm, update_memory svc m0 = Some mm -> mm = m0).
  { intros m0 mm. unfold update_memory. rewrite He, Hn, Ht. cbn [wtol_bstrVal].
    rewrite H0. destruct (wtol_bstrVal (Get obj _)); [|discriminate].
    cbn. intros [= <-]. reflexivity. }
  assert (Keep : forall m', Update svc m = Some m' ->
                            GetMemoryUsage m' = GetMemoryUsage m).
  { intros m' HU. unfold GetMemoryUsage.
    destruct (m_pServices m) as [p|] eqn:Hp.
    - destruct (Update_metrics_independent _ _ _ _ Hp HU)
        as (_ & (mm & Hmm & Hm) & _).
      rewrite Hm, (Hmem _ _ Hmm). reflexivity.
    - unfold Update in HU. rewrite Hp in HU. injection HU as <-. reflexivity. }
  split; [exact Keep|].
  intros f Hf.
  destruct (Update_returns svc m) as [m' HU].
  - exists m. unfold update_memory. rewrite He, Hn, Ht, Hf. cbn [wtol_bstrVal].
    rewrite H0. reflexivity.
  - exists m'. split; [exact HU | exact (Keep m' HU)].
Qed.

(** C6 on a provider that reports a total of 0. *)
Lemma Update_skips_zero_total_memory_witness :
  exists m', Update Scenario.zero_total_memory Scenario.connected = Some m' /\
             GetMemoryUsage m' = GetMemoryUsage Scenario.connected.
Proof.
  refine (proj2 (Update_skips_zero_total_memory
                   Scenario.zero_total_memory Scenario.connected
                   _ _ "0"%string eq_refl eq_refl eq_refl eq_refl)
                "4000000"%string eq_refl).
Defined.

(** ** Current values over histories of calls *)

Lemma GetWmiPropertyValue_range : forall svc q name v,
  GetWmiPropertyValue svc q name = Some v -> 0 <= v < 2 ^ 32.
Proof.
  intros svc q name v. unfold GetWmiPropertyValue.
  destruct (ExecQuery svc q) as [e|]; [|discriminate].
  destruct (Next e) as [obj|]; [|discriminate].
  destruct (Get obj name) as [[| | | | | | | |]|]; try discriminate;
    intros [= <-]; apply to_ULONG_range.
Qed.

Lemma Initialize_values : forall env m,
  let m' := snd (fst (Initialize env m)) in
  m_cpuLoad m' = m_cpuLoad m /\ m_memoryUsage m' = m_memoryUsage m /\
  m_diskUsage m' = m_diskUsage m.
Proof.
  intros env m. unfold Initialize.
  destruct (FAILED (CoInitializeEx env)); [repeat split|].
  destruct (FAILED (CoInitializeSecurity env)); [repeat split|].
  destruct (FAILED (fst (CoCreateInstance env))); [repeat split|].
  destruct (FAILED (fst (ConnectServer env))); [repeat split|].
  destruct (FAILED (CoSetProxyBlanket env)); repeat split.
Qed.

Lemma Shutdown_values : forall m,
  let m' := fst (Shutdown m) in
  m_cpuLoad m' = m_cpuLoad m /\ m_memoryUsage m' = m_memoryUsage m /\
  m_diskUsage m' = m_diskUsage m.
Proof.
  intros m. unfold Shutdown.
  destruct (m_pServices m); cbn; destruct (m_pLocator m); repeat split.
Qed.

(** What one [Update] does to each value, connected or not. *)
Lemma Update_values : forall svc m m',
  Update svc m = Some m' ->
  (m_cpuLoad m' = m_cpuLoad m \/
   exists v, GetWmiPropertyValue svc CPU_QUERY "PercentProcessorTime" = Some v /\
             m_cpuLoad m' = of_Z v) /\
  (m_memoryUsage m' = m_memoryUsage m \/
   exists e obj t f,
     ExecQuery svc MEMORY_QUERY = Some e /\ Next e = Some obj /\
     Get obj "TotalVisibleMemorySize" = Some (VT_BSTR t) /\
     Get obj "FreePhysicalMemory" = Some (VT_BSTR f) /\
     0 < to_ULONG (_wtol t) /\
     m_memoryUsage m' = memory_percent (to_ULONG (_wtol t)) (to_ULONG (_wtol f))) /\
  (m_diskUsage m' = m_diskUsage m \/
   exists v, GetWmiPropertyValue svc DISK_QUERY "PercentDiskTime" = Some v /\
             m_diskUsage m' = of_Z v).
Proof.
  intros svc m m' HU.
  destruct (m_pServices m) as [p|] eqn:Hp.
  - destruct (Update_metrics_independent _ _ _ _ Hp HU)
      as (Hc & (mm & Hmm & Hm) & Hd & _).
    split; [|split].
    + rewrite Hc. unfold update_cpu.
      destruct (GetWmiPropertyValue svc CPU_QUERY _) as [v|];
        [right; exists v; split; reflexivity | left; reflexivity].
    + rewrite Hm. exact (update_memory_value _ _ _ Hmm).
    + rewrite Hd. unfold update_disk.
      destruct (GetWmiPropertyValue svc DISK_QUERY _) as [v|];
        [right; exists v; split; reflexivity | left; reflexivity].
  - unfold Update in HU. rewrite Hp in HU. injection HU as <-.
    repeat split; left; reflexivity.
Qed.

Lemma call_keeps_unsampled : forall c m m',
  call c m = Some m' ->
  (cpu_sampled c = false -> GetCpuLoad m' = GetCpuLoad m) /\
  (memory_sampled c = false -> GetMemoryUsage m' = GetMemoryUsage m) /\
  (disk_sampled c = false -> GetDiskUsage m' = GetDiskUsage m).
Proof.
  intros [env|svc|] m m' Hc; cbn [call] in Hc.
  - injection Hc as <-. destruct (Initialize_values env m) as (H1 & H2 & H3).
    repeat split; intros _; assumption.
  - destruct (Update_values _ _ _ Hc) as (Hcpu & Hmem & Hdisk).
    unfold GetCpuLoad, GetMemoryUsage, GetDiskUsage. split; [|split].
    + intros Hs. destruct Hcpu as [H|(v & Hv & _)]; [exact H|].
      cbn [cpu_sampled] in Hs. rewrite Hv in Hs. discriminate.
    + intros Hs. destruct Hmem as [H|(e & obj & t & f & He & Hn & _)]; [exact H|].
      cbn [memory_sampled] in Hs. rewrite He, Hn in Hs. discriminate.
    + intros Hs. destruct Hdisk as [H|(v & Hv & _)]; [exact H|].
      cbn [disk_sampled] in Hs. rewrite Hv in Hs. discriminate.
  - injection Hc as <-. destruct (Shutdown_values m) as (H1 & H2 & H3).
    repeat split; intros _; assumption.
Qed.






(** Claim C9, as amended.  [GetWmiPropertyValue] succeeds exactly when the
    query yields a record, the property read succeeds and the variant is a
    string ([VT_BSTR], any text, converted by [_wtol]) or a [VT_I4]; it
    fails exactly when the query fails, no record is returned, the read
    fails or the variant has another type.  When it fails for the CPU or the
    disk query, [Update] leaves that value unchanged. *)
Theorem GetWmiPropertyValue_success_cases :
  (forall svc q name v,
     GetWmiPropertyValue svc q name = Some v <->
     exists e obj,
       ExecQuery svc q = Some e /\ Next e = Some obj /\
       ((exists text, Get obj name = Some (VT_BSTR text) /\
                      v = to_ULONG (_wtol text)) \/
        (exists lVal, Get obj name = Some (VT_I4 lVal) /\ v = to_ULONG lVal))) /\
  (forall svc q name,
     GetWmiPropertyValue svc q name = None <->
     ExecQuery svc q = None \/
     (exists e, ExecQuery svc q = Some e /\ Next e = None) \/
     (exists e obj, ExecQuery svc q = Some e /\ Next e = Some obj /\
        match Get obj name with
        | Some (VT_BSTR _) | Some (VT_I4 _) => False
        | _ => True
        end)) /\
  (forall svc m m', Update svc m = Some m' ->
     (GetWmiPropertyValue svc CPU_QUERY "PercentProcessorTime" = None ->
      GetCpuLoad m' = GetCpuLoad m) /\
     (GetWmiPropertyValue svc DISK_QUERY "PercentDiskTime" = None ->
      GetDiskUsage m' = GetDiskUsage m)).
Proof.
  split; [|split].
  - intros svc q name v. unfold GetWmiPropertyValue. split.
    + destruct (ExecQuery svc q) as [e|]; [|discriminate].
      destruct (Next e) as [obj|] eqn:En; [|discriminate].
      destruct (Get obj name) as [[| | | | | | | |]|] eqn:Eg; try discriminate;
        intros [= <-]; exists e, obj; (split; [reflexivity|]); (split; [exact En|]).
      * right. eexists. split; [exact Eg|reflexivity].
      * left. eexists. split; [exact Eg|reflexivity].
    + intros (e & obj & -> & -> & [(text & -> & ->)|(lVal & -> & ->)]); reflexivity.
  - intros svc q name. unfold GetWmiPropertyValue. split.
    + destruct (ExecQuery svc q) as [e|]; [|left; reflexivity].
      destruct (Next e) as [obj|] eqn:En;
        [|intros _; right; left; exists e; split; [reflexivity|exact En]].
      intros H. right. right. exists e, obj.
      split; [reflexivity|]. split; [exact En|].
      destruct (Get obj name) as [[| | | | | | | |]|]; try exact I; discriminate.
    + intros [->|[(e & -> & ->)|(e & obj & -> & -> & H)]]; try reflexivity.
      destruct (Get obj name) as [[| | | | | | | |]|]; try reflexivity; contradiction.
  - intros svc m m' HU.
    destruct (Update_values _ _ _ HU) as (Hcpu & _ & Hdisk).
    unfold GetCpuLoad, GetDiskUsage. split; intros Hnone.
    + destruct Hcpu as [H|(v & Hv & _)]; [exact H|congruence].
    + destruct Hdisk as [H|(v & Hv & _)]; [exact H|congruence].
Qed.

(** Claim C9 as stated fails on text that is not a number: for the
    property text "abc" the query succeeds with the value 0, and an [Update]
    replaces a CPU load of 57.0 by 0.0. *)
Lemma GetWmiPropertyValue_accepts_non_numeric_text :
  is_decimal_text "abc" = false /\
  GetWmiPropertyValue (Scenario.cpu_text "abc") CPU_QUERY "PercentProcessorTime"
    = Some 0 /\
  exists m m',
    run [DoInitialize Scenario.com_ok; DoUpdate (Scenario.cpu_text "57")] new
      = Some m /\
    GetCpuLoad m = of_Z 57 /\
    Update (Scenario.cpu_text "abc") m = Some m' /\
    GetCpuLoad m' = zero.
Proof.
  split; [reflexivity|]. split; [reflexivity|].
  eexists. eexists. split; [reflexivity|]. split; [reflexivity|].
  split; reflexivity.
Qed.

(** Claim C10.  [totalMemory] and [freeMemory] are [ULONG]s: whenever
    [0 <= total < free < 2^32] their difference wraps to
    [total - free + 2^32].  For the readings 1000 and 2000 the difference is
    4294966296 and the memory usage stored by [Update] is 429496640.0, far
    above 100.  Whatever the readings, the stored percentage never has its
    sign bit set and never compares below 0. *)
Theorem memory_percent_wraps_to_a_huge_value :
  (forall total free,
     0 <= total -> total < free -> free < 2 ^ 32 ->
     to_ULONG (total - free) = total - free + 2 ^ 32 /\
     2 ^ 32 - free <= to_ULONG (total - free) < 2 ^ 32) /\
  (exists m',
     Update Scenario.free_exceeds_total Scenario.connected = Some m' /\
     to_ULONG (_wtol "1000") = 1000 /\ to_ULONG (_wtol "2000") = 2000 /\
     to_ULONG (1000 - 2000) = 4294966296 /\
     GetMemoryUsage m' = memory_percent 1000 2000 /\
     GetMemoryUsage m' = S754_finite false 13421770 5 /\
     ltb (of_Z 400000000) (GetMemoryUsage m') = true /\
     ltb hundred (GetMemoryUsage m') = true) /\
  (forall total free,
     0 <= total ->
     sign_clear (memory_percent total free) = true /\
     ltb (memory_percent total free) zero = false).
Proof.
  split; [|split].
  - intros total free H0 Hlt Hf. unfold to_ULONG.
    assert (E : (total - free) mod 2 ^ 32 = total - free + 2 ^ 32).
    { symmetry. apply (Z.mod_unique _ _ (-1)); lia. }
    rewrite E. lia.
  - eexists. split; [reflexivity|]. repeat split; vm_compute; reflexivity.
  - intros total free H0.
    pose proof (memory_percent_sign_clear total free H0) as H.
    split; [exact H | exact (sign_clear_not_negative _ H)].
Qed.

(** * The connection life cycle *)
Lemma com_same_refl : forall w, com_same w w.
Proof. intros w. repeat split. Qed.

Lemma add_ref_counts : forall a w,
  apartment (add_ref (Some a) w) = apartment w /\
  refcount (add_ref (Some a) w) a = S (refcount w a) /\
  (forall b, b <> a -> refcount (add_ref (Some a) w) b = refcount w b) /\
  bad_releases (add_ref (Some a) w) = bad_releases w /\
  unbalanced_uninits (add_ref (Some a) w) = unbalanced_uninits w.
Proof.
  intros a w. cbn. rewrite Nat.eqb_refl. repeat split.
  intros b Hb. apply Nat.eqb_neq in Hb. rewrite Hb. reflexivity.
Qed.

(** Releasing a reference that was taken gives the COM state back. *)
Lemma release_held : forall a w w0,
  refcount w a = S (refcount w0 a) ->
  apartment (release (Some a) w) = apartment w /\
  refcount (release (Some a) w) a = refcount w0 a /\
  (forall b, b <> a -> refcount (release (Some a) w) b = refcount w b) /\
  bad_releases (release (Some a) w) = bad_releases w /\
  unbalanced_uninits (release (Some a) w) = unbalanced_uninits w.
Proof.
  intros a w w0 H. unfold release. rewrite H. cbn.
  rewrite Nat.eqb_refl, H. repeat split.
  intros b Hb. apply Nat.eqb_neq in Hb. rewrite Hb. reflexivity.
Qed.

Lemma release_add_ref : forall a w,
  com_same w (release (Some a) (add_ref (Some a) w)).
Proof.
  intros a w.
  destruct (add_ref_counts a w) as (A1 & A2 & A3 & A4 & A5).
  destruct (release_held a _ w A2) as (R1 & R2 & R3 & R4 & R5).
  unfold com_same. repeat split; try congruence.
  intros b. destruct (Nat.eq_dec b a) as [->|Hb]; [exact R2|].
  rewrite (R3 b Hb). exact (A3 b Hb).
Qed.

Lemma release_release_add_ref_add_ref : forall a b w,
  com_same w
    (release (Some a) (release (Some b) (add_ref (Some b) (add_ref (Some a) w)))).
Proof.
  intros a b w.
  destruct (release_add_ref b (add_ref (Some a) w)) as (B1 & B2 & B3 & B4).
  destruct (add_ref_counts a w) as (A1 & A2 & A3 & A4 & A5).
  set (w2 := release (Some b) (add_ref (Some b) (add_ref (Some a) w))) in *.
  assert (H : refcount w2 a = S (refcount w a)) by (rewrite B2; exact A2).
  destruct (release_held a w2 w H) as (R1 & R2 & R3 & R4 & R5).
  unfold com_same. repeat split; try congruence.
  intros c. destruct (Nat.eq_dec c a) as [->|Hc]; [exact R2|].
  rewrite (R3 c Hc), B2. exact (A3 c Hc).
Qed.

(** [CoUninitialize] undoes the [CoInitializeEx] of the same attempt. *)
Lemma uninitialize_after_initialize : forall w w',
  com_same (mkCom (S (apartment w)) (refcount w) (bad_releases w)
                  (unbalanced_uninits w)) w' ->
  com_same w (com_step w' Call_CoUninitialize).
Proof.
  intros w w' (H1 & H2 & H3 & H4). cbn in H1, H2, H3, H4.
  unfold com_same, com_step. rewrite H1. cbn. repeat split; assumption.
Qed.

(** [stops_at n cleanup]: the trace is the first [n] set-up calls followed
    by [cleanup]; [not_all_succeeded] refutes that the five results are all
    successes once one of them is known to be a failure. *)
Ltac stops_at n cleanup :=
  exists n, cleanup;
  repeat (split; try (intros; discriminate)); cbn; auto.

Ltac not_all_succeeded :=
  let H := fresh "H" in
  intros H;
  repeat (let H' := fresh "H" in
          inversion H as [|? ? ? H']; clear H; rename H' into H;
          try congruence).

(** Claim C3.  [Initialize] makes its set-up calls in the order library
    initialisation, security set-up, locator acquisition, service connection,
    proxy security, each only after all earlier ones succeeded, and stops at
    the first that fails; what follows a failure is clean-up only.  It
    returns [true] exactly when the five succeed.  When it returns [false],
    whatever the step that failed, every reference it acquired has been
    released and COM uninitialised as often as initialised: the COM state is
    the one it started from, with no release of an object not held. *)
Theorem Initialize_ordered_and_atomic : forall env m w,
  let ok := fst (fst (Initialize env m)) in
  let m' := snd (fst (Initialize env m)) in
  let tr := snd (Initialize env m) in
  (exists n cleanup,
     (1 <= n <= 5)%nat /\
     map kind tr = firstn n setup_order ++ cleanup /\
     Forall (eq Cleanup) cleanup /\
     Forall (fun hRes => FAILED hRes = false) (firstn (n - 1) (step_results env)) /\
     (ok = true -> n = 5%nat /\ cleanup = []) /\
     (ok = false -> FAILED (nth (n - 1) (step_results env) S_OK) = true)) /\
  (ok = true <-> Forall (fun hRes => FAILED hRes = false) (step_results env)) /\
  (ok = false -> com_same w (com_run tr w)) /\
  (ok = true ->
     m_pLocator m' = Some (snd (CoCreateInstance env)) /\
     m_pServices m' = Some (snd (ConnectServer env))).
Proof.
  intros [h1 h2 [h3 a] [h4 b] h5] m w.
  unfold Initialize, step_results, out_pointer, com_run.
  cbn [CoInitializeEx CoInitializeSecurity CoCreateInstance ConnectServer
       CoSetProxyBlanket fst snd].
  destruct (FAILED h1) eqn:E1;
    [|destruct (FAILED h2) eqn:E2;
      [|destruct (FAILED h3) eqn:E3;
        [|destruct (FAILED h4) eqn:E4;
          [|destruct (FAILED h5) eqn:E5]]]];
    cbn [fst snd app map kind fold_left com_step add_ref
         m_pLocator m_pServices set_pLocator set_pServices nullptr];
    rewrite ?E1.
  - (* library initialisation fails: nothing was acquired *)
    split; [stops_at 1%nat (@nil CallKind)|].
    split; [split; [discriminate|not_all_succeeded]|].
    split; [intros _; apply com_same_refl | discriminate].
  - (* security set-up fails *)
    split; [stops_at 2%nat [Cleanup]|].
    split; [split; [discriminate|not_all_succeeded]|].
    split; [|discriminate].
    intros _. apply uninitialize_after_initialize, com_same_refl.
  - (* locator acquisition fails: [m_pLocator] received [nullptr] *)
    split; [stops_at 3%nat [Cleanup]|].
    split; [split; [discriminate|not_all_succeeded]|].
    split; [|discriminate].
    intros _. apply uninitialize_after_initialize, com_same_refl.
  - (* service connection fails: the locator is released *)
    split; [stops_at 4%nat [Cleanup; Cleanup]|].
    split; [split; [discriminate|not_all_succeeded]|].
    split; [|discriminate].
    intros _. apply uninitialize_after_initialize, release_add_ref.
  - (* proxy security fails: the service, then the locator are released *)
    split; [stops_at 5%nat [Cleanup; Cleanup; Cleanup]|].
    split; [split; [discriminate|not_all_succeeded]|].
    split; [|discriminate].
    intros _.
    apply uninitialize_after_initialize, release_release_add_ref_add_ref.
  - (* the five calls succeed *)
    split; [stops_at 5%nat (@nil CallKind)|].
    split; [split; [intros _; repeat constructor; assumption|reflexivity]|].
    split; [discriminate | intros _; split; reflexivity].
Qed.

(** The calls [Initialize] makes when it fails at each of the five steps. *)
Example Initialize_failure_traces :
  snd (Initialize Scenario.com_fails_at_library_init new)
    = [Call_CoInitializeEx E_FAIL] /\
  snd (Initialize Scenario.com_fails_at_security new)
    = [Call_CoInitializeEx S_OK; Call_CoInitializeSecurity E_FAIL;
       Call_CoUninitialize] /\
  snd (Initialize Scenario.com_fails_at_locator new)
    = [Call_CoInitializeEx S_OK; Call_CoInitializeSecurity S_OK;
       Call_CoCreateInstance E_FAIL nullptr; Call_CoUninitialize] /\
  snd (Initialize Scenario.com_fails_at_connect new)
    = [Call_CoInitializeEx S_OK; Call_CoInitializeSecurity S_OK;
       Call_CoCreateInstance S_OK (Some 1%nat);
       Call_ConnectServer (Some 1%nat) WBEM_E_ACCESS_DENIED nullptr;
       Call_Release (Some 1%nat); Call_CoUninitialize] /\
  snd (Initialize Scenario.com_fails_at_proxy new)
    = [Call_CoInitializeEx S_OK; Call_CoInitializeSecurity S_OK;
       Call_CoCreateInstance S_OK (Some 1%nat);
       Call_ConnectServer (Some 1%nat) S_OK (Some 2%nat);
       Call_CoSetProxyBlanket (Some 2%nat) E_FAIL;
       Call_Release (Some 2%nat); Call_Release (Some 1%nat);
       Call_CoUninitialize] /\
  Initialize Scenario.com_ok new
    = (true,
       mkState (Some 1%nat) (Some 2%nat) zero zero zero,
       [Call_CoInitializeEx S_OK; Call_CoInitializeSecurity S_OK;
        Call_CoCreateInstance S_OK (Some 1%nat);
        Call_ConnectServer (Some 1%nat) S_OK (Some 2%nat);
        Call_CoSetProxyBlanket (Some 2%nat) S_OK]).
Proof. repeat split. Qed.

(** ** Shutdown *)

(** [Shutdown] clears both pointers and touches no value. *)
Lemma Shutdown_fields : forall m,
  fst (Shutdown m) =
  mkState nullptr nullptr (m_cpuLoad m) (m_memoryUsage m) (m_diskUsage m).
Proof.
  intros [l s c me d]. unfold Shutdown. destruct s, l; reflexivity.
Qed.

(** On the fields of the monitor a second [Shutdown] changes nothing. *)
Lemma Shutdown_twice_fields : forall m,
  fst (Shutdown (fst (Shutdown m))) = fst (Shutdown m).
Proof. intros m. rewrite !Shutdown_fields. reflexivity. Qed.

(** A second [Shutdown] finds both pointers cleared, releases nothing and
    calls [CoUninitialize] once more. *)
Lemma Shutdown_twice_calls : forall m,
  snd (Shutdown (fst (Shutdown m))) = [Call_CoUninitialize].
Proof. intros m. rewrite Shutdown_fields. reflexivity. Qed.

(** After a failure at one of the first three steps [Shutdown] releases
    nothing either. *)
Lemma Shutdown_after_early_failure : forall env,
  FAILED (CoInitializeEx env) = true \/
  FAILED (CoInitializeSecurity env) = true \/
  FAILED (fst (CoCreateInstance env)) = true ->
  fst (fst (Initialize env new)) = false /\
  snd (Shutdown (snd (fst (Initialize env new)))) = [Call_CoUninitialize].
Proof.
  intros [h1 h2 [h3 a] [h4 b] h5]. unfold Initialize, out_pointer.
  cbn [CoInitializeEx CoInitializeSecurity CoCreateInstance ConnectServer
       CoSetProxyBlanket fst snd].
  intros H.
  destruct (FAILED h1); [split; reflexivity|].
  destruct (FAILED h2); [split; reflexivity|].
  destruct (FAILED h3); [split; reflexivity|].
  destruct H as [H|[H|H]]; discriminate.
Qed.

(** Claim C7, the code at the failing input.  [Initialize] fails at the
    service connection: it releases the locator (the COM state is clean
    again) but leaves [m_pLocator] pointing at it.  The [Shutdown] that
    follows releases the locator a second time and calls [CoUninitialize] a
    second time. *)
Theorem Shutdown_after_failed_connect_releases_again :
  let r := Initialize Scenario.com_fails_at_connect new in
  let m1 := snd (fst r) in
  let s := Shutdown m1 in
  fst (fst r) = false /\
  snd r = [Call_CoInitializeEx S_OK; Call_CoInitializeSecurity S_OK;
           Call_CoCreateInstance S_OK (Some 1%nat);
           Call_ConnectServer (Some 1%nat) WBEM_E_ACCESS_DENIED nullptr;
           Call_Release (Some 1%nat); Call_CoUninitialize] /\
  refcount (com_run (snd r) ComState_init) 1%nat = 0%nat /\
  bad_releases (com_run (snd r) ComState_init) = 0%nat /\
  m_pLocator m1 = Some 1%nat /\
  snd s = [Call_Release (Some 1%nat); Call_CoUninitialize] /\
  bad_releases (com_run (snd r ++ snd s) ComState_init) = 1%nat /\
  unbalanced_uninits (com_run (snd r ++ snd s) ComState_init) = 1%nat.
Proof. cbv zeta. repeat split. Qed.

(** The same after a failure at the proxy security step, for both
    pointers. *)
Lemma Shutdown_after_failed_proxy_releases_again :
  let r := Initialize Scenario.com_fails_at_proxy new in
  let s := Shutdown (snd (fst r)) in
  fst (fst r) = false /\
  snd s = [Call_Release (Some 2%nat); Call_Release (Some 1%nat);
           Call_CoUninitialize] /\
  bad_releases (com_run (snd r) ComState_init) = 0%nat /\
  bad_releases (com_run (snd r ++ snd s) ComState_init) = 2%nat.
Proof. cbv zeta. repeat split. Qed.

(** After a successful [Initialize], a second [Shutdown] changes no field
    but calls [CoUninitialize] with no initialisation outstanding. *)
Lemma Shutdown_twice_unbalanced :
  let i := Initialize Scenario.com_ok new in
  let s1 := Shutdown (snd (fst i)) in
  let s2 := Shutdown (fst s1) in
  fst s2 = fst s1 /\
  unbalanced_uninits (com_run (snd i ++ snd s1) ComState_init) = 0%nat /\
  unbalanced_uninits (com_run (snd i ++ snd s1 ++ snd s2) ComState_init) = 1%nat.
Proof. cbv zeta. repeat split. Qed.

(** * Further properties of the sampler *)

(** The value [_wtol] returns is a [long]. *)
Lemma wtol_range : forall s, LONG_MIN <= _wtol s <= LONG_MAX.
Proof.
  intros s. unfold _wtol.
  destruct (match skip_space s with
            | String "-" s' => (true, s')
            | String "+" s' => (false, s')
            | _ => (false, skip_space s)
            end) as [negative rest].
  unfold LONG_MIN, LONG_MAX. lia.
Qed.

(** One refresh cycle changes neither interface pointer. *)
Lemma Update_pointers : forall svc m m',
  Update svc m = Some m' ->
  m_pLocator m' = m_pLocator m /\ m_pServices m' = m_pServices m.
Proof.
  intros svc m m' HU.
  destruct (m_pServices m) as [p|] eqn:Hp.
  - destruct (Update_metrics_independent _ _ _ _ Hp HU) as (_ & _ & _ & Hl & Hs).
    rewrite Hl, Hs, Hp. split; reflexivity.
  - unfold Update in HU. rewrite Hp in HU. injection HU as <-.
    rewrite Hp. split; reflexivity.
Qed.

(** Property X1.
    No number of refresh cycles changes the two interface pointers: a query
    that fails cannot disconnect the monitor, and no cycle connects it. *)
Theorem Updates_preserve_connection : forall svcs m m',
  run (map DoUpdate svcs) m = Some m' ->
  m_pLocator m' = m_pLocator m /\ m_pServices m' = m_pServices m.
Proof.
  induction svcs as [|svc svcs IH]; intros m m' Hr; cbn [map run call] in Hr.
  - injection Hr as <-. split; reflexivity.
  - destruct (Update svc m) as [m1|] eqn:HU; [|discriminate].
    destruct (IH _ _ Hr) as [H1 H2].
    destruct (Update_pointers _ _ _ HU) as [H3 H4].
    split; congruence.
Qed.

Lemma Updates_preserve_connection_witness :
  exists m',
    run (map DoUpdate [Scenario.disk_query_fails; Scenario.busy_disk])
        Scenario.connected = Some m' /\
    m_pLocator m' = Some 1%nat /\ m_pServices m' = Some 2%nat.
Proof.
  eexists. split; [reflexivity|].
  exact (Updates_preserve_connection
           [Scenario.disk_query_fails; Scenario.busy_disk]
           Scenario.connected _ eq_refl).
Defined.

(** ** [Initialize] and [Shutdown] composed *)

Import Lifecycle.

Lemma com_run_app : forall t1 t2 w,
  com_run (t1 ++ t2) w = com_run t2 (com_run t1 w).
Proof. intros. unfold com_run. apply fold_left_app. Qed.

Lemma com_same_trans : forall w1 w2 w3,
  com_same w1 w2 -> com_same w2 w3 -> com_same w1 w3.
Proof.
  intros w1 w2 w3 (A1 & A2 & A3 & A4) (B1 & B2 & B3 & B4).
  unfold com_same.
  split; [congruence|split; [|split; congruence]].
  intros a. rewrite B2. apply A2.
Qed.

Lemma Initialize_success : forall env m w,
  fst (fst (Initialize env m)) = true ->
  snd (fst (Initialize env m)) =
    mkState (Some (snd (CoCreateInstance env))) (Some (snd (ConnectServer env)))
            (m_cpuLoad m) (m_memoryUsage m) (m_diskUsage m) /\
  com_run (snd (Initialize env m)) w =
    after_connect (snd (CoCreateInstance env)) (snd (ConnectServer env)) w.
Proof.
  intros [h1 h2 [h3 a] [h4 b] h5] m w.
  unfold Initialize, out_pointer, com_run, after_connect.
  cbn [CoInitializeEx CoInitializeSecurity CoCreateInstance ConnectServer
       CoSetProxyBlanket fst snd].
  destruct (FAILED h1) eqn:E1; [discriminate|].
  destruct (FAILED h2) eqn:E2; [discriminate|].
  destruct (FAILED h3) eqn:E3; [discriminate|].
  destruct (FAILED h4) eqn:E4; [discriminate|].
  destruct (FAILED h5) eqn:E5; [discriminate|].
  intros _. cbn [fst snd app fold_left com_step m_pLocator m_pServices
                 set_pLocator set_pServices].
  rewrite E1. split; reflexivity.
Qed.

(** [Shutdown] on a monitor that holds both pointers. *)
Lemma Shutdown_connected : forall a b c me d,
  Shutdown (mkState (Some a) (Some b) c me d) =
  (mkState nullptr nullptr c me d,
   [Call_Release (Some b); Call_Release (Some a); Call_CoUninitialize]).
Proof. reflexivity. Qed.

Lemma Shutdown_undoes_connect : forall a b w,
  com_same w
    (com_run [Call_Release (Some b); Call_Release (Some a); Call_CoUninitialize]
             (after_connect a b w)).
Proof.
  intros a b w. unfold com_run, after_connect. cbn [fold_left com_step].
  apply uninitialize_after_initialize, release_release_add_ref_add_ref.
Qed.

Lemma Initialize_Shutdown_neutral : forall env m w,
  fst (fst (Initialize env m)) = true ->
  com_same w
    (com_run (snd (Initialize env m)
              ++ snd (Shutdown (snd (fst (Initialize env m))))) w) /\
  fst (Shutdown (snd (fst (Initialize env m)))) =
    mkState nullptr nullptr (m_cpuLoad m) (m_memoryUsage m) (m_diskUsage m).
Proof.
  intros env m w Hok.
  destruct (Initialize_success env m w Hok) as [Hm Hw].
  rewrite com_run_app, Hw, Hm, Shutdown_connected. cbn [fst snd].
  split; [apply Shutdown_undoes_connect | reflexivity].
Qed.

Lemma after_connect_counts : forall a b w,
  apartment (after_connect a b w) = S (apartment w) /\
  (forall c, refcount (after_connect a b w) c =
             (refcount w c + (if Nat.eqb c a then 1 else 0)
                           + (if Nat.eqb c b then 1 else 0))%nat) /\
  bad_releases (after_connect a b w) = bad_releases w /\
  unbalanced_uninits (after_connect a b w) = unbalanced_uninits w.
Proof.
  intros a b w. unfold after_connect. cbn.
  repeat split. intros c.
  destruct (Nat.eqb c a), (Nat.eqb c b); lia.
Qed.

(** Property X2.
    A successful [Initialize] followed by [Shutdown] gives the COM state
    back: the initialisation is undone and the locator and the service are
    each released once, with no release of an object not held; both pointers
    end null and the three values are untouched. *)
Theorem Initialize_then_Shutdown_restores_COM : forall env m w,
  fst (fst (Initialize env m)) = true ->
  com_same w
    (com_run (snd (Initialize env m)
              ++ snd (Shutdown (snd (fst (Initialize env m))))) w) /\
  fst (Shutdown (snd (fst (Initialize env m)))) =
    mkState nullptr nullptr (m_cpuLoad m) (m_memoryUsage m) (m_diskUsage m).
Proof. exact Initialize_Shutdown_neutral. Qed.

Lemma Initialize_then_Shutdown_restores_COM_witness :
  com_same ComState_init
    (com_run (snd (Initialize Scenario.com_ok new)
              ++ snd (Shutdown (snd (fst (Initialize Scenario.com_ok new)))))
             ComState_init) /\
  fst (Shutdown (snd (fst (Initialize Scenario.com_ok new)))) =
    mkState nullptr nullptr (m_cpuLoad new) (m_memoryUsage new) (m_diskUsage new).
Proof.
  exact (Initialize_then_Shutdown_restores_COM
           Scenario.com_ok new ComState_init eq_refl).
Defined.

(** Property X3.
    [Initialize] on a monitor that is already connected overwrites the two
    pointers without releasing them: after a second successful [Initialize]
    and a [Shutdown], the first locator and the first service still hold the
    reference taken for them and one COM initialisation is still
    outstanding. *)
Theorem Initialize_twice_leaks_first_connection : forall env1 env2 m w,
  fst (fst (Initialize env1 m)) = true ->
  fst (fst (Initialize env2 (snd (fst (Initialize env1 m))))) = true ->
  let m1 := snd (fst (Initialize env1 m)) in
  let m2 := snd (fst (Initialize env2 m1)) in
  let final := com_run (snd (Initialize env1 m) ++ snd (Initialize env2 m1)
                        ++ snd (Shutdown m2)) w in
  m_pLocator (fst (Shutdown m2)) = nullptr /\
  m_pServices (fst (Shutdown m2)) = nullptr /\
  apartment final = S (apartment w) /\
  (forall c, refcount final c =
             (refcount w c
              + (if Nat.eqb c (snd (CoCreateInstance env1)) then 1 else 0)
              + (if Nat.eqb c (snd (ConnectServer env1)) then 1 else 0))%nat) /\
  bad_releases final = bad_releases w /\
  unbalanced_uninits final = unbalanced_uninits w.
Proof.
  intros env1 env2 m w H1 H2 m1 m2 final.
  destruct (Initialize_success env1 m w H1) as [_ Hw1].
  set (w1 := com_run (snd (Initialize env1 m)) w) in *.
  destruct (Initialize_Shutdown_neutral env2 m1 w1 H2) as [(S1 & S2 & S3 & S4) Hf].
  fold m2 in Hf, S1, S2, S3, S4.
  assert (Hfinal : final
                   = com_run (snd (Initialize env2 m1) ++ snd (Shutdown m2)) w1).
  { unfold final, w1. rewrite com_run_app. reflexivity. }
  rewrite Hfinal.
  destruct (after_connect_counts (snd (CoCreateInstance env1))
              (snd (ConnectServer env1)) w) as (A1 & A2 & A3 & A4).
  rewrite <- Hw1 in A1, A2, A3, A4. fold w1 in A1, A2, A3, A4.
  rewrite Hf. cbn [m_pLocator m_pServices].
  repeat split; try congruence.
  intros c. rewrite S2. apply A2.
Qed.

Lemma Initialize_twice_leaks_first_connection_witness :
  let m1 := snd (fst (Initialize Scenario.com_ok new)) in
  let m2 := snd (fst (Initialize com_ok_again m1)) in
  let final := com_run (snd (Initialize Scenario.com_ok new)
                        ++ snd (Initialize com_ok_again m1)
                        ++ snd (Shutdown m2)) ComState_init in
  m_pLocator (fst (Shutdown m2)) = nullptr /\
  m_pServices (fst (Shutdown m2)) = nullptr /\
  apartment final = S (apartment ComState_init) /\
  (forall c, refcount final c =
             (refcount ComState_init c
              + (if Nat.eqb c (snd (CoCreateInstance Scenario.com_ok)) then 1 else 0)
              + (if Nat.eqb c (snd (ConnectServer Scenario.com_ok)) then 1 else 0))%nat) /\
  bad_releases final = bad_releases ComState_init /\
  unbalanced_uninits final = unbalanced_uninits ComState_init.
Proof.
  exact (Initialize_twice_leaks_first_connection
           Scenario.com_ok com_ok_again new ComState_init eq_refl eq_refl).
Defined.

(** ** Readings below zero *)

(** Property X4.
    A reading that is negative as a [long] reaches [Update] as a [ULONG]:
    for a [VT_I4] field holding [lVal] in [-2^31, 0) and for a string whose
    [_wtol] conversion is negative, [GetWmiPropertyValue] succeeds with the
    reading plus [2^32], a value of at least [2^31]. *)
Theorem GetWmiPropertyValue_negative_reading_wraps :
  forall svc q name e obj,
    ExecQuery svc q = Some e ->
    Next e = Some obj ->
    (forall lVal,
       Get obj name = Some (VT_I4 lVal) ->
       - 2 ^ 31 <= lVal < 0 ->
       GetWmiPropertyValue svc q name = Some (lVal + 2 ^ 32) /\
       2 ^ 31 <= lVal + 2 ^ 32 < 2 ^ 32) /\
    (forall text,
       Get obj name = Some (VT_BSTR text) ->
       _wtol text < 0 ->
       GetWmiPropertyValue svc q name = Some (_wtol text + 2 ^ 32) /\
       2 ^ 31 <= _wtol text + 2 ^ 32 < 2 ^ 32).
Proof.
  intros svc q name e obj He Hn.
  assert (W : forall n, - 2 ^ 31 <= n < 0 -> to_ULONG n = n + 2 ^ 32).
  { intros n Hr. unfold to_ULONG. symmetry.
    apply (Z.mod_unique _ _ (-1)); lia. }
  split.
  - intros lVal Hg Hr. unfold GetWmiPropertyValue.
    rewrite He, Hn, Hg, (W _ Hr). split; [reflexivity|lia].
  - intros text Hg Hneg.
    pose proof (wtol_range text) as Hr. unfold LONG_MIN, LONG_MAX in Hr.
    unfold GetWmiPropertyValue.
    rewrite He, Hn, Hg, W by lia. split; [reflexivity|lia].
Qed.

Lemma GetWmiPropertyValue_negative_reading_wraps_witness :
  GetWmiPropertyValue (Scenario.cpu_text "-1") CPU_QUERY "PercentProcessorTime"
    = Some (_wtol "-1" + 2 ^ 32) /\
  2 ^ 31 <= _wtol "-1" + 2 ^ 32 < 2 ^ 32.
Proof.
  refine (proj2 (GetWmiPropertyValue_negative_reading_wraps
                   (Scenario.cpu_text "-1") CPU_QUERY "PercentProcessorTime"
                   _ _ eq_refl eq_refl)
                "-1"%string eq_refl eq_refl).
Defined.

(** ** Frames *)

Import Session.

(** Property X5.
    A frame whose CPU query fails, or whose monitor is not connected, still
    pushes a sample: the CPU load is unchanged and the unchanged value is
    written to the history once more. *)
Theorem Render_repeats_value_without_cpu_sample : forall svc g g',
  Render svc g = Some g' ->
  m_pServices (m_perfMonitor g) = nullptr \/ cpu_sampled (DoUpdate svc) = false ->
  GetCpuLoad (m_perfMonitor g') = GetCpuLoad (m_perfMonitor g) /\
  history g' = Push (GetCpuLoad (m_perfMonitor g)) (history g).
Proof.
  intros svc [m h] g'. unfold Render, Render_Update.
  cbn [m_perfMonitor history].
  destruct (Update svc m) as [m1|] eqn:HU; [|discriminate].
  intros [= <-] Hwhy. cbn [m_perfMonitor history RenderPerformanceWindow].
  assert (Hcpu : GetCpuLoad m1 = GetCpuLoad m).
  { destruct Hwhy as [Hnull|Hfail].
    - unfold Update in HU. rewrite Hnull in HU. injection HU as <-. reflexivity.
    - exact (proj1 (call_keeps_unsampled (DoUpdate svc) m m1 HU) Hfail). }
  unfold RenderPerformanceWindow. cbn [m_perfMonitor history].
  rewrite Hcpu. split; reflexivity.
Qed.

Lemma Render_repeats_value_without_cpu_sample_witness :
  exists g',
    Render Scenario.free_exceeds_total (mkGui Scenario.connected History_init)
      = Some g' /\
    GetCpuLoad (m_perfMonitor g') = GetCpuLoad Scenario.connected /\
    history g' = Push (GetCpuLoad Scenario.connected) History_init.
Proof.
  eexists. split; [reflexivity|].
  exact (Render_repeats_value_without_cpu_sample
           Scenario.free_exceeds_total
           (mkGui Scenario.connected History_init) _ eq_refl
           (or_intror eq_refl)).
Defined.

(** The history after some frames is the history before them with one
    sample pushed per frame, the last of them the CPU load now reported. *)
Lemma frames_push_one_sample_each : forall svcs g g',
  frames svcs g = Some g' ->
  exists vs,
    length vs = length svcs /\
    history g' = pushes vs (history g) /\
    (svcs <> [] -> forall d, last vs d = GetCpuLoad (m_perfMonitor g')).
Proof.
  induction svcs as [|svc svcs IH]; intros g g' Hf; cbn [frames] in Hf.
  - injection Hf as <-. exists []. repeat split. intros H. contradiction.
  - destruct (Render svc g) as [g1|] eqn:HR; [|discriminate].
    destruct (IH _ _ Hf) as (vs & Hlen & Hh & Hlast).
    pose proof (Render_pushes_every_frame _ _ _ HR) as Hpush.
    exists (GetCpuLoad (m_perfMonitor g1) :: vs).
    split; [cbn [length]; congruence|]. split.
    + rewrite Hh, Hpush. reflexivity.
    + intros _ d. destruct svcs as [|svc2 svcs].
      * cbn [frames] in Hf. injection Hf as <-.
        destruct vs; [reflexivity|discriminate].
      * destruct vs as [|v vs]; [discriminate|].
        change (last (v :: vs) d = GetCpuLoad (m_perfMonitor g')).
        apply Hlast. discriminate.
Qed.

(** The slot written by the most recent [Push] holds the pushed value. *)
Lemma newest_slot_after_pushes : forall vs v,
  let h := pushes (vs ++ [v]) History_init in
  nth (Z.to_nat ((historyIndex h - 1) mod 90)) (cpuHistory h) zero = v.
Proof.
  intros vs v h.
  pose proof (pushes_inv vs) as Hinv.
  pose proof (History_inv_index _ _ Hinv) as Hr.
  destruct Hinv as (Hlen & _).
  unfold h. rewrite pushes_snoc.
  set (h0 := pushes vs History_init) in *.
  destruct (store_nth_error (cpuHistory h0) (historyIndex h0) v) as [Hw _]; [lia|].
  unfold Push; cbn [historyIndex cpuHistory].
  rewrite Z.rem_mod_nonneg by lia.
  replace ((((historyIndex h0 + 1) mod 90) - 1) mod 90) with (historyIndex h0).
  - apply nth_error_nth. exact Hw.
  - destruct (Z.eq_dec (historyIndex h0) 89) as [E|E].
    + rewrite E. reflexivity.
    + rewrite (Z.mod_small (historyIndex h0 + 1)) by lia.
      rewrite Z.mod_small by lia. lia.
Qed.

(** From 90 pushes on, the plot is the last 90 pushed values. *)
Lemma SnapshotOrdered_filled : forall vs,
  (90 <= length vs)%nat ->
  SnapshotOrdered (pushes vs History_init) = lastn 90 vs.
Proof.
  intros vs Hn.
  pose proof (pushes_inv vs) as Hinv.
  rewrite (SnapshotOrdered_rotation vs _ Hinv).
  destruct Hinv as (_ & _ & Hf & Hrot).
  replace (filled (pushes vs History_init)) with true
    by (rewrite Hf; symmetry; apply Nat.leb_le; exact Hn).
  rewrite Hrot. apply lastn_padded_full. exact Hn.
Qed.

(** Property X6.
    From program start, after any positive number of frames the history has
    received one sample per frame, and the slot written last holds the CPU
    load the monitor now reports; from 90 frames on that value is the last
    sample of the plot. *)
Theorem newest_sample_is_reported_cpu_load : forall svcs m g',
  svcs <> [] ->
  frames svcs (mkGui m History_init) = Some g' ->
  let h := history g' in
  historyIndex h = Z.of_nat (length svcs) mod 90 /\
  nth (Z.to_nat ((historyIndex h - 1) mod 90)) (cpuHistory h) zero
    = GetCpuLoad (m_perfMonitor g') /\
  ((90 <= length svcs)%nat ->
   forall d, last (SnapshotOrdered h) d = GetCpuLoad (m_perfMonitor g')).
Proof.
  intros svcs m g' Hne Hf h.
  destruct (frames_push_one_sample_each _ _ _ Hf) as (vs & Hlen & Hh & Hlast).
  cbn [history] in Hh. specialize (Hlast Hne).
  assert (Hvs : vs <> []) by (destruct vs, svcs; try discriminate; congruence).
  destruct (exists_last Hvs) as (vs' & v & ->).
  assert (Hv : v = GetCpuLoad (m_perfMonitor g'))
    by (rewrite <- (Hlast zero); symmetry; apply last_last).
  unfold h. rewrite Hh. split; [|split].
  - destruct (pushes_inv (vs' ++ [v])) as (_ & Hidx & _). rewrite Hidx, Hlen.
    reflexivity.
  - rewrite <- Hv. apply newest_slot_after_pushes.
  - intros Hn d. rewrite SnapshotOrdered_filled by lia.
    unfold lastn. rewrite last_skipn by (rewrite Hlen; lia).
    apply Hlast.
Qed.

Lemma newest_sample_is_reported_cpu_load_witness :
  exists g',
    frames [Scenario.busy_disk; Scenario.free_exceeds_total]
           (mkGui Scenario.connected History_init) = Some g' /\
    historyIndex (history g') = 2 /\
    nth (Z.to_nat ((historyIndex (history g') - 1) mod 90))
        (cpuHistory (history g')) zero
      = GetCpuLoad (m_perfMonitor g').
Proof.
  eexists. split; [reflexivity|].
  pose proof (newest_sample_is_reported_cpu_load
                [Scenario.busy_disk; Scenario.free_exceeds_total]
                Scenario.connected _ ltac:(discriminate) eq_refl) as H.
  cbv zeta in H. split; [exact (proj1 H) | exact (proj1 (proj2 H))].
Defined.

(** * [RenderShadow] *)

Import Shadow.

Lemma layer_alpha_floor : forall a i,
  0 <= a < 256 -> In i [0; 1; 2; 3] ->
  layer_alpha a i = Some (a * (4 - i) / 8).
Proof.
  intros a i Ha Hi.
  assert (T : layer_alpha_table_ok = true) by (vm_compute; reflexivity).
  unfold layer_alpha_table_ok in T. rewrite forallb_forall in T.
  assert (Hin : In a (map Z.of_nat (seq 0 256))).
  { rewrite <- (Z2Nat.id a) by lia. apply in_map, in_seq. lia. }
  specialize (T a Hin). rewrite forallb_forall in T. specialize (T i Hi).
  destruct (layer_alpha a i) as [v|]; [|discriminate].
  apply Z.eqb_eq in T. rewrite T. reflexivity.
Qed.

(** A colour assembled from 24 low bits and an alpha byte. *)
Lemma shadowColor_parts : forall color alpha,
  0 <= color -> 0 <= alpha < 256 ->
  Z.lor (Z.land color 16777215) (to_ImU32 (Z.shiftl alpha 24))
  = color mod 2 ^ 24 + alpha * 2 ^ 24.
Proof.
  intros color alpha Hc Ha.
  change 16777215 with (Z.ones 24). rewrite Z.land_ones by lia.
  unfold to_ImU32. rewrite Z.shiftl_mul_pow2 by lia.
  rewrite (Z.mod_small (alpha * 2 ^ 24)) by lia.
  rewrite <- Z.lxor_lor, <- Z.add_nocarry_lxor; try reflexivity.
  - rewrite <- Z.land_ones, <- Z.shiftl_mul_pow2 by lia.
    apply Z.bits_inj'. intros n Hn.
    rewrite Z.land_spec, Z.land_spec, Z.bits_0.
    destruct (Z.lt_ge_cases n 24) as [Hlt|Hge].
    + rewrite Z.shiftl_spec_low by lia. apply andb_false_r.
    + rewrite Z.ones_spec_high by lia. rewrite andb_false_r. reflexivity.
  - rewrite <- Z.land_ones, <- Z.shiftl_mul_pow2 by lia.
    apply Z.bits_inj'. intros n Hn.
    rewrite Z.land_spec, Z.land_spec, Z.bits_0.
    destruct (Z.lt_ge_cases n 24) as [Hlt|Hge].
    + rewrite Z.shiftl_spec_low by lia. apply andb_false_r.
    + rewrite Z.ones_spec_high by lia. rewrite andb_false_r. reflexivity.
Qed.

Lemma layer_color : forall pos size color thickness rounding i,
  0 <= color < 2 ^ 32 -> In i [0; 1; 2; 3] ->
  exists r,
    layer pos size color thickness rounding i = Some r /\
    col r = color mod 2 ^ 24 + (alpha_of color * (4 - i) / 8) * 2 ^ 24.
Proof.
  intros pos size color thickness rounding i Hc Hi.
  assert (Ha : 0 <= alpha_of color < 256).
  { unfold alpha_of. rewrite Z.shiftr_div_pow2 by lia. split.
    - apply Z.div_pos; lia.
    - apply Z.div_lt_upper_bound; lia. }
  assert (Hbyte : Z.land (Z.shiftr color 24) 255 = alpha_of color).
  { unfold alpha_of in *. change 255 with (Z.ones 8).
    rewrite Z.land_ones by lia. apply Z.mod_small. exact Ha. }
  pose proof (layer_alpha_floor (alpha_of color) i Ha Hi) as Hfl.
  unfold layer. rewrite Hbyte.
  unfold layer_alpha in Hfl. rewrite Hfl.
  eexists. split; [reflexivity|]. cbn [col].
  apply shadowColor_parts; [lia|].
  assert (0 <= 4 - i <= 4) by (cbn in Hi; lia).
  split.
  - apply Z.div_pos; nia.
  - apply Z.div_lt_upper_bound; nia.
Qed.

(** Property X7.
    For every 32-bit colour, [RenderShadow] draws exactly four rectangles
    (the float-to-integer conversion of the alpha is always defined), each in
    the red, green and blue of the colour it was given, and layer [i] with
    the alpha byte [a * (4 - i) / 8] rounded down, [a] being the alpha byte
    given: half of it for the innermost layer, an eighth for the outermost. *)
Theorem RenderShadow_keeps_rgb_and_fades_alpha :
  forall pos size color thickness rounding,
    0 <= color < 2 ^ 32 ->
    exists r0 r1 r2 r3,
      RenderShadow pos size color thickness rounding = Some [r0; r1; r2; r3] /\
      Forall (fun r => 0 <= col r < 2 ^ 32 /\
                       Z.land (col r) 16777215 = Z.land color 16777215)
             [r0; r1; r2; r3] /\
      map (fun r => alpha_of (col r)) [r0; r1; r2; r3]
        = map (fun i => alpha_of color * (4 - i) / 8) [0; 1; 2; 3].
Proof.
  intros pos size color thickness rounding Hc.
  assert (Ha : 0 <= alpha_of color < 256).
  { unfold alpha_of. rewrite Z.shiftr_div_pow2 by lia. split.
    - apply Z.div_pos; lia.
    - apply Z.div_lt_upper_bound; lia. }
  assert (Parts : forall i r,
            In i [0; 1; 2; 3] ->
            col r = color mod 2 ^ 24 + (alpha_of color * (4 - i) / 8) * 2 ^ 24 ->
            (0 <= col r < 2 ^ 32 /\
             Z.land (col r) 16777215 = Z.land color 16777215) /\
            alpha_of (col r) = alpha_of color * (4 - i) / 8).
  { intros i r Hi Hr.
    assert (Hi' : 0 <= 4 - i <= 4) by (cbn in Hi; lia).
    assert (Hv : 0 <= alpha_of color * (4 - i) / 8 < 256).
    { split; [apply Z.div_pos; nia | apply Z.div_lt_upper_bound; nia]. }
    pose proof (Z.mod_pos_bound color (2 ^ 24) ltac:(lia)) as Hm.
    set (v := alpha_of color * (4 - i) / 8) in *.
    split; [split|].
    - rewrite Hr. lia.
    - change 16777215 with (Z.ones 24). rewrite !Z.land_ones by lia.
      rewrite Hr, Z.mod_add by lia. apply Z.mod_mod. lia.
    - unfold alpha_of at 1. rewrite Z.shiftr_div_pow2 by lia.
      rewrite Hr, Z.div_add by lia. rewrite Z.div_small by lia. reflexivity. }
  destruct (layer_color pos size color thickness rounding 0 Hc) as (r0 & L0 & C0);
    [cbn; auto|].
  destruct (layer_color pos size color thickness rounding 1 Hc) as (r1 & L1 & C1);
    [cbn; auto|].
  destruct (layer_color pos size color thickness rounding 2 Hc) as (r2 & L2 & C2);
    [cbn; auto|].
  destruct (layer_color pos size color thickness rounding 3 Hc) as (r3 & L3 & C3);
    [cbn; auto 6|].
  exists r0, r1, r2, r3.
  destruct (Parts 0 r0) as [P0 A0]; [cbn; auto|exact C0|].
  destruct (Parts 1 r1) as [P1 A1]; [cbn; auto|exact C1|].
  destruct (Parts 2 r2) as [P2 A2]; [cbn; auto|exact C2|].
  destruct (Parts 3 r3) as [P3 A3]; [cbn; auto 6|exact C3|].
  split; [|split].
  - unfold RenderShadow. cbn [layers Z.ltb Z.compare Z.add Pos.compare
                              Pos.compare_cont Pos.add Pos.succ].
    rewrite L0, L1, L2, L3. reflexivity.
  - repeat (apply Forall_cons; [assumption|]). apply Forall_nil.
  - cbn [map]. rewrite A0, A1, A2, A3. reflexivity.
Qed.

Lemma RenderShadow_keeps_rgb_and_fades_alpha_witness :
  exists r0 r1 r2 r3,
    RenderShadow (mkVec2 (of_Z 1650) (of_Z 20)) (mkVec2 (of_Z 250) (of_Z 180))
                 IM_COL32_BLACK_100 (of_Z 10) (of_Z 4)
      = Some [r0; r1; r2; r3] /\
    Forall (fun r => 0 <= col r < 2 ^ 32 /\
                     Z.land (col r) 16777215 = Z.land IM_COL32_BLACK_100 16777215)
           [r0; r1; r2; r3] /\
    map (fun r => alpha_of (col r)) [r0; r1; r2; r3]
      = map (fun i => alpha_of IM_COL32_BLACK_100 * (4 - i) / 8) [0; 1; 2; 3].
Proof.
  apply (RenderShadow_keeps_rgb_and_fades_alpha
           (mkVec2 (of_Z 1650) (of_Z 20)) (mkVec2 (of_Z 250) (of_Z 180))
           IM_COL32_BLACK_100 (of_Z 10) (of_Z 4)).
  unfold IM_COL32_BLACK_100. lia.
Defined.

(** * The Direct3D renderer *)

(** Property X8.
    [Shutdown] releases each interface the renderer holds exactly once, in
    the order view, swap chain, context, device, and clears the four
    pointers; a second [Shutdown] makes no call at all. *)
Theorem D3D11Renderer_Shutdown_is_idempotent : forall r,
  fst (D3D11Renderer.Shutdown r) = D3D11Renderer.new /\
  snd (D3D11Renderer.Shutdown r)
    = map D3D11Renderer.Call_D3DRelease
          (filter D3D11Renderer.is_held (D3D11Renderer.held r)) /\
  D3D11Renderer.Shutdown (fst (D3D11Renderer.Shutdown r))
    = (D3D11Renderer.new, []).
Proof.
  intros [[d|] [c|] [s|] [v|]]; repeat split.
Qed.

Lemma more_refs_start : forall w,
  D3D11Renderer.more_refs w w (fun _ => 0%nat).
Proof. intros w. split; [reflexivity|]. intros b. lia. Qed.

Lemma more_refs_add : forall w0 w f p,
  D3D11Renderer.more_refs w0 w f ->
  D3D11Renderer.more_refs w0 (add_ref p w)
    (fun b => (f b + D3D11Renderer.one_ref p b)%nat).
Proof.
  intros w0 w f [a|] (H2 & H4); unfold D3D11Renderer.more_refs;
    cbn [add_ref bad_releases refcount D3D11Renderer.one_ref].
  - split; [assumption|]. intros b. rewrite H4.
    destruct (Nat.eqb b a); lia.
  - split; [assumption|]. intros b. rewrite H4. lia.
Qed.

Lemma more_refs_release : forall w0 w f a,
  D3D11Renderer.more_refs w0 w f ->
  (1 <= f a)%nat ->
  D3D11Renderer.more_refs w0 (release (Some a) w)
    (fun b => (f b - D3D11Renderer.one_ref (Some a) b)%nat).
Proof.
  intros w0 w f a (H2 & H4) Hf.
  unfold D3D11Renderer.more_refs, release.
  destruct (refcount w a) as [|n] eqn:E; [rewrite H4 in E; lia|].
  cbn [bad_releases refcount D3D11Renderer.one_ref].
  split; [assumption|]. intros b.
  destruct (Nat.eqb b a) eqn:Eb.
  - apply Nat.eqb_eq in Eb. subst b. rewrite E. rewrite H4 in E. cbn. lia.
  - rewrite H4. lia.
Qed.

(** [CoInitializeEx] and [CoUninitialize] touch no reference count. *)
Lemma more_refs_initialized : forall w0 w f,
  D3D11Renderer.more_refs w0 w f ->
  D3D11Renderer.more_refs w0
    (mkCom (S (apartment w)) (refcount w) (bad_releases w)
           (unbalanced_uninits w)) f.
Proof. intros w0 w f H. exact H. Qed.

Lemma more_refs_uninitialize : forall w0 w f,
  D3D11Renderer.more_refs w0 w f ->
  D3D11Renderer.more_refs w0 (com_step w Call_CoUninitialize) f.
Proof.
  intros w0 w f H. unfold com_step. destruct (apartment w); exact H.
Qed.

(** The reference counting calls leave the initialisation count alone. *)
Lemma apartment_add_ref : forall p w, apartment (add_ref p w) = apartment w.
Proof. intros [a|] w; reflexivity. Qed.

Lemma apartment_release : forall p w, apartment (release p w) = apartment w.
Proof.
  intros [a|] w; [|reflexivity]. unfold release.
  destruct (refcount w a); reflexivity.
Qed.

Lemma unbalanced_add_ref : forall p w,
  unbalanced_uninits (add_ref p w) = unbalanced_uninits w.
Proof. intros [a|] w; reflexivity. Qed.

Lemma unbalanced_release : forall p w,
  unbalanced_uninits (release p w) = unbalanced_uninits w.
Proof.
  intros [a|] w; [|reflexivity]. unfold release.
  destruct (refcount w a); reflexivity.
Qed.

Lemma apartment_uninitialize : forall w,
  apartment (com_step w Call_CoUninitialize) = pred (apartment w).
Proof. intros w. unfold com_step. destruct (apartment w); reflexivity. Qed.

Lemma unbalanced_uninitialize : forall w,
  unbalanced_uninits (com_step w Call_CoUninitialize)
  = (unbalanced_uninits w + (if Nat.eqb (apartment w) 0 then 1 else 0))%nat.
Proof. intros w. unfold com_step. destruct (apartment w); cbn; lia. Qed.

Lemma more_refs_none : forall w0 w f,
  D3D11Renderer.more_refs w0 w f ->
  (forall b, f b = 0%nat) ->
  apartment w = apartment w0 ->
  unbalanced_uninits w = unbalanced_uninits w0 ->
  com_same w0 w.
Proof.
  intros w0 w f (H2 & H4) Hf Ha Hu. unfold com_same.
  repeat split; try assumption. intros b. rewrite H4, Hf. lia.
Qed.

Lemma more_refs_after_uninitialize : forall w,
  D3D11Renderer.more_refs (com_step w Call_CoUninitialize) w (fun _ => 0%nat).
Proof.
  intros w. unfold D3D11Renderer.more_refs, com_step.
  destruct (apartment w); split; try reflexivity; intros b; cbn; lia.
Qed.

Ltac refs_arith :=
  cbn beta; unfold D3D11Renderer.one_ref; rewrite ?Nat.eqb_refl;
  repeat match goal with
         | |- context [Nat.eqb ?a ?b] => destruct (Nat.eqb a b)
         end;
  lia.

Ltac build_refs :=
  lazymatch goal with
  | |- D3D11Renderer.more_refs _ (release (Some _) _) _ =>
      eapply more_refs_release; [build_refs | refs_arith]
  | |- D3D11Renderer.more_refs _ (add_ref _ _) _ =>
      eapply more_refs_add; build_refs
  | |- D3D11Renderer.more_refs _ (com_step _ Call_CoUninitialize) _ =>
      eapply more_refs_uninitialize; build_refs
  | |- D3D11Renderer.more_refs _ (mkCom (S (apartment _)) _ _ _) _ =>
      eapply more_refs_initialized; build_refs
  | |- D3D11Renderer.more_refs (com_step ?w Call_CoUninitialize) ?w _ =>
      apply more_refs_after_uninitialize
  | |- D3D11Renderer.more_refs _ _ _ => apply more_refs_start
  end.

Ltac same_apartment :=
  rewrite ?apartment_release, ?apartment_add_ref, ?unbalanced_release,
    ?unbalanced_add_ref; reflexivity.

(** The references of a renderer from [Initialize] to the second
    [Shutdown]. *)
Lemma Renderer_Initialize_Shutdown_events : forall env w,
  let i := D3D11Renderer.Initialize env D3D11Renderer.new in
  let s1 := D3D11Renderer.Shutdown (snd (fst i)) in
  let s2 := D3D11Renderer.Shutdown (fst s1) in
  (fst (fst i) = negb (FAILED (fst (D3D11Renderer.D3D11CreateDeviceAndSwapChain env)))) /\
  com_same w (D3D11Renderer.d3d_run (snd i ++ snd s1 ++ snd s2) w) /\
  fst s1 = D3D11Renderer.new /\
  snd s2 = [].
Proof.
  intros [[res [[sc dev] ctx]] buf view] w.
  unfold D3D11Renderer.Initialize, D3D11Renderer.created,
    D3D11Renderer.CreateRenderTarget, D3D11Renderer.d3d_run.
  cbn [D3D11Renderer.D3D11CreateDeviceAndSwapChain D3D11Renderer.GetBuffer
       D3D11Renderer.CreateRenderTargetView fst snd].
  destruct (FAILED res) eqn:E.
  - cbn. repeat split.
  - destruct buf as [b|]; [destruct view as [v|]|];
      cbn [fst snd negb D3D11Renderer.Shutdown D3D11Renderer.CleanupRenderTarget
           D3D11Renderer.m_pD3dDevice D3D11Renderer.m_pD3dDeviceContext
           D3D11Renderer.m_pSwapChain D3D11Renderer.m_mainRenderTargetView
           D3D11Renderer.new nullptr app fold_left D3D11Renderer.d3d_step];
      (split; [reflexivity|]); (split; [|split; reflexivity]).
    + eapply more_refs_none;
        [build_refs | intros x; refs_arith | same_apartment..].
    + change (add_ref None ?w) with w.
      eapply more_refs_none;
        [build_refs | intros x; refs_arith | same_apartment..].
    + eapply more_refs_none;
        [build_refs | intros x; refs_arith | same_apartment..].
Qed.

(** Property X9.
    Whatever Direct3D answers, a renderer that was initialised and shut down
    has released every reference its [Initialize] acquired (swap chain,
    device, context, back buffer, view) exactly once and none it did not
    hold; the [Shutdown] that the destructor adds makes no further call. *)
Theorem D3D11Renderer_Initialize_Shutdown_balanced : forall env w,
  let i := D3D11Renderer.Initialize env D3D11Renderer.new in
  let s1 := D3D11Renderer.Shutdown (snd (fst i)) in
  let s2 := D3D11Renderer.Shutdown (fst s1) in
  (fst (fst i) = negb (FAILED (fst (D3D11Renderer.D3D11CreateDeviceAndSwapChain env)))) /\
  com_same w (D3D11Renderer.d3d_run (snd i ++ snd s1 ++ snd s2) w) /\
  fst s1 = D3D11Renderer.new /\
  snd s2 = [].
Proof. exact Renderer_Initialize_Shutdown_events. Qed.

(** * The life of a [Gui] object *)

Lemma frames_pointers : forall svcs g g',
  Session.frames svcs g = Some g' ->
  m_pLocator (m_perfMonitor g') = m_pLocator (m_perfMonitor g) /\
  m_pServices (m_perfMonitor g') = m_pServices (m_perfMonitor g).
Proof.
  induction svcs as [|svc svcs IH]; intros g g' Hf; cbn [Session.frames] in Hf.
  - injection Hf as <-. split; reflexivity.
  - destruct (Render svc g) as [g1|] eqn:HR; [|discriminate].
    destruct (IH _ _ Hf) as [H1 H2].
    unfold Render, Render_Update in HR.
    destruct (Update svc (m_perfMonitor g)) as [m1|] eqn:HU; [|discriminate].
    injection HR as <-. cbn [m_perfMonitor RenderPerformanceWindow] in H1, H2.
    destruct (Update_pointers _ _ _ HU) as [H3 H4].
    split; congruence.
Qed.

Lemma run_events_app : forall t1 t2 w,
  GuiLife.run_events (t1 ++ t2) w
  = GuiLife.run_events t2 (GuiLife.run_events t1 w).
Proof. intros. unfold GuiLife.run_events. apply fold_left_app. Qed.

Lemma run_events_OfCom : forall t w,
  GuiLife.run_events (map GuiLife.OfCom t) w = com_run t w.
Proof.
  induction t as [|c t IH]; intros w; [reflexivity|].
  cbn [map]. unfold GuiLife.run_events, com_run in *. cbn [fold_left].
  apply IH.
Qed.

Lemma com_step_release : forall w p,
  com_step w (Call_Release p) = release p w.
Proof. reflexivity. Qed.

Ltac count_apartment :=
  repeat rewrite ?apartment_uninitialize, ?unbalanced_uninitialize,
    ?apartment_release, ?apartment_add_ref, ?unbalanced_release,
    ?unbalanced_add_ref;
  cbn [apartment unbalanced_uninits pred Nat.eqb Nat.add];
  try reflexivity; try lia.

(** The events of a [Gui] from [Initialize] to the end of its
    destruction. *)
Lemma Gui_lifetime_events :
  forall env pDevice pDeviceContext pSwapChain h context s1 tr svcs g' w,
    GuiLife.Initialize env
      (GuiLife.construct pDevice pDeviceContext pSwapChain h context)
      = Some (true, s1, tr) ->
    Session.frames svcs (GuiLife.core s1) = Some g' ->
    let d := GuiLife.destroy (GuiLife.with_core g' s1) in
    com_same (com_step w Call_CoUninitialize)
             (GuiLife.run_events (tr ++ snd d) w) /\
    GuiLife.com_calls_of (snd d)
      = [Call_Release (Some (snd (ConnectServer (GuiLife.com env))));
         Call_Release (Some (snd (CoCreateInstance (GuiLife.com env))));
         Call_CoUninitialize; Call_CoUninitialize] /\
    m_pLocator (m_perfMonitor (GuiLife.core (fst d))) = nullptr /\
    m_pServices (m_perfMonitor (GuiLife.core (fst d))) = nullptr /\
    GuiLife.m_mainRenderTargetView (fst d) = nullptr.
Proof.
  intros [w32 dx comenv buf view] pDevice pDeviceContext pSwapChain h context
         s1 tr svcs g' w.
  unfold GuiLife.Initialize, GuiLife.construct.
  cbn [GuiLife.ImplWin32_Init GuiLife.ImplDX11_Init GuiLife.com
       GuiLife.GetBuffer GuiLife.CreateRenderTargetView GuiLife.with_context
       GuiLife.core GuiLife.m_pDevice GuiLife.m_pDeviceContext
       GuiLife.m_pSwapChain GuiLife.m_mainRenderTargetView
       GuiLife.imgui_context m_perfMonitor].
  destruct w32; [|intros H; discriminate H].
  destruct dx; [|intros H; discriminate H].
  cbn [negb].
  pose proof (Initialize_success comenv PerformanceMonitor.new w) as Hinit.
  destruct (PerformanceMonitor.Initialize comenv PerformanceMonitor.new)
    as [[ok m] cc].
  cbn [fst snd] in Hinit |- *.
  destruct ok; [|intros H; discriminate H].
  destruct (Hinit eq_refl) as [Hm Hw]. clear Hinit.
  cbn [negb GuiLife.with_monitor GuiLife.with_core GuiLife.m_pSwapChain
       GuiLife.m_pDevice GuiLife.core].
  destruct pSwapChain as [sc|]; [|intros H; discriminate H].
  destruct pDevice as [dev|]; [|intros H; discriminate H].
  destruct buf as [bb|]; [|intros H; discriminate H].
  intros Hi Hframes. injection Hi as <- <-.
  cbn [GuiLife.with_monitor GuiLife.with_core GuiLife.with_view GuiLife.core
       GuiLife.m_pDevice GuiLife.m_pDeviceContext GuiLife.m_pSwapChain
       GuiLife.m_mainRenderTargetView GuiLife.imgui_context history] in *.
  destruct (frames_pointers _ _ _ Hframes) as [Hl Hs].
  cbn [m_perfMonitor] in Hl, Hs. rewrite Hm in Hl, Hs.
  cbn [m_pLocator m_pServices] in Hl, Hs.
  destruct g' as [[l s c1 c2 c3] h']. cbn [m_perfMonitor m_pLocator m_pServices] in Hl, Hs.
  subst l s.
  set (a := snd (CoCreateInstance comenv)) in *.
  set (b := snd (ConnectServer comenv)) in *.
  split.
  - unfold GuiLife.run_events. cbn [app fold_left GuiLife.event_step].
    change (fold_left GuiLife.event_step ?t ?x) with (GuiLife.run_events t x).
    rewrite !run_events_app, run_events_OfCom, Hw.
    unfold after_connect.
    destruct view as [v|];
      cbn [GuiLife.destroy GuiLife.Shutdown GuiLife.with_monitor
           GuiLife.with_core GuiLife.with_view GuiLife.with_context
           GuiLife.core GuiLife.m_pDevice GuiLife.m_pDeviceContext
           GuiLife.m_pSwapChain GuiLife.m_mainRenderTargetView
           GuiLife.imgui_context m_perfMonitor history
           PerformanceMonitor.Shutdown m_pLocator m_pServices set_pLocator
           set_pServices nullptr fst snd app map GuiLife.run_events fold_left
           GuiLife.event_step D3D11Renderer.d3d_step].
    + rewrite !com_step_release.
      eapply more_refs_none.
      * build_refs.
      * intros x; refs_arith.
      * count_apartment.
      * count_apartment.
    + rewrite !com_step_release.
      change (add_ref None ?x) with x.
      eapply more_refs_none.
      * build_refs.
      * intros x; refs_arith.
      * count_apartment.
      * count_apartment.
  - destruct view as [v|]; repeat split.
Qed.

(** Property X10.
    A [Gui] that was initialised with success, rendered any number of
    frames and was then destroyed has released the locator, the service, the
    back buffer and its render target view exactly once each, and has called
    [CoUninitialize] twice for its one [CoInitializeEx]: once from
    [Gui::Shutdown], once more from the destructor of the monitor.  The net
    effect on COM is that of a single [CoUninitialize]. *)
Theorem Gui_lifetime_uninitializes_COM_twice :
  forall env pDevice pDeviceContext pSwapChain h context s1 tr svcs g' w,
    GuiLife.Initialize env
      (GuiLife.construct pDevice pDeviceContext pSwapChain h context)
      = Some (true, s1, tr) ->
    Session.frames svcs (GuiLife.core s1) = Some g' ->
    let d := GuiLife.destroy (GuiLife.with_core g' s1) in
    com_same (com_step w Call_CoUninitialize)
             (GuiLife.run_events (tr ++ snd d) w) /\
    GuiLife.com_calls_of (snd d)
      = [Call_Release (Some (snd (ConnectServer (GuiLife.com env))));
         Call_Release (Some (snd (CoCreateInstance (GuiLife.com env))));
         Call_CoUninitialize; Call_CoUninitialize] /\
    m_pLocator (m_perfMonitor (GuiLife.core (fst d))) = nullptr /\
    m_pServices (m_perfMonitor (GuiLife.core (fst d))) = nullptr /\
    GuiLife.m_mainRenderTargetView (fst d) = nullptr.
Proof. exact Gui_lifetime_events. Qed.

Lemma Gui_lifetime_uninitializes_COM_twice_witness :
  exists s1 tr g',
    GuiLife.Initialize GuiLife.gui_ok
      (GuiLife.construct (Some 11%nat) (Some 12%nat) (Some 13%nat)
         History_init false) = Some (true, s1, tr) /\
    Session.frames [Scenario.busy_disk] (GuiLife.core s1) = Some g' /\
    com_same (com_step ComState_init Call_CoUninitialize)
      (GuiLife.run_events
         (tr ++ snd (GuiLife.destroy (GuiLife.with_core g' s1)))
         ComState_init).
Proof.
  eexists. eexists. eexists.
  split; [reflexivity|]. split; [reflexivity|].
  exact (proj1 (Gui_lifetime_uninitializes_COM_twice
                  GuiLife.gui_ok (Some 11%nat) (Some 12%nat) (Some 13%nat)
                  History_init false _ _ [Scenario.busy_disk] _ ComState_init
                  eq_refl eq_refl)).
Defined.

(** A [Gui::Initialize] whose steps succeed, on a [Gui] built on a swap
    chain and a device, returns [true] when [GetBuffer] stores a buffer. *)
Lemma Gui_Initialize_succeeds : forall env d c sc h ctx,
  GuiLife.ImplWin32_Init env = true ->
  GuiLife.ImplDX11_Init env = true ->
  fst (fst (PerformanceMonitor.Initialize (GuiLife.com env)
              PerformanceMonitor.new)) = true ->
  GuiLife.GetBuffer env <> nullptr ->
  exists s1 tr,
    GuiLife.Initialize env (GuiLife.construct (Some d) c (Some sc) h ctx)
    = Some (true, s1, tr).
Proof.
  intros env d c sc h ctx H1 H2 H3 H4. unfold GuiLife.Initialize.
  rewrite H1, H2. cbn [negb GuiLife.construct GuiLife.with_context GuiLife.core
                       m_perfMonitor].
  destruct (PerformanceMonitor.Initialize (GuiLife.com env) PerformanceMonitor.new)
    as [[ok m] cc].
  cbn [fst snd] in H3. subst ok.
  cbn [negb GuiLife.with_monitor GuiLife.with_core GuiLife.m_pSwapChain
       GuiLife.m_pDevice].
  destruct (GuiLife.GetBuffer env); [|contradiction H4; reflexivity].
  eexists. eexists. reflexivity.
Qed.

(** A renderer whose [Initialize] succeeded holds a device, a context and
    a swap chain. *)
Lemma Renderer_Initialize_pointers : forall env,
  FAILED (fst (D3D11Renderer.D3D11CreateDeviceAndSwapChain env)) = false ->
  exists dev ctx sc,
    D3D11Renderer.GetD3DDevice
      (snd (fst (D3D11Renderer.Initialize env D3D11Renderer.new))) = Some dev /\
    D3D11Renderer.GetD3DDeviceContext
      (snd (fst (D3D11Renderer.Initialize env D3D11Renderer.new))) = Some ctx /\
    D3D11Renderer.GetSwapChain
      (snd (fst (D3D11Renderer.Initialize env D3D11Renderer.new))) = Some sc.
Proof.
  intros [[res [[sc dev] ctx]] buf view] H.
  cbn [D3D11Renderer.D3D11CreateDeviceAndSwapChain fst] in H.
  exists dev, ctx, sc.
  unfold D3D11Renderer.Initialize, D3D11Renderer.created,
    D3D11Renderer.CreateRenderTarget.
  cbn [D3D11Renderer.D3D11CreateDeviceAndSwapChain D3D11Renderer.GetBuffer
       D3D11Renderer.CreateRenderTargetView].
  rewrite H. destruct buf; repeat split.
Qed.

(** Property X11.
    [Gui::Initialize] does not test the back buffer it asks the swap chain
    for.  On a [Gui] built on a swap chain and a device, when everything
    before the render target succeeds, it returns [true] if [GetBuffer]
    stores a buffer, and if [GetBuffer] stores none it goes on to call
    [Release] through the null pointer: it has no defined result, neither
    [true] nor [false].  [D3D11Renderer::CreateRenderTarget] tests the
    pointer and in the same situation, on a renderer that holds a swap
    chain, returns after [GetBuffer] without a further call and without
    touching the renderer.  For the program this means: once the window and
    the device exist, a swap chain without a back buffer lets the renderer
    initialise, and [WinMain] then runs into the undefined call instead of
    taking its failure path and returning 1. *)
Theorem Gui_Initialize_does_not_check_back_buffer :
  forall env d c sc h ctx r,
    GuiLife.ImplWin32_Init (Main.gui_env env) = true ->
    GuiLife.ImplDX11_Init (Main.gui_env env) = true ->
    fst (fst (PerformanceMonitor.Initialize (GuiLife.com (Main.gui_env env))
                PerformanceMonitor.new)) = true ->
    (GuiLife.Initialize (Main.gui_env env)
       (GuiLife.construct (Some d) c (Some sc) h ctx) = None
     <-> GuiLife.GetBuffer (Main.gui_env env) = nullptr) /\
    (GuiLife.GetBuffer (Main.gui_env env) <> nullptr ->
     exists s1 tr,
       GuiLife.Initialize (Main.gui_env env)
         (GuiLife.construct (Some d) c (Some sc) h ctx)
       = Some (true, s1, tr)) /\
    (D3D11Renderer.GetBuffer (Main.renderer_env env) = nullptr ->
     D3D11Renderer.m_pSwapChain r <> nullptr ->
     D3D11Renderer.CreateRenderTarget (Main.renderer_env env) r
     = (r, [D3D11Renderer.Call_GetBuffer (D3D11Renderer.m_pSwapChain r)
              nullptr])) /\
    (GuiLife.GetBuffer (Main.gui_env env) = nullptr ->
     Main.CreateWindowEx env <> nullptr ->
     FAILED (fst (D3D11Renderer.D3D11CreateDeviceAndSwapChain
                    (Main.renderer_env env))) = false ->
     fst (fst (D3D11Renderer.Initialize (Main.renderer_env env)
                 D3D11Renderer.new)) = true /\
     Main.WinMain env = Main.Undefined).
Proof.
  intros [hwnd denv genv ticks] d c sc h ctx r H1 H2 H3.
  cbn [Main.CreateWindowEx Main.renderer_env Main.gui_env Main.iterations] in *.
  assert (Null : forall d c sc h ctx,
            GuiLife.GetBuffer genv = nullptr ->
            GuiLife.Initialize genv
              (GuiLife.construct (Some d) c (Some sc) h ctx) = None).
  { intros d0 c0 sc0 h0 ctx0 Hb. unfold GuiLife.Initialize.
    rewrite H1, H2.
    cbn [negb GuiLife.construct GuiLife.with_context GuiLife.core
         m_perfMonitor].
    destruct (PerformanceMonitor.Initialize (GuiLife.com genv)
                PerformanceMonitor.new) as [[ok m] cc].
    cbn [fst snd] in H3. subst ok.
    cbn [negb GuiLife.with_monitor GuiLife.with_core GuiLife.m_pSwapChain
         GuiLife.m_pDevice].
    rewrite Hb. reflexivity. }
  split; [|split; [|split]].
  - split; [|apply Null].
    intros HN. destruct (GuiLife.GetBuffer genv) as [bb|] eqn:Hb;
      [|reflexivity].
    destruct (Gui_Initialize_succeeds genv d c sc h ctx H1 H2 H3)
      as (s1 & tr & HS); [rewrite Hb; discriminate|].
    rewrite HS in HN. discriminate HN.
  - apply Gui_Initialize_succeeds; assumption.
  - intros Hd _. unfold D3D11Renderer.CreateRenderTarget. rewrite Hd.
    reflexivity.
  - intros Hb Hwnd Hd3d.
    destruct hwnd as [hw|]; [clear Hwnd | contradiction Hwnd; reflexivity].
    unfold Main.WinMain.
    cbn [Main.CreateWindowEx Main.renderer_env Main.gui_env Main.iterations].
    pose proof (Renderer_Initialize_Shutdown_events denv ComState_init) as HR.
    cbv zeta in HR. destruct HR as (Rok & _).
    rewrite Hd3d in Rok. cbn [negb] in Rok.
    destruct (Renderer_Initialize_pointers denv Hd3d)
      as (dev & ctx' & sc' & Pdev & Pctx & Psc).
    destruct (D3D11Renderer.Initialize denv D3D11Renderer.new)
      as [[rok renderer] rcalls].
    cbn [fst snd] in *. subst rok. cbn [negb].
    rewrite Pdev, Pctx, Psc, (Null _ _ _ _ _ Hb). split; reflexivity.
Qed.

Lemma Gui_Initialize_does_not_check_back_buffer_witness :
  GuiLife.Initialize GuiLife.gui_no_back_buffer
    (GuiLife.construct (Some 11%nat) (Some 12%nat) (Some 13%nat)
       History_init false) = None /\
  fst (fst (D3D11Renderer.Initialize D3D11Renderer.d3d_no_back_buffer
              D3D11Renderer.new)) = true /\
  Main.WinMain Main.session_no_back_buffer = Main.Undefined.
Proof.
  destruct (Gui_Initialize_does_not_check_back_buffer
              Main.session_no_back_buffer 11%nat (Some 12%nat) 13%nat
              History_init false D3D11Renderer.new
              eq_refl eq_refl eq_refl) as (HN & _ & _ & HW).
  split; [apply HN; reflexivity|].
  apply HW; [reflexivity | discriminate | reflexivity].
Defined.

(** * The message loop and the window procedure *)

Lemma message_loop_quit : forall ticks st,
  Main.message (Main.msg st) = Main.WM_QUIT ->
  Main.message_loop ticks st = Some st.
Proof.
  intros ticks st H. destruct ticks as [|[m|svc] rest];
    cbn [Main.message_loop]; rewrite H; reflexivity.
Qed.

Lemma last_cons_default : forall (A : Type) (l : list A) (a d : A),
  last (a :: l) d = last l a.
Proof.
  intros A l. induction l as [|b l IH]; intros a d; [reflexivity|].
  change (last (a :: b :: l) d) with (last (b :: l) d).
  rewrite (IH b d), (IH b a). reflexivity.
Qed.

Lemma message_loop_from : forall ticks st,
  Main.message (Main.msg st) <> Main.WM_QUIT ->
  Main.message_loop ticks st =
  match Session.frames (Main.idle_answers (Main.until_quit ticks)) (Main.gui st) with
  | Some g' =>
      Some (Main.mkLoop g'
              (Main.dispatched st
               ++ Main.pending_messages (Main.until_quit ticks))
              (last (Main.pending_messages (Main.until_quit ticks))
                    (Main.msg st)))
  | None => None
  end.
Proof.
  induction ticks as [|[m|svc] rest IH]; intros [g d m0] Hq;
    cbn [Main.gui Main.dispatched Main.msg] in *.
  - cbn. rewrite app_nil_r. destruct (Main.message m0 =? Main.WM_QUIT); reflexivity.
  - cbn [Main.message_loop Main.gui Main.dispatched Main.msg Main.until_quit].
    apply Z.eqb_neq in Hq. rewrite Hq.
    destruct (Main.message m =? Main.WM_QUIT) eqn:Em.
    + apply Z.eqb_eq in Em.
      rewrite message_loop_quit by exact Em. reflexivity.
    + apply Z.eqb_neq in Em. rewrite IH by exact Em.
      cbn [Main.gui Main.dispatched Main.msg Main.idle_answers
           Main.pending_messages flat_map app].
      fold (Main.idle_answers (Main.until_quit rest)).
      fold (Main.pending_messages (Main.until_quit rest)).
      destruct (Session.frames _ g) as [g'|]; [|reflexivity].
      rewrite <- app_assoc, last_cons_default. reflexivity.
  - cbn [Main.message_loop Main.gui Main.dispatched Main.msg Main.until_quit
         Main.idle_answers Main.pending_messages flat_map app Session.frames].
    fold (Main.idle_answers (Main.until_quit rest)).
    fold (Main.pending_messages (Main.until_quit rest)).
    apply Z.eqb_neq in Hq. rewrite Hq.
    destruct (Render svc g) as [g1|]; [|reflexivity].
    rewrite IH by (apply Z.eqb_neq; exact Hq). reflexivity.
Qed.

(** Property X12.
    The loop of [WinMain] renders exactly one frame for each iteration that
    finds no message and none for an iteration that finds one; it dispatches
    every message it finds, the [WM_QUIT] that ends it included, and does
    nothing after that message.  The history therefore receives one sample
    per idle iteration before the quit message. *)
Theorem message_loop_renders_once_per_idle_iteration : forall ticks g,
  let run := Main.until_quit ticks in
  Main.message_loop ticks (Main.enter_loop g) =
  match Session.frames (Main.idle_answers run) g with
  | Some g' =>
      Some (Main.mkLoop g' (Main.pending_messages run)
              (last (Main.pending_messages run) (Main.mkMSG Main.WM_NULL 0 0)))
  | None => None
  end /\
  forall st,
    Main.message_loop ticks (Main.enter_loop g) = Some st ->
    exists vs,
      length vs = length (Main.idle_answers run) /\
      history (Main.gui st) = pushes vs (history g).
Proof.
  intros ticks g run.
  assert (E := message_loop_from ticks (Main.enter_loop g)).
  cbn [Main.enter_loop Main.gui Main.dispatched Main.msg Main.message app] in E.
  specialize (E ltac:(discriminate)). fold run in E.
  split; [exact E|].
  intros st Hst. rewrite E in Hst.
  destruct (Session.frames (Main.idle_answers run) g) as [g'|] eqn:Hf;
    [|discriminate].
  injection Hst as <-. cbn [Main.gui].
  destruct (frames_push_one_sample_each _ _ _ Hf) as (vs & Hlen & Hh & _).
  exists vs. split; assumption.
Qed.

(** Property X13.
    [WndProc] asks for the window to be destroyed exactly for a [WM_COMMAND]
    whose low word is [IDM_EXIT], whatever its high word; it removes the tray
    icon and posts the quit message, with exit code 0, exactly for
    [WM_DESTROY]; it shows the menu exactly for the tray message with
    [WM_RBUTTONUP]; all of this only for a message the ImGui handler did not
    consume, for which it otherwise returns 1 and does nothing, [WM_DESTROY]
    included. *)
Theorem WndProc_actions : forall imgui def msg wParam lParam,
  let acts := snd (Main.WndProc imgui def msg wParam lParam) in
  (In Main.DoDestroyWindow acts <->
   imgui = 0 /\ msg = Main.WM_COMMAND /\ wParam mod 2 ^ 16 = Main.IDM_EXIT) /\
  (forall code, In (Main.DoPostQuitMessage code) acts <->
   imgui = 0 /\ msg = Main.WM_DESTROY /\ code = 0) /\
  (In Main.DoRemoveTrayIcon acts <-> imgui = 0 /\ msg = Main.WM_DESTROY) /\
  (In Main.DoShowContextMenu acts <->
   imgui = 0 /\ msg = Main.WM_APP_TRY_MSG /\ lParam = Main.WM_RBUTTONUP) /\
  (imgui <> 0 -> Main.WndProc imgui def msg wParam lParam = (1, [])).
Proof.
  intros imgui def msg wParam lParam.
  assert (HL : Main.LOWORD wParam = wParam mod 2 ^ 16).
  { unfold Main.LOWORD. change 65535 with (Z.ones 16). apply Z.land_ones. lia. }
  unfold Main.WndProc. rewrite HL.
  unfold Main.WM_APP_TRY_MSG, Main.WM_APP, Main.WM_COMMAND, Main.WM_DESTROY,
    Main.WM_RBUTTONUP, Main.IDM_EXIT.
  destruct (Z.eqb_spec imgui 0) as [Hi|Hi]; cbn [negb snd].
  - destruct (Z.eqb_spec msg (32768 + 1)) as [H1|H1];
      [destruct (Z.eqb_spec lParam 517) as [HR|HR]
      |destruct (Z.eqb_spec msg 273) as [H2|H2];
       [destruct (Z.eqb_spec (wParam mod 2 ^ 16) 1001) as [HE|HE]
       |destruct (Z.eqb_spec msg 2) as [H3|H3]]];
      cbn [snd In];
      (split; [|split; [intros code|split; [|split]]]);
      intuition (try congruence; try lia).
  - cbn [In]. intuition (try congruence; try lia).
Qed.



(** ** The tray icon *)

Lemma pointer_eqb_refl : forall p, Main.pointer_eqb p p = true.
Proof. intros [a|]; [apply Nat.eqb_refl | reflexivity]. Qed.

Lemma filter_none : forall (A : Type) (f : A -> bool) (l : list A),
  existsb f l = false -> filter (fun x => negb (f x)) l = l.
Proof.
  intros A f l. induction l as [|a l IH]; [reflexivity|].
  cbn [existsb filter]. intros H. apply orb_false_iff in H. destruct H as [Ha Hl].
  rewrite Ha. cbn [negb]. rewrite IH by exact Hl. reflexivity.
Qed.

(** Property X15.
    [RemoveTrayIcon] names the icon [AddTrayIcon] added to the window: for
    a window that had no such icon, adding and then removing leaves the
    notification area as it was.  The icon declares a callback message, and
    it is the one [WndProc] answers: a right button release over the icon
    reaches [WndProc] as a message for which it shows the context menu (when
    ImGui does not consume it), while any other mouse event over the icon
    makes it do nothing. *)
Theorem tray_icon_round_trip : forall hWnd icon tray,
  existsb (Main.same_icon (snd (Main.AddTrayIcon hWnd icon))) tray = false ->
  Main.Shell_NotifyIcon
    (Main.Shell_NotifyIcon tray (Main.AddTrayIcon hWnd icon))
    (Main.RemoveTrayIcon hWnd) = tray /\
  forall mouse def,
    exists m,
      Main.notification (snd (Main.AddTrayIcon hWnd icon)) mouse = Some m /\
      Main.WndProc 0 def (Main.message m) (Main.wParam m) (Main.lParam m)
      = (0, if mouse =? Main.WM_RBUTTONUP then [Main.DoShowContextMenu] else []).
Proof.
  intros hWnd icon tray Hnew. split.
  - unfold Main.Shell_NotifyIcon, Main.AddTrayIcon, Main.RemoveTrayIcon in *.
    cbn [snd] in Hnew. cbn [Z.eqb Main.NIM_ADD Main.NIM_DELETE].
    rewrite Hnew.
    change (fun icon0 => negb (Main.same_icon ?r icon0))
      with (fun icon0 =>
              negb (Main.same_icon
                      {| Main.nid_hWnd := hWnd; Main.uID := Main.TRAY_ICON_ID;
                         Main.uFlags :=
                           Z.lor (Z.lor Main.NIF_MESSAGE Main.NIF_ICON)
                                 Main.NIF_TIP;
                         Main.uCallbackMessage := Main.WM_APP_TRY_MSG;
                         Main.hIcon := icon;
                         Main.szTip := "Performance Overlay" |} icon0)).
    rewrite filter_app, filter_none by exact Hnew.
    cbn [filter]. unfold Main.same_icon at 1.
    cbn [Main.nid_hWnd Main.uID]. rewrite pointer_eqb_refl, Z.eqb_refl.
    cbn [andb negb]. apply app_nil_r.
  - intros mouse def. eexists. split; [reflexivity|].
    cbn [Main.message Main.wParam Main.lParam Main.AddTrayIcon snd
         Main.uCallbackMessage Main.uID].
    unfold Main.WndProc. rewrite Z.eqb_refl. reflexivity.
Qed.

Lemma tray_icon_round_trip_witness :
  Main.Shell_NotifyIcon
    (Main.Shell_NotifyIcon [] (Main.AddTrayIcon (Some 10%nat) (Some 20%nat)))
    (Main.RemoveTrayIcon (Some 10%nat)) = [].
Proof.
  exact (proj1 (tray_icon_round_trip (Some 10%nat) (Some 20%nat) [] eq_refl)).
Defined.

(** * Refreshing twice *)

(** Property X17.
    A second [Update] that receives the same answers as the first changes
    nothing more: every value is either the conversion of the answer, the
    same both times, or was left alone both times. *)
Theorem Update_same_answers_idempotent : forall svc m m1,
  Update svc m = Some m1 -> Update svc m1 = Some m1.
Proof.
  intros svc [l [p|] c me d] m1;
    unfold Update, update_memory, update_cpu, update_disk;
    cbn [m_pServices]; [|intros [= <-]; reflexivity].
  destruct (GetWmiPropertyValue svc CPU_QUERY "PercentProcessorTime") as [cpu|];
    (destruct (ExecQuery svc MEMORY_QUERY) as [e|];
     [destruct (Next e) as [obj|];
      [destruct (wtol_bstrVal (Get obj "TotalVisibleMemorySize")) as [t|];
       [destruct (wtol_bstrVal (Get obj "FreePhysicalMemory")) as [f|];
        [destruct (0 <? t)|]|]|]|]);
    try discriminate;
    destruct (GetWmiPropertyValue svc DISK_QUERY "PercentDiskTime") as [disk|];
    intros [= <-]; reflexivity.
Qed.

Lemma Update_same_answers_idempotent_witness :
  exists m1,
    Update Scenario.busy_disk Scenario.connected = Some m1 /\
    Update Scenario.busy_disk m1 = Some m1.
Proof.
  eexists. split; [reflexivity|].
  exact (Update_same_answers_idempotent
           Scenario.busy_disk Scenario.connected _ eq_refl).
Defined.

(** * Readings a float holds exactly *)

Ltac stdlib_ops :=
  change IntDef.Z.add with Z.add in *;
  change IntDef.Z.sub with Z.sub in *;
  change IntDef.Z.max with Z.max in *;
  change IntDef.Z.opp with Z.opp in *;
  change IntDef.Z.leb with Z.leb in *.

Lemma digits2_pos_iter_xO : forall k p,
  digits2_pos (Pos.iter xO p k) = (digits2_pos p + k)%positive.
Proof.
  intros k p. induction k using Pos.peano_ind.
  - cbn. lia.
  - rewrite Pos.iter_succ. cbn [digits2_pos]. rewrite IHk. lia.
Qed.

Lemma iter_xO_value : forall q p, Zpos (Pos.iter xO p q) = Zpos p * 2 ^ Zpos q.
Proof.
  intros q p. induction q using Pos.peano_ind.
  - cbn. lia.
  - rewrite Pos.iter_succ, Pos2Z.inj_xO, IHq, Pos2Z.inj_succ, Z.pow_succ_r by lia.
    lia.
Qed.

(** A positive number has as many binary digits as [digits2_pos] says. *)
Lemma digits2_pos_bound : forall p,
  2 ^ (Zpos (digits2_pos p) - 1) <= Zpos p < 2 ^ Zpos (digits2_pos p).
Proof.
  assert (Step : forall d : positive, 2 ^ Zpos d = 2 * 2 ^ (Zpos d - 1)).
  { intros d. rewrite <- Z.pow_succ_r by lia. f_equal. lia. }
  induction p as [p IH|p IH|]; cbn [digits2_pos].
  - rewrite Pos2Z.inj_succ.
    replace (Z.succ (Zpos (digits2_pos p)) - 1) with (Zpos (digits2_pos p)) by lia.
    rewrite Z.pow_succ_r by lia. specialize (Step (digits2_pos p)). lia.
  - rewrite Pos2Z.inj_succ.
    replace (Z.succ (Zpos (digits2_pos p)) - 1) with (Zpos (digits2_pos p)) by lia.
    rewrite Z.pow_succ_r by lia. specialize (Step (digits2_pos p)). lia.
  - cbn. lia.
Qed.

Lemma fexp_small : forall d : Z, 1 <= d <= 24 -> fexp prec emax d = d - 24.
Proof.
  intros d Hd. unfold fexp, emin, prec, emax.
  change (Z.max (d - 24) (3 - 128 - 24) = d - 24). lia.
Qed.

(** The conversion of a positive integer below [2^24] shifts it into the 24
    bits of the mantissa and rounds nothing away. *)
Lemma of_Z_below_2_24 : forall p,
  Zpos p < 2 ^ 24 ->
  exists m e,
    of_Z (Zpos p) = S754_finite false m e /\
    e <= 0 /\ Zpos m = Zpos p * 2 ^ (- e).
Proof.
  intros p Hp.
  destruct (digits2_pos_bound p) as [Hd2 Hd1].
  remember (digits2_pos p) as d eqn:Ed.
  assert (Hd : Zpos d <= 24).
  { destruct (Z.le_gt_cases (Zpos d) 24) as [H|H]; [exact H|].
    assert (2 ^ 24 <= 2 ^ (Zpos d - 1)) by (apply Z.pow_le_mono_r; lia). lia. }
  unfold of_Z, binary_normalize, binary_round.
  rewrite <- Ed. stdlib_ops.
  replace (Zpos d + 0) with (Zpos d) by lia.
  rewrite fexp_small by lia. unfold shl_align.
  replace (Zpos d - 24 - 0) with (Zpos d - 24) by lia.
  destruct (Zpos d - 24) as [|q|q] eqn:Eq; [| lia |].
  - unfold binary_round_aux, shr_fexp. cbn [Zdigits2 shr_record_of_loc].
    rewrite <- Ed. stdlib_ops.
    replace (Zpos d + 0) with (Zpos d) by lia.
    rewrite fexp_small by lia. rewrite Eq.
    cbn [Z.sub Z.opp Z.add shr shr_m loc_of_shr_record round_nearest_even
         Zdigits2 shr_record_of_loc].
    rewrite <- Ed. stdlib_ops.
    replace (Zpos d + 0) with (Zpos d) by lia.
    rewrite fexp_small by lia. rewrite Eq.
    cbn. exists p, 0. split; [reflexivity|]. split; [lia|]. cbn. lia.
  - unfold binary_round_aux, shr_fexp. cbn [Zdigits2 shr_record_of_loc].
    rewrite digits2_pos_iter_xO. rewrite <- Ed. stdlib_ops.
    assert (Hf2 : fexp prec emax (Zpos (d + q) + Zneg q) = Zneg q).
    { rewrite fexp_small by lia. lia. }
    rewrite Hf2. rewrite Z.sub_diag.
    cbn [shr shr_m loc_of_shr_record round_nearest_even Zdigits2
         shr_record_of_loc].
    rewrite digits2_pos_iter_xO. rewrite <- Ed. stdlib_ops.
    rewrite Hf2, Z.sub_diag.
    cbn [shr shr_m].
    replace (Zneg q <=? emax - prec) with true
      by (symmetry; apply Z.leb_le; unfold emax, prec; lia).
    exists (Pos.iter xO p q), (Zneg q).
    split; [reflexivity|]. split; [lia|].
    cbn [Z.opp]. apply iter_xO_value.
Qed.

Lemma to_integer_of_Z : forall v,
  0 <= v < 2 ^ 24 -> Exact.to_integer (of_Z v) = Some v.
Proof.
  intros [|p|p] Hv; [reflexivity| |lia].
  destruct (of_Z_below_2_24 p) as (m & e & -> & He & Hm); [lia|].
  unfold Exact.to_integer.
  destruct (Z.leb_spec 0 e) as [H0|H0].
  - assert (e = 0) by lia. subst e. cbn in Hm. f_equal; cbn; lia.
  - assert (Hpow : 0 < 2 ^ (- e)) by (apply Z.pow_pos_nonneg; lia).
    rewrite Hm, Z.mod_mul, Z.div_mul by lia.
    cbn; f_equal; lia.
Qed.

(** Property X18.
    A CPU or disk reading below [2^24] is stored exactly: the float [Update]
    leaves is that integer, percentages from 0 to 100 in particular.  The
    bound is sharp: [2^24 + 1] is stored as [2^24]. *)
Theorem Update_stores_readings_below_2_24_exactly : forall svc m p m',
  m_pServices m = Some p ->
  Update svc m = Some m' ->
  (forall v,
     GetWmiPropertyValue svc CPU_QUERY "PercentProcessorTime" = Some v ->
     v < 2 ^ 24 -> Exact.to_integer (GetCpuLoad m') = Some v) /\
  (forall v,
     GetWmiPropertyValue svc DISK_QUERY "PercentDiskTime" = Some v ->
     v < 2 ^ 24 -> Exact.to_integer (GetDiskUsage m') = Some v) /\
  Exact.to_integer (of_Z (2 ^ 24 + 1)) = Some (2 ^ 24).
Proof.
  intros svc m p m' Hp HU.
  destruct (Update_metrics_independent _ _ _ _ Hp HU) as (Hc & _ & Hd & _).
  unfold GetCpuLoad, GetDiskUsage. rewrite Hc, Hd.
  unfold update_cpu, update_disk.
  split; [|split; [|vm_compute; reflexivity]].
  - intros v Hv Hlt. rewrite Hv. cbn [m_cpuLoad set_cpuLoad].
    apply to_integer_of_Z.
    pose proof (GetWmiPropertyValue_range _ _ _ _ Hv). lia.
  - intros v Hv Hlt. rewrite Hv. cbn [m_diskUsage set_diskUsage].
    apply to_integer_of_Z.
    pose proof (GetWmiPropertyValue_range _ _ _ _ Hv). lia.
Qed.

Lemma Update_stores_readings_below_2_24_exactly_witness :
  exists m',
    Update Scenario.busy_disk Scenario.connected = Some m' /\
    Exact.to_integer (GetCpuLoad m') = Some 37 /\
    Exact.to_integer (GetDiskUsage m') = Some 250.
Proof.
  eexists. split; [reflexivity|].
  pose proof (Update_stores_readings_below_2_24_exactly
                Scenario.busy_disk Scenario.connected 2%nat _ eq_refl eq_refl)
    as (Hc & Hd & _).
  split; [exact (Hc 37 eq_refl eq_refl) | exact (Hd 250 eq_refl eq_refl)].
Defined.

(** * [WinMain] *)

(** A failed [Initialize] leaves the COM state as it found it. *)
Lemma Initialize_failure_neutral : forall env m w,
  fst (fst (Initialize env m)) = false ->
  com_same w (com_run (snd (Initialize env m)) w).
Proof.
  intros [h1 h2 [h3 a] [h4 b] h5] m w.
  unfold Initialize, out_pointer, com_run.
  cbn [CoInitializeEx CoInitializeSecurity CoCreateInstance ConnectServer
       CoSetProxyBlanket fst snd].
  destruct (FAILED h1) eqn:E1;
    [|destruct (FAILED h2) eqn:E2;
      [|destruct (FAILED h3) eqn:E3;
        [|destruct (FAILED h4) eqn:E4;
          [|destruct (FAILED h5) eqn:E5]]]];
    cbn [fst snd app fold_left com_step add_ref
         m_pLocator m_pServices set_pLocator set_pServices nullptr];
    rewrite ?E1; intros H; try discriminate H.
  - apply com_same_refl.
  - apply uninitialize_after_initialize, com_same_refl.
  - apply uninitialize_after_initialize, com_same_refl.
  - apply uninitialize_after_initialize, release_add_ref.
  - apply uninitialize_after_initialize, release_release_add_ref_add_ref.
Qed.

(** The reference counting calls and [CoUninitialize] act alike on equal
    COM states, and commute. *)
Lemma release_com_same : forall p w w',
  com_same w w' -> com_same (release p w) (release p w').
Proof.
  intros [a|] w w' (H1 & H2 & H3 & H4); unfold com_same, release.
  - rewrite (H2 a). destruct (refcount w a);
      cbn [apartment refcount bad_releases unbalanced_uninits];
      repeat split; try congruence.
    intros b. rewrite H2. reflexivity.
  - cbn [apartment refcount bad_releases unbalanced_uninits].
    repeat split; congruence.
Qed.

Lemma add_ref_com_same : forall p w w',
  com_same w w' -> com_same (add_ref p w) (add_ref p w').
Proof.
  intros [a|] w w' (H1 & H2 & H3 & H4); unfold com_same, add_ref;
    cbn [apartment refcount bad_releases unbalanced_uninits];
    repeat split; try congruence.
  intros b. rewrite H2. reflexivity.
Qed.

Lemma d3d_run_com_same : forall tr w w',
  com_same w w' ->
  com_same (D3D11Renderer.d3d_run tr w) (D3D11Renderer.d3d_run tr w').
Proof.
  unfold D3D11Renderer.d3d_run.
  induction tr as [|c tr IH]; intros w w' H; [exact H|].
  cbn [fold_left]. apply IH.
  destruct c; cbn [D3D11Renderer.d3d_step];
    auto using release_com_same, add_ref_com_same.
Qed.

Lemma uninitialize_com_same : forall w w',
  com_same w w' ->
  com_same (com_step w Call_CoUninitialize) (com_step w' Call_CoUninitialize).
Proof.
  intros w w' (H1 & H2 & H3 & H4). unfold com_same, com_step.
  rewrite H1. destruct (apartment w);
    cbn [apartment refcount bad_releases unbalanced_uninits];
    repeat split; congruence.
Qed.

Lemma release_uninitialize : forall p w,
  release p (com_step w Call_CoUninitialize)
  = com_step (release p w) Call_CoUninitialize.
Proof.
  intros [a|] w; unfold release, com_step.
  - destruct (apartment w), (refcount w a) eqn:E; cbn; rewrite ?E; reflexivity.
  - destruct (apartment w); reflexivity.
Qed.

Lemma add_ref_uninitialize : forall p w,
  add_ref p (com_step w Call_CoUninitialize)
  = com_step (add_ref p w) Call_CoUninitialize.
Proof.
  intros [a|] w; unfold add_ref, com_step; destruct (apartment w); reflexivity.
Qed.

Lemma d3d_run_uninitialize : forall tr w,
  D3D11Renderer.d3d_run tr (com_step w Call_CoUninitialize)
  = com_step (D3D11Renderer.d3d_run tr w) Call_CoUninitialize.
Proof.
  unfold D3D11Renderer.d3d_run.
  induction tr as [|c tr IH]; intros w; [reflexivity|].
  cbn [fold_left]. rewrite <- IH. f_equal.
  destruct c; cbn [D3D11Renderer.d3d_step];
    rewrite ?add_ref_uninitialize, ?release_uninitialize; reflexivity.
Qed.

Lemma run_trace_app : forall t1 t2 w,
  Main.run_trace (t1 ++ t2) w = Main.run_trace t2 (Main.run_trace t1 w).
Proof. intros. unfold Main.run_trace. apply fold_left_app. Qed.

Lemma run_trace_OfRenderer : forall t w,
  Main.run_trace (map Main.OfRenderer t) w = D3D11Renderer.d3d_run t w.
Proof.
  unfold Main.run_trace, D3D11Renderer.d3d_run.
  induction t as [|c t IH]; intros w; [reflexivity|]. cbn [map fold_left].
  apply IH.
Qed.

Lemma run_trace_OfGui : forall t w,
  Main.run_trace (map Main.OfGui t) w = GuiLife.run_events t w.
Proof.
  unfold Main.run_trace, GuiLife.run_events.
  induction t as [|c t IH]; intros w; [reflexivity|]. cbn [map fold_left].
  apply IH.
Qed.

(** The message that ends the loop is the first [WM_QUIT] found. *)
Lemma quit_message_last : forall ticks q d,
  Main.quit_message ticks = Some q ->
  last (Main.pending_messages (Main.until_quit ticks)) d = q /\
  Main.message q = Main.WM_QUIT.
Proof.
  unfold Main.quit_message.
  induction ticks as [|[m|svc] rest IH]; intros q d H.
  - discriminate.
  - cbn [Main.pending_messages flat_map app find] in H.
    fold (Main.pending_messages rest) in H.
    cbn [Main.until_quit].
    destruct (Main.message m =? Main.WM_QUIT) eqn:E.
    + injection H as <-. split; [reflexivity|]. apply Z.eqb_eq. exact E.
    + cbn [Main.pending_messages flat_map app].
      fold (Main.pending_messages (Main.until_quit rest)).
      rewrite last_cons_default. apply IH. exact H.
  - cbn [Main.pending_messages flat_map app find Main.until_quit] in *.
    fold (Main.pending_messages rest) in H.
    fold (Main.pending_messages (Main.until_quit rest)).
    apply IH. exact H.
Qed.

(** Property X19.
    When the window, the renderer and the [Gui] initialise, the swap chain
    yields the [Gui] its back buffer and the loop finds a [WM_QUIT] message,
    [WinMain] returns the [wParam] of the first such message as an [int].
    By then every reference taken by the renderer, the [Gui] and the monitor
    has been released exactly once and none that was not held, although the
    explicit clean-up calls are commented out: the destructors do it.  COM
    is left with one [CoUninitialize] more than it was initialised. *)
Theorem WinMain_normal_exit_releases_everything : forall env q w,
  Main.CreateWindowEx env <> nullptr ->
  FAILED (fst (D3D11Renderer.D3D11CreateDeviceAndSwapChain
                 (Main.renderer_env env))) = false ->
  GuiLife.ImplWin32_Init (Main.gui_env env) = true ->
  GuiLife.ImplDX11_Init (Main.gui_env env) = true ->
  fst (fst (PerformanceMonitor.Initialize (GuiLife.com (Main.gui_env env))
              PerformanceMonitor.new)) = true ->
  GuiLife.GetBuffer (Main.gui_env env) <> nullptr ->
  Main.quit_message (Main.iterations env) = Some q ->
  Main.WinMain env <> Main.Undefined ->
  exists tr,
    Main.WinMain env = Main.Returned (Main.to_int (Main.wParam q)) tr /\
    com_same (com_step w Call_CoUninitialize) (Main.run_trace tr w).
Proof.
  intros [hwnd denv genv ticks] q w Hwnd Hd3d Hw32 Hdx Hmon Hbuf Hq Hdef.
  cbn [Main.CreateWindowEx Main.renderer_env Main.gui_env Main.iterations] in *.
  destruct hwnd as [hw|]; [clear Hwnd | contradiction Hwnd; reflexivity].
  unfold Main.WinMain in *.
  cbn [Main.CreateWindowEx Main.renderer_env Main.gui_env Main.iterations] in *.
  pose proof (Renderer_Initialize_Shutdown_events denv w) as HR.
  cbv zeta in HR. destruct HR as (Rok & Rsame & Rnew & Rnil).
  rewrite Hd3d in Rok. cbn [negb] in Rok.
  destruct (Renderer_Initialize_pointers denv Hd3d)
    as (dev & ctx & sc & Pdev & Pctx & Psc).
  destruct (D3D11Renderer.Initialize denv D3D11Renderer.new)
    as [[rok renderer] rcalls].
  cbn [fst snd] in *. subst rok. cbn [negb] in *.
  rewrite Rnil, app_nil_r in Rsame.
  rewrite Pdev, Pctx, Psc in *.
  destruct (Gui_Initialize_succeeds genv dev (Some ctx) sc History_init false
              Hw32 Hdx Hmon Hbuf) as (g & gevents & Gok).
  pose proof (fun svcs g' =>
                Gui_lifetime_events genv (Some dev) (Some ctx) (Some sc)
                  History_init false g gevents
                  svcs g' (D3D11Renderer.d3d_run rcalls w) Gok) as HG.
  cbv zeta in HG.
  rewrite Gok in *. cbn [negb] in *.
  pose proof (message_loop_from ticks (Main.enter_loop (GuiLife.core g))) as HL.
  cbn [Main.enter_loop Main.gui Main.dispatched Main.msg Main.message app] in HL.
  specialize (HL ltac:(discriminate)).
  destruct (quit_message_last ticks q (Main.mkMSG Main.WM_NULL 0 0) Hq)
    as [Hlast Hquit].
  rewrite Hlast in HL. rewrite HL in Hdef |- *.
  destruct (Session.frames _ (GuiLife.core g)) as [g'|] eqn:Hf;
    [|contradiction Hdef; reflexivity].
  clear Hdef. cbn [Main.msg Main.gui]. rewrite Hquit, Z.eqb_refl.
  destruct (HG _ g' Hf) as (Gsame & _).
  destruct (GuiLife.destroy (GuiLife.with_core g' g)) as [g2 devents].
  destruct (D3D11Renderer.Shutdown renderer) as [r2 scalls].
  cbn [fst snd] in *.
  eexists. split; [reflexivity|].
  rewrite !run_trace_app, !run_trace_OfRenderer, !run_trace_OfGui.
  change (Main.run_trace [Main.OfWin32 ?a; Main.OfWin32 ?b] ?x) with x.
  change (Main.run_trace [Main.OfWin32 ?a; Main.OfWin32 ?b; Main.OfWin32 ?c] ?x)
    with x.
  rewrite <- run_events_app.
  eapply com_same_trans;
    [|apply d3d_run_com_same; exact Gsame].
  rewrite d3d_run_uninitialize. apply uninitialize_com_same.
  unfold D3D11Renderer.d3d_run in *. rewrite <- fold_left_app. exact Rsame.
Qed.

Lemma WinMain_normal_exit_releases_everything_witness :
  exists tr,
    Main.WinMain Main.session_ok = Main.Returned 0 tr /\
    com_same (com_step ComState_init Call_CoUninitialize)
             (Main.run_trace tr ComState_init).
Proof.
  apply (WinMain_normal_exit_releases_everything
           Main.session_ok (Main.mkMSG Main.WM_QUIT 0 0) ComState_init);
    try reflexivity; discriminate.
Defined.

(** ** COM's initialisation count along a run *)

Lemma same_initialisation_refl : forall w, same_initialisation w w.
Proof. intros w. split; reflexivity. Qed.

Lemma same_initialisation_trans : forall w1 w2 w3,
  same_initialisation w1 w2 -> same_initialisation w2 w3 ->
  same_initialisation w1 w3.
Proof. intros w1 w2 w3 [A B] [C D]. split; congruence. Qed.

Lemma same_initialisation_sym : forall w1 w2,
  same_initialisation w1 w2 -> same_initialisation w2 w1.
Proof. intros w1 w2 [A B]. split; congruence. Qed.

Lemma com_same_initialisation : forall w w',
  com_same w w' -> same_initialisation w' w.
Proof. intros w w' (A & _ & _ & B). split; assumption. Qed.

Lemma release_initialisation : forall p w w',
  same_initialisation w w' -> same_initialisation (release p w) w'.
Proof.
  intros p w w' [A B]. split;
    rewrite ?apartment_release, ?unbalanced_release; assumption.
Qed.

Lemma add_ref_initialisation : forall p w w',
  same_initialisation w w' -> same_initialisation (add_ref p w) w'.
Proof.
  intros p w w' [A B]. split;
    rewrite ?apartment_add_ref, ?unbalanced_add_ref; assumption.
Qed.

Lemma uninitialize_initialisation : forall w w',
  same_initialisation w w' ->
  same_initialisation (com_step w Call_CoUninitialize)
                      (com_step w' Call_CoUninitialize).
Proof.
  intros w w' [A B]. split.
  - rewrite !apartment_uninitialize. rewrite A. reflexivity.
  - rewrite !unbalanced_uninitialize. rewrite A, B. reflexivity.
Qed.

Lemma d3d_run_initialisation : forall tr w w',
  same_initialisation w w' ->
  same_initialisation (D3D11Renderer.d3d_run tr w) w'.
Proof.
  unfold D3D11Renderer.d3d_run.
  induction tr as [|c tr IH]; intros w w' H; [exact H|].
  cbn [fold_left]. apply IH.
  destruct c; cbn [D3D11Renderer.d3d_step];
    auto using release_initialisation, add_ref_initialisation.
Qed.

(** [PerformanceMonitor::Shutdown] always ends with one [CoUninitialize]. *)
Lemma Shutdown_initialisation : forall m w w',
  same_initialisation w w' ->
  same_initialisation (com_run (snd (Shutdown m)) w)
                      (com_step w' Call_CoUninitialize).
Proof.
  intros [[l|] [s|] c me d] w w' H; unfold com_run;
    cbn [Shutdown m_pLocator m_pServices set_pLocator set_pServices snd app
         fold_left];
    rewrite ?com_step_release;
    apply uninitialize_initialisation;
    auto using release_initialisation.
Qed.

Lemma Shutdown_fst_Shutdown : forall m,
  snd (Shutdown (fst (Shutdown m))) = [Call_CoUninitialize].
Proof. intros [[l|] [s|] c me d]; reflexivity. Qed.

(** A [Gui::Initialize] that fails leaves COM initialised as often as
    before. *)
Lemma Gui_Initialize_failure_initialisation : forall env s s1 tr w w',
  GuiLife.Initialize env s = Some (false, s1, tr) ->
  same_initialisation w w' ->
  same_initialisation (GuiLife.run_events tr w) w'.
Proof.
  intros [w32 dx comenv buf view] s s1 tr w w'. unfold GuiLife.Initialize.
  cbn [GuiLife.ImplWin32_Init GuiLife.ImplDX11_Init GuiLife.com
       GuiLife.GetBuffer GuiLife.CreateRenderTargetView].
  destruct w32; [|intros [= <- <-] H; exact H].
  destruct dx; [|intros [= <- <-] H; exact H].
  cbn [negb].
  pose proof (Initialize_failure_neutral comenv
                (m_perfMonitor (GuiLife.core (GuiLife.with_context true s))) w)
    as HN.
  destruct (PerformanceMonitor.Initialize comenv _) as [[ok m] cc].
  cbn [fst snd] in *.
  destruct ok.
  - cbn [negb].
    destruct (GuiLife.m_pSwapChain _); [|intros H; discriminate H].
    destruct (GuiLife.m_pDevice _); [|intros H; discriminate H].
    destruct buf; intros H; discriminate H.
  - cbn [negb]. intros [= <- <-] H.
    unfold GuiLife.run_events. cbn [fold_left GuiLife.event_step].
    change (fold_left GuiLife.event_step ?t ?x) with (GuiLife.run_events t x).
    rewrite run_events_OfCom.
    eapply same_initialisation_trans; [|exact H].
    apply com_same_initialisation, HN. reflexivity.
Qed.

(** [Gui::Shutdown] uninitialises COM once, the destruction of a [Gui]
    twice. *)
Lemma Gui_Shutdown_initialisation : forall s w w',
  same_initialisation w w' ->
  same_initialisation (GuiLife.run_events (snd (GuiLife.Shutdown s)) w)
                      (com_step w' Call_CoUninitialize) /\
  snd (PerformanceMonitor.Shutdown
         (m_perfMonitor (GuiLife.core (fst (GuiLife.Shutdown s)))))
    = [Call_CoUninitialize].
Proof.
  intros s w w' H. unfold GuiLife.Shutdown.
  pose proof (Shutdown_initialisation (m_perfMonitor (GuiLife.core s)) w w' H)
    as HS.
  pose proof (Shutdown_fst_Shutdown (m_perfMonitor (GuiLife.core s))) as H2.
  destruct (PerformanceMonitor.Shutdown (m_perfMonitor (GuiLife.core s)))
    as [m cc].
  cbn [fst snd] in *.
  destruct s as [core dv dc sc [v|] [|]];
    cbn [GuiLife.with_monitor GuiLife.with_core GuiLife.with_view
         GuiLife.with_context GuiLife.core GuiLife.m_pDevice
         GuiLife.m_pDeviceContext GuiLife.m_pSwapChain
         GuiLife.m_mainRenderTargetView GuiLife.imgui_context
         m_perfMonitor fst snd];
    (split; [|exact H2]);
    rewrite ?run_events_app, run_events_OfCom;
    unfold GuiLife.run_events;
    cbn [app fold_left GuiLife.event_step D3D11Renderer.d3d_step];
    auto using release_initialisation.
Qed.

(** A [Gui::Initialize] one of whose steps fails returns [false]. *)
Lemma Gui_Initialize_fails : forall env d c s h ctx,
  GuiLife.ImplWin32_Init env = false \/
  GuiLife.ImplDX11_Init env = false \/
  fst (fst (PerformanceMonitor.Initialize (GuiLife.com env)
              PerformanceMonitor.new)) = false ->
  exists s1 tr,
    GuiLife.Initialize env (GuiLife.construct d c s h ctx)
    = Some (false, s1, tr).
Proof.
  intros env d c s h ctx H. unfold GuiLife.Initialize.
  destruct (GuiLife.ImplWin32_Init env); [|eexists; eexists; reflexivity].
  destruct (GuiLife.ImplDX11_Init env); [|eexists; eexists; reflexivity].
  cbn [negb GuiLife.construct GuiLife.with_context GuiLife.core m_perfMonitor].
  destruct (PerformanceMonitor.Initialize (GuiLife.com env) PerformanceMonitor.new)
    as [[ok m] cc].
  cbn [fst snd] in H. destruct H as [H|[H|H]]; try discriminate H.
  subst ok. eexists. eexists. reflexivity.
Qed.

Lemma OfWin32_not_OfRenderer : forall c t, ~ In (Main.OfWin32 c) (map Main.OfRenderer t).
Proof. intros c t H. apply in_map_iff in H. destruct H as (x & H & _). discriminate H. Qed.

Lemma OfWin32_not_OfGui : forall c t, ~ In (Main.OfWin32 c) (map Main.OfGui t).
Proof. intros c t H. apply in_map_iff in H. destruct H as (x & H & _). discriminate H. Qed.

(** Property X20.
    When the window and the renderer exist but [Gui::Initialize] fails, for
    whatever reason, [WinMain] returns 1 after the monitor's [Shutdown] has
    run three times (in [gui.Shutdown()], in the destructor of the [Gui]
    and in the destructor of the monitor): COM ends up uninitialised three
    times more often than initialised.  The tray icon has been added and
    [DestroyWindow] is not called on this path. *)
Theorem WinMain_gui_failure_uninitializes_three_times : forall env w,
  Main.CreateWindowEx env <> nullptr ->
  FAILED (fst (D3D11Renderer.D3D11CreateDeviceAndSwapChain
                 (Main.renderer_env env))) = false ->
  GuiLife.ImplWin32_Init (Main.gui_env env) = false \/
  GuiLife.ImplDX11_Init (Main.gui_env env) = false \/
  fst (fst (PerformanceMonitor.Initialize (GuiLife.com (Main.gui_env env))
              PerformanceMonitor.new)) = false ->
  exists tr,
    Main.WinMain env = Main.Returned 1 tr /\
    same_initialisation
      (Main.run_trace tr w)
      (com_run [Call_CoUninitialize; Call_CoUninitialize; Call_CoUninitialize] w) /\
    In (Main.OfWin32 Main.Call_AddTrayIcon) tr /\
    ~ In (Main.OfWin32 Main.Call_DestroyWindow) tr.
Proof.
  intros [hwnd denv genv ticks] w Hwnd Hd3d Hfail.
  cbn [Main.CreateWindowEx Main.renderer_env Main.gui_env Main.iterations] in *.
  destruct hwnd as [hw|]; [clear Hwnd | contradiction Hwnd; reflexivity].
  unfold Main.WinMain.
  cbn [Main.CreateWindowEx Main.renderer_env Main.gui_env Main.iterations].
  pose proof (Renderer_Initialize_Shutdown_events denv w) as HR.
  cbv zeta in HR. destruct HR as (Rok & _ & _ & _).
  rewrite Hd3d in Rok. cbn [negb] in Rok.
  destruct (D3D11Renderer.Initialize denv D3D11Renderer.new)
    as [[rok renderer] rcalls].
  cbn [fst snd] in *. subst rok. cbn [negb].
  destruct (Gui_Initialize_fails genv
              (D3D11Renderer.GetD3DDevice renderer)
              (D3D11Renderer.GetD3DDeviceContext renderer)
              (D3D11Renderer.GetSwapChain renderer) History_init false
              Hfail) as (g & gevents & Gfail).
  pose proof (fun w w' =>
                Gui_Initialize_failure_initialisation genv _ g gevents
                  w w' Gfail) as Ginit.
  rewrite Gfail. cbn [negb].
  pose proof (fun w w' => Gui_Shutdown_initialisation g w w') as GS1.
  destruct (GuiLife.Shutdown g) as [g1 events1]. cbn [fst snd] in GS1.
  destruct (D3D11Renderer.Shutdown renderer) as [r1 calls1].
  unfold GuiLife.destroy.
  pose proof (fun w w' => Gui_Shutdown_initialisation g1 w w') as GS2.
  destruct (GuiLife.Shutdown g1) as [g2 events2]. cbn [fst snd] in GS2.
  pose proof (fun w w' =>
                Shutdown_initialisation (m_perfMonitor (GuiLife.core g2)) w w')
    as MS.
  destruct (PerformanceMonitor.Shutdown (m_perfMonitor (GuiLife.core g2)))
    as [m3 cc3]. cbn [snd] in MS.
  destruct (D3D11Renderer.Shutdown r1) as [r2 calls2].
  eexists. split; [reflexivity|]. split; [|split].
  - rewrite map_app, !run_trace_app, !run_trace_OfRenderer, !run_trace_OfGui.
    change (Main.run_trace [Main.OfWin32 ?a] ?x) with x.
    change (Main.run_trace [Main.OfWin32 ?a; Main.OfWin32 ?b] ?x) with x.
    change (Main.run_trace [Main.OfWin32 ?a; Main.OfWin32 ?b; Main.OfWin32 ?c] ?x)
      with x.
    unfold com_run. cbn [fold_left].
    apply d3d_run_initialisation.
    rewrite run_events_OfCom. apply MS.
    refine (proj1 (GS2 _ _ _)).
    apply d3d_run_initialisation.
    refine (proj1 (GS1 _ _ _)).
    apply Ginit. apply d3d_run_initialisation. apply same_initialisation_refl.
  - rewrite !in_app_iff. do 6 left. right. cbn. auto.
  - rewrite !in_app_iff. cbn [In].
    pose proof (OfWin32_not_OfRenderer Main.Call_DestroyWindow) as NR.
    pose proof (OfWin32_not_OfGui Main.Call_DestroyWindow) as NG.
    intuition (try discriminate; eauto).
Qed.

Lemma WinMain_gui_failure_uninitializes_three_times_witness :
  exists tr,
    Main.WinMain Main.session_gui_fails = Main.Returned 1 tr /\
    unbalanced_uninits (Main.run_trace tr ComState_init) = 3%nat.
Proof.
  destruct (WinMain_gui_failure_uninitializes_three_times
              Main.session_gui_fails ComState_init)
    as (tr & Hr & [_ Hu] & _).
  - discriminate.
  - reflexivity.
  - left. reflexivity.
  - exists tr. split; [exact Hr | exact Hu].
Defined.
